(** * StudyHub backend: the behaviour-classification and adaptive-policy loop

    A shallow embedding of the focus-analysis loop of [backend/main.py]:

    - [AntiGravityOrchestrator.infer_learning_event]  (event classifier),
    - [AntiGravityOrchestrator.log_decision]          (decision logger),
    - [AntiGravityOrchestrator.should_teach],
    - [AntiGravityOrchestrator.generate_focus_plan],
    - [AntiGravityOrchestrator.adapt_plan]            (plan adapter),
    - [analyze_focus] from the result of the face detection on (the loop
      that draws a detected face, temporal smoother, intervention gate,
      logging gate, escalation, the log of the session, the [except]
      branch),
    - the endpoints [save_focus_session], [get_student_model],
      [get_decision_logs], [get_learning_events] and [adapt_focus_plan],
    - [OpenNoteCorrelationEngine]                     (reaction correlations),
    - [FocusSession] with [FocusSessionManager.record_interaction] and
      [log_focus_behavior],
    - [AntiGravityOrchestrator.update_concept_node]   (knowledge graph).

    Conventions of the embedding.

    - Python dicts with a fixed set of keys are records; a key that the code
      reads with [.get(key, default)] is an [option] field, [None] standing
      for an absent key.
    - The process-wide dicts [STUDENT_MODELS], [LEARNING_EVENTS] and
      [DECISION_LOGS] are finite maps keyed by user id, [FOCUS_SESSIONS] is
      one keyed by session id; they are threaded through every function
      that touches them.
    - Python floats are binary64 values ([PrimFloat.float]); Python ints are
      [Z].
    - [datetime.now()] is an argument of each function that reads the clock.
      A [datetime] is a number of microseconds; [isoformat] followed by
      [fromisoformat] is the identity on such values, so timestamps are
      stored as they are.  [datetime.now().timestamp()] is a float argument.
    - The uuid of a decision or plan and the human-readable texts built with
      f-strings ([reason], [change], [rationale], [alternatives_considered])
      are never read back by the code and are left out of the records.
    - A dict that the code builds itself is a record with the field types
      the code gives it (student models, plans, decisions).  The
      [behavioral_signals] dict of the classifier is read field by field
      with Python's truth test and comparisons, so its values are kept as
      they come ([pyval]) and a comparison that Python refuses raises
      [TypeError] in the model too.  The timestamp of an adaptation is
      kept as [datetime.fromisoformat] sees it ([Stamp]), so the cooldown
      test of [adapt_plan] raises in the model where it raises in the
      source.  The other fields of a focus plan keep the types that
      [generate_focus_plan] and [adapt_plan] write: a plan sent by a client
      with ["adaptations"] null or with a duration that is not a number
      makes the source raise at the first operation on that value and is
      outside the model; nothing below says that [adapt_plan] returns on
      such a plan.
    - An exception is a value of [Exn]; the [except] branch of an endpoint
      answers with [str(e)], which is not modelled beyond the exception.
    - Image decoding and face detection are external: [analyze_focus]
      receives [len(faces)].  What follows the detection is modelled: the
      loop that draws a detected face reads [gray], a local that is bound
      only when the Haar cascade did the detection, and [eye_cascade], a
      name bound nowhere in the module, so a request with a detected face
      raises [NameError] there, before the student-model update, and is
      answered by the [except] branch with the state as it was. *)

From Stdlib Require Import ZArith Lia Bool.
From Stdlib Require Import Floats.PrimFloat Uint63.
From Stdlib Require Floats.FloatAxioms.
From stdpp Require Import base option list strings gmap.

Set Warnings "-inexact-float".

#[local] Open Scope string_scope.
#[local] Open Scope list_scope.
#[local] Open Scope Z_scope.

(** ** Python helpers *)

Definition datetime : Type := Z.

(** [float(n)] for a small non-negative int. *)
Definition float_of_nat (n : nat) : float :=
  PrimFloat.of_uint63 (Uint63.of_Z (Z.of_nat n)).

(** [a / b] on two small ints: true division, correctly rounded. *)
Definition true_div (a b : nat) : float :=
  PrimFloat.div (float_of_nat a) (float_of_nat b).

(** [x > y], [x >= y] and [x < y] on floats. *)
Definition fgt (x y : float) : bool := PrimFloat.ltb y x.
Definition fge (x y : float) : bool := PrimFloat.leb y x.

(** [needle in hay] on strings. *)
Fixpoint contains (needle hay : string) : bool :=
  String.prefix needle hay ||
  match hay with
  | EmptyString => false
  | String _ rest => contains needle rest
  end.

(** [l[-n:]] *)
Definition last_n {A} (n : nat) (l : list A) : list A :=
  drop (length l - n) l.

(** [x in l] for a list of optional strings. *)
Definition mem_opt (x : string) (l : list (option string)) : bool :=
  existsb (fun y => match y with Some s => String.eqb x s | None => false end) l.

(** Truth value of an optional string: [None] and the empty string are false. *)
Definition truthy (o : option string) : bool :=
  match o with
  | Some s => negb (String.eqb s "")
  | None => false
  end.

(** [a == b] on optional strings ([None] is Python's [None]). *)
Definition opt_str_eqb (a b : option string) : bool :=
  match a, b with
  | Some x, Some y => String.eqb x y
  | None, None => true
  | _, _ => false
  end.

(** ** Exceptions *)

(** The exceptions raised by the code below.  [NameError] stands for a name
    that is not bound, [UnboundLocalError] included. *)
Inductive Exn :=
| NameError
| KeyError (key : string)
| AttributeError
| TypeError
| ValueError.

(** A computation that returns a value or raises. *)
Inductive result (A : Type) : Type :=
| Value (x : A)
| Throw (e : Exn).
Arguments Value {A} x.
Arguments Throw {A} e.

Definition bind {A B} (r : result A) (k : A -> result B) : result B :=
  match r with
  | Value x => k x
  | Throw e => Throw e
  end.

Notation "'let*' x := r 'in' k" := (bind r (fun x => k))
  (at level 10, x name, r at level 100, k at level 200).

(** ** Values of a request body *)

(** A JSON value as Python holds it; [PSeq n] is a list or a dict of [n]
    items. *)
Inductive pyval :=
| PNone
| PBool (b : bool)
| PInt (z : Z)
| PFloat (f : float)
| PStr (s : string)
| PSeq (n : nat).

(** [bool(v)] *)
Definition py_truth (v : pyval) : bool :=
  match v with
  | PNone => false
  | PBool b => b
  | PInt z => negb (z =? 0)
  | PFloat f => negb (PrimFloat.eqb f 0.0%float)
  | PStr s => negb (String.eqb s "")
  | PSeq n => negb (n =? 0)%nat
  end.

(** [v > 0.5]: an int is above one half when it is at least 1. *)
Definition py_gt_half (v : pyval) : result bool :=
  match v with
  | PBool b => Value b
  | PInt z => Value (0 <? z)
  | PFloat f => Value (fgt f 0.5%float)
  | _ => Throw TypeError
  end.

(** [v > c] and [v < c] for a small int [c]. *)
Definition py_gt_int (v : pyval) (c : Z) : result bool :=
  match v with
  | PBool b => Value (c <? Z.b2z b)
  | PInt z => Value (c <? z)
  | PFloat f => Value (fgt f (PrimFloat.of_uint63 (Uint63.of_Z c)))
  | _ => Throw TypeError
  end.

Definition py_lt_int (v : pyval) (c : Z) : result bool :=
  match v with
  | PBool b => Value (Z.b2z b <? c)
  | PInt z => Value (z <? c)
  | PFloat f => Value (PrimFloat.ltb f (PrimFloat.of_uint63 (Uint63.of_Z c)))
  | _ => Throw TypeError
  end.

(** [v == 0] *)
Definition py_eq_zero (v : pyval) : bool :=
  match v with
  | PBool b => negb b
  | PInt z => z =? 0
  | PFloat f => PrimFloat.eqb f 0.0%float
  | _ => false
  end.

(** ** Learning events *)

Module LearningEventType.
Definition SUSTAINED_FOCUS := "sustained_focus".
Definition SHALLOW_ENGAGEMENT := "shallow_engagement".
Definition CONFUSION_SILENT := "confusion_without_asking".
Definition COGNITIVE_OVERLOAD := "cognitive_overload".
Definition DISTRACTION_PHONE := "distraction_phone".
Definition DISTRACTION_ENVIRONMENT := "distraction_environment".
Definition FATIGUE := "fatigue".
Definition SUCCESSFUL_APPLICATION := "successful_application".
Definition DISENGAGEMENT_POST_EXPLANATION := "disengagement_after_explanation".
Definition RECOVERY := "recovery".
Definition ATTENTION_DROP := "attention_drop".
End LearningEventType.

(** The [behavioral_signals] dict: a key is absent or holds a value. *)
Record Signals := mkSignals {
  sig_face_present : option pyval;
  sig_eyes_open : option pyval;
  sig_gaze_stable : option pyval;
  sig_distraction_level : option pyval;
  sig_time_on_content : option pyval;
  sig_interaction_count : option pyval
}.

(** The signals whose present values have the kinds their names announce:
    three flags, a float and two ints. *)
Record TypedSignals := mkTyped {
  typed_face_present : option bool;
  typed_eyes_open : option bool;
  typed_gaze_stable : option bool;
  typed_distraction_level : option float;
  typed_time_on_content : option Z;
  typed_interaction_count : option Z
}.

Definition signals_of (s : TypedSignals) : Signals :=
  {| sig_face_present := PBool <$> typed_face_present s;
     sig_eyes_open := PBool <$> typed_eyes_open s;
     sig_gaze_stable := PBool <$> typed_gaze_stable s;
     sig_distraction_level := PFloat <$> typed_distraction_level s;
     sig_time_on_content := PInt <$> typed_time_on_content s;
     sig_interaction_count := PInt <$> typed_interaction_count s |}.

Record LearningEvent := mkEvent {
  ev_timestamp : datetime;
  event_type : option string;
  evidence : Signals;
  confidence : float;
  should_intervene : bool;
  intervention_type : option string
}.

Definition set_rule (e : LearningEvent) (ty : string) (conf : float)
    (intervene : bool) (itype : option string) : LearningEvent :=
  {| ev_timestamp := ev_timestamp e; event_type := Some ty;
     evidence := evidence e; confidence := conf;
     should_intervene := intervene; intervention_type := itype |}.

Definition relabel (e : LearningEvent) (ty : string) (conf : float) : LearningEvent :=
  {| ev_timestamp := ev_timestamp e; event_type := Some ty;
     evidence := evidence e; confidence := conf;
     should_intervene := should_intervene e;
     intervention_type := intervention_type e |}.

(** ["distraction" in (e.get("event_type") or "")] *)
Definition is_distraction_event (e : LearningEvent) : bool :=
  contains "distraction" (default "" (event_type e)).

(** The [if]/[elif] chain.  Each comparison is evaluated where Python
    evaluates it: [and] stops at its first false operand. *)
Definition classify (event : LearningEvent) (behavioral_signals : Signals)
  : result LearningEvent :=
  let face_present := default (PBool true) (sig_face_present behavioral_signals) in
  let eyes_open := default (PBool true) (sig_eyes_open behavioral_signals) in
  let gaze_stable := default (PBool true) (sig_gaze_stable behavioral_signals) in
  let distraction_level :=
    default (PFloat 0.0%float) (sig_distraction_level behavioral_signals) in
  let time_on_content := default (PInt 0) (sig_time_on_content behavioral_signals) in
  let interaction_count :=
    default (PInt 0) (sig_interaction_count behavioral_signals) in
  if negb (py_truth face_present) then
    let* intervene := py_gt_half distraction_level in
    Value (set_rule event LearningEventType.DISTRACTION_ENVIRONMENT 0.9%float
             intervene (Some "gentle_refocus"))
  else
    let* long := py_gt_int time_on_content 120 in
    if long && py_eq_zero interaction_count then
      Value (set_rule event LearningEventType.COGNITIVE_OVERLOAD 0.7%float
               true (Some "simplify_content"))
    else
      let* short := py_lt_int time_on_content 10 in
      if short && py_truth gaze_stable then
        Value (set_rule event LearningEventType.SHALLOW_ENGAGEMENT 0.6%float
                 false (intervention_type event))
      else if py_truth gaze_stable && py_truth eyes_open then
        let* steady := py_gt_int time_on_content 30 in
        if steady then
          Value (set_rule event LearningEventType.SUSTAINED_FOCUS 0.85%float
                   false (intervention_type event))
        else Value event
      else Value event.

(** A call that raises has stored nothing. *)
Definition infer_learning_event
    (LEARNING_EVENTS : gmap string (list LearningEvent))
    (user_id : string) (behavioral_signals : Signals) (timestamp : datetime)
  : result (LearningEvent * gmap string (list LearningEvent)) :=
  let event :=
    {| ev_timestamp := timestamp; event_type := None;
       evidence := behavioral_signals; confidence := 0.0%float;
       should_intervene := false; intervention_type := None |} in
  let history := last_n 10 (default [] (LEARNING_EVENTS !! user_id)) in
  let* event := classify event behavioral_signals in
  let recent_distractions := List.filter is_distraction_event history in
  let event :=
    if (0 <? length recent_distractions)%nat
       && opt_str_eqb (event_type event) (Some LearningEventType.SUSTAINED_FOCUS)
    then relabel event LearningEventType.RECOVERY 0.75%float
    else event in
  let stored := default [] (LEARNING_EVENTS !! user_id) ++ [event] in
  Value (event, <[user_id := stored]> LEARNING_EVENTS).

(** ** Decisions, plans and the student model *)

(** The [trigger_event] dict of [adapt_plan]. *)
Record TriggerEvent := mkTrigger {
  trig_event_type : option string;
  trig_distraction_type : option string;
  trig_distraction_level : option pyval;
  trig_distraction_count : option Z
}.

(** What a decision carries as [triggering_evidence]. *)
Inductive Evidence :=
| EvSignals (s : Signals)
| EvTrigger (t : TriggerEvent)
| EvPlanStats (sessions_completed distractions_today avg_focus : Z).

Record Decision := mkDecision {
  dec_timestamp : datetime;
  action : string;
  triggering_evidence : Evidence;
  dec_user_id : string
}.

(** What an adaptation holds under ["timestamp"], as
    [datetime.fromisoformat] and the subtraction from [datetime.now()] see
    it: an ISO string without a UTC offset (what [adapt_plan] writes), an
    ISO string with one, a string that is not ISO, or a value that is not a
    string. *)
Inductive Stamp :=
| Naive (t : datetime)
| Aware (t : datetime)
| NotIso
| NotText.

Record Adaptation := mkAdaptation {
  adapt_type : string;
  new_duration : option Z;
  new_break_interval : option Z;
  adapt_timestamp : option Stamp
}.

Record Task := mkTask {
  task_name : string;
  priority : option Z
}.

Record FocusPlan := mkPlan {
  plan_user_id : string;
  created_at : datetime;
  recommended_duration_minutes : option Z;
  break_interval_minutes : option Z;
  break_duration_minutes : Z;
  tasks : option (list Task);
  adaptations : option (list Adaptation);
  plan_confidence : float
}.

(** One entry of [status_history]. *)
Record FrameState := mkFrame {
  is_distracted : bool;
  frame_type : option string;
  face_present : bool
}.

Record StudentModel := mkModel {
  distraction_count : Z;
  total_focus_time : Z;
  status_history : option (list FrameState);
  last_log_time : option float;
  last_intervention_time : option float;
  last_intervention_type : option string;
  last_distraction_status : option bool;
  current_focus_plan : option FocusPlan;
  current_content_time : option Z;
  interaction_count : option Z;
  preferred_work_duration : option Z;
  sessions_completed : option Z
}.

(** [STUDENT_MODELS.get(user_id, {}).get("distraction_count", 0)] *)
Definition lookup_distraction_count
    (STUDENT_MODELS : gmap string StudentModel) (user_id : string) : Z :=
  match STUDENT_MODELS !! user_id with
  | Some m => distraction_count m
  | None => 0
  end.

Definition log_decision (now : datetime)
    (DECISION_LOGS : gmap string (list Decision))
    (user_id : string) (act : string) (ev : Evidence)
  : Decision * gmap string (list Decision) :=
  let decision :=
    {| dec_timestamp := now; action := act;
       triggering_evidence := ev; dec_user_id := user_id |} in
  let stored := default [] (DECISION_LOGS !! user_id) ++ [decision] in
  (decision, <[user_id := stored]> DECISION_LOGS).

Definition should_teach
    (LEARNING_EVENTS : gmap string (list LearningEvent)) (user_id : string)
  : bool * string :=
  let events := last_n 5 (default [] (LEARNING_EVENTS !! user_id)) in
  let recent_event_types := map event_type events in
  if mem_opt LearningEventType.COGNITIVE_OVERLOAD recent_event_types then
    (false, "Cognitive overload detected - simplify before teaching")
  else
    let distraction_count :=
      length (List.filter
                (fun e => match e with
                          | Some s => negb (String.eqb s "") && contains "distraction" s
                          | None => false
                          end) recent_event_types) in
    if (2 <=? distraction_count)%nat then
      (false, "Multiple distractions detected - wait for attention recovery")
    else if mem_opt LearningEventType.SUSTAINED_FOCUS recent_event_types then
      (true, "Student showing sustained focus - optimal teaching moment")
    else if mem_opt LearningEventType.RECOVERY recent_event_types then
      (true, "Student recovered attention - reinforce with teaching")
    else (false, "Insufficient behavioral evidence for teaching readiness").

Definition generate_focus_plan (now : datetime)
    (STUDENT_MODELS : gmap string StudentModel)
    (DECISION_LOGS : gmap string (list Decision))
    (user_id : string) (goal_minutes : Z)
  : FocusPlan * gmap string (list Decision) :=
  let model := STUDENT_MODELS !! user_id in
  let avg_focus := default 25 (model ≫= preferred_work_duration) in
  let distractions_today := lookup_distraction_count STUDENT_MODELS user_id in
  let sessions := default 0 (model ≫= sessions_completed) in
  let recommended_duration := Z.min avg_focus goal_minutes in
  let recommended_duration :=
    if 10 <? distractions_today
    then Z.max 10 (recommended_duration - 10)
    else recommended_duration in
  let break_interval := recommended_duration in
  let break_duration := if 25 <=? recommended_duration then 5 else 3 in
  let plan :=
    {| plan_user_id := user_id; created_at := now;
       recommended_duration_minutes := Some recommended_duration;
       break_interval_minutes := Some break_interval;
       break_duration_minutes := break_duration;
       tasks := None; adaptations := Some [];
       plan_confidence := if 0 <? sessions then 0.7%float else 0.5%float |} in
  let '(_, logs) :=
    log_decision now DECISION_LOGS user_id "generate_focus_plan"
      (EvPlanStats sessions distractions_today avg_focus) in
  (plan, logs).

(** *** The plan adapter *)

(** The 2 minute cooldown: [(datetime.now() - last_time).total_seconds() < 120],
    where [last_time] is the timestamp of [adaptations[-1]] (or the clock
    itself when that entry has no timestamp).  On microsecond values the
    comparison is exact.  [fromisoformat] raises [TypeError] on a value
    that is not a string and [ValueError] on a string that is not ISO; the
    subtraction raises [TypeError] when the timestamp has a UTC offset,
    [datetime.now()] having none. *)
Definition cooldown_active (now : datetime) (l : list Adaptation) : result bool :=
  match last l with
  | Some last_adaptation =>
      let* last_time :=
        match default (Naive now) (adapt_timestamp last_adaptation) with
        | Naive t => Value t
        | Aware _ => Throw TypeError
        | NotIso => Throw ValueError
        | NotText => Throw TypeError
        end in
      Value ((now - last_time) <? 120 * 1000000)
  | None => Value false
  end.

Definition set_durations (p : FocusPlan) (d : Z) (b : option Z) : FocusPlan :=
  {| plan_user_id := plan_user_id p; created_at := created_at p;
     recommended_duration_minutes := Some d;
     break_interval_minutes := b;
     break_duration_minutes := break_duration_minutes p;
     tasks := tasks p; adaptations := adaptations p;
     plan_confidence := plan_confidence p |}.

Definition set_tasks (p : FocusPlan) (t : option (list Task)) : FocusPlan :=
  {| plan_user_id := plan_user_id p; created_at := created_at p;
     recommended_duration_minutes := recommended_duration_minutes p;
     break_interval_minutes := break_interval_minutes p;
     break_duration_minutes := break_duration_minutes p;
     tasks := t; adaptations := adaptations p;
     plan_confidence := plan_confidence p |}.

Definition set_adaptations (p : FocusPlan) (l : list Adaptation) : FocusPlan :=
  {| plan_user_id := plan_user_id p; created_at := created_at p;
     recommended_duration_minutes := recommended_duration_minutes p;
     break_interval_minutes := break_interval_minutes p;
     break_duration_minutes := break_duration_minutes p;
     tasks := tasks p; adaptations := Some l;
     plan_confidence := plan_confidence p |}.

(** The body of the loop over [tasks] in the overload rule. *)
Definition demote (t : Task) : Task :=
  if 2 <? default 3 (priority t)
  then {| task_name := task_name t; priority := Some (default 3 (priority t) - 1) |}
  else t.

(** How a call ends: with [return current_plan], or with an exception after
    the in-place changes made so far. *)
Inductive outcome := Returned | Raised (e : Exn).

(** The rule chain: the adaptation chosen (if any) and the plan after the
    in-place assignments of the matching branch. *)
Definition select_adaptation (now : datetime) (distraction_count : Z)
    (current_plan : FocusPlan) (trigger_event : TriggerEvent)
  : option Adaptation * FocusPlan :=
  let distraction_type := trig_distraction_type trigger_event in
  let event_type := trig_event_type trigger_event in
  let original_duration := default 25 (recommended_duration_minutes current_plan) in
  if opt_str_eqb distraction_type (Some "phone_use") then
    let new_duration := Z.max 10 (original_duration - 5) in
    let new_break_interval := Z.min new_duration 15 in
    (Some {| adapt_type := "reduce_focus_time";
             new_duration := Some new_duration;
             new_break_interval := Some new_break_interval;
             adapt_timestamp := Some (Naive now) |},
     set_durations current_plan new_duration (Some new_break_interval))
  else if opt_str_eqb distraction_type (Some "looking_away")
          && (3 <? distraction_count) then
    let new_duration := Z.max 15 (original_duration - 10) in
    let new_break_interval := Z.max 10 (original_duration / 2) in
    (Some {| adapt_type := "decompose_goal";
             new_duration := Some new_duration;
             new_break_interval := Some new_break_interval;
             adapt_timestamp := Some (Naive now) |},
     set_durations current_plan new_duration (Some new_break_interval))
  else if opt_str_eqb event_type (Some LearningEventType.COGNITIVE_OVERLOAD) then
    (Some {| adapt_type := "simplify_tasks";
             new_duration := None; new_break_interval := None;
             adapt_timestamp := Some (Naive now) |},
     set_tasks current_plan (option_map (map demote) (tasks current_plan)))
  else if opt_str_eqb event_type (Some LearningEventType.SUSTAINED_FOCUS) then
    let new_duration := Z.min (original_duration + 5) 45 in
    (Some {| adapt_type := "extend_block";
             new_duration := Some new_duration;
             new_break_interval := None;
             adapt_timestamp := Some (Naive now) |},
     set_durations current_plan new_duration (break_interval_minutes current_plan))
  else (None, current_plan).

Definition adapt_plan (now : datetime)
    (STUDENT_MODELS : gmap string StudentModel)
    (DECISION_LOGS : gmap string (list Decision))
    (user_id : string) (current_plan : FocusPlan) (trigger_event : TriggerEvent)
  : outcome * FocusPlan * gmap string (list Decision) :=
  match cooldown_active now (default [] (adaptations current_plan)) with
  | Throw e => (Raised e, current_plan, DECISION_LOGS)
  | Value true => (Returned, current_plan, DECISION_LOGS)
  | Value false =>
    let distraction_count := lookup_distraction_count STUDENT_MODELS user_id in
    match select_adaptation now distraction_count current_plan trigger_event with
    | (Some adaptation, plan) =>
        match adaptations plan with
        | None => (Raised (KeyError "adaptations"), plan, DECISION_LOGS)
        | Some l =>
            let '(_, logs) :=
              log_decision now DECISION_LOGS user_id
                ("adapt_plan_" +:+ adapt_type adaptation)
                (EvTrigger trigger_event) in
            (Returned, set_adaptations plan (l ++ [adaptation]), logs)
        end
    | (None, plan) => (Returned, plan, DECISION_LOGS)
    end
  end.

(** ** The analysis tick *)

(** One entry of a session's ["distraction_log"]: an entry that came with
    the saved session, or the one a tick appends. *)
Inductive LogEntry :=
| ClientEntry
| TickEntry (timestamp : datetime) (type : option string) (level : float)
            (learning_event : option string).

(** What a saved session holds under ["distraction_log"]: no such key, a
    value that is not a list (it has no [append]), or a list. *)
Inductive LogSlot :=
| NoLog
| NotAList
| LogList (entries : list LogEntry).

(** A value of [FOCUS_SESSIONS]: the session dict of the request with the
    keys that [save_focus_session] adds.  The other keys of the request's
    dict are never read. *)
Record SavedSession := mkSaved {
  saved_user_id : string;
  saved_duration : Z;
  saved_completed : bool;
  distraction_log : LogSlot
}.

Record State := mkState {
  STUDENT_MODELS : gmap string StudentModel;
  LEARNING_EVENTS : gmap string (list LearningEvent);
  DECISION_LOGS : gmap string (list Decision);
  FOCUS_SESSIONS : gmap string SavedSession
}.

(** The payload returned by a tick that runs to the end. *)
Record Analysis := mkAnalysis {
  distraction_detected : bool;
  distraction_type : option string;
  distraction_level : float;
  intervention : option string;
  faces_detected : nat;
  learning_event : LearningEvent;
  resp_should_intervene : bool;
  teaching_ready : bool;
  focus_plan : option FocusPlan;
  plan_adapted : bool
}.

(** [Fallback e] is the payload of the [except] branch for the exception
    [e]: no distraction, no intervention, and [str(e)] as ["error"]. *)
Inductive Response :=
| Ok (a : Analysis)
| Fallback (e : Exn).

Definition response_intervention (r : Response) : option string :=
  match r with Ok a => intervention a | Fallback _ => None end.

Definition response_distraction_detected (r : Response) : bool :=
  match r with Ok a => distraction_detected a | Fallback _ => false end.

Definition response_distraction_type (r : Response) : option string :=
  match r with Ok a => distraction_type a | Fallback _ => None end.


Definition refocus_message : string :=
  "Hey! I noticed you might be looking away. Let's refocus!".
Definition break_message : string :=
  "You've been distracted a few times. Want to take a 5-minute break?".
Definition tired_message : string :=
  "I notice you might be getting tired. A short break could help you focus better.".
Definition simplify_message : string :=
  "Let's break this down into smaller pieces. What part would you like to focus on?".

(** The dict stored for a user seen for the first time by [analyze_focus]. *)
Definition fresh_student_model : StudentModel :=
  {| distraction_count := 0; total_focus_time := 0;
     status_history := Some [];
     last_log_time := None; last_intervention_time := None;
     last_intervention_type := None; last_distraction_status := None;
     current_focus_plan := None; current_content_time := None;
     interaction_count := None; preferred_work_duration := None;
     sessions_completed := None |}.

(** [if request.user_id not in STUDENT_MODELS: STUDENT_MODELS[...] = {...}] *)
Definition lazy_init (models : gmap string StudentModel) (user_id : string)
  : gmap string StudentModel :=
  match models !! user_id with
  | Some _ => models
  | None => <[user_id := fresh_student_model]> models
  end.

(** In-place updates of the student model. *)
Definition with_tick (m : StudentModel) (history : list FrameState)
    (status : bool) (itime : option float) (itype : option string) : StudentModel :=
  {| distraction_count := distraction_count m;
     total_focus_time := total_focus_time m;
     status_history := Some history;
     last_log_time := last_log_time m;
     last_intervention_time := itime;
     last_intervention_type := itype;
     last_distraction_status := Some status;
     current_focus_plan := current_focus_plan m;
     current_content_time := current_content_time m;
     interaction_count := interaction_count m;
     preferred_work_duration := preferred_work_duration m;
     sessions_completed := sessions_completed m |}.

Definition with_counters (m : StudentModel) (count focus_time : Z) : StudentModel :=
  {| distraction_count := count;
     total_focus_time := focus_time;
     status_history := status_history m;
     last_log_time := last_log_time m;
     last_intervention_time := last_intervention_time m;
     last_intervention_type := last_intervention_type m;
     last_distraction_status := last_distraction_status m;
     current_focus_plan := current_focus_plan m;
     current_content_time := current_content_time m;
     interaction_count := interaction_count m;
     preferred_work_duration := preferred_work_duration m;
     sessions_completed := sessions_completed m |}.

Definition with_log_time (m : StudentModel) (t : float) : StudentModel :=
  {| distraction_count := distraction_count m;
     total_focus_time := total_focus_time m;
     status_history := status_history m;
     last_log_time := Some t;
     last_intervention_time := last_intervention_time m;
     last_intervention_type := last_intervention_type m;
     last_distraction_status := last_distraction_status m;
     current_focus_plan := current_focus_plan m;
     current_content_time := current_content_time m;
     interaction_count := interaction_count m;
     preferred_work_duration := preferred_work_duration m;
     sessions_completed := sessions_completed m |}.

Definition with_plan (m : StudentModel) (p : FocusPlan) : StudentModel :=
  {| distraction_count := distraction_count m;
     total_focus_time := total_focus_time m;
     status_history := status_history m;
     last_log_time := last_log_time m;
     last_intervention_time := last_intervention_time m;
     last_intervention_type := last_intervention_type m;
     last_distraction_status := last_distraction_status m;
     current_focus_plan := Some p;
     current_content_time := current_content_time m;
     interaction_count := interaction_count m;
     preferred_work_duration := preferred_work_duration m;
     sessions_completed := sessions_completed m |}.

Definition with_history (m : StudentModel) (history : list FrameState)
  : StudentModel :=
  {| distraction_count := distraction_count m;
     total_focus_time := total_focus_time m;
     status_history := Some history;
     last_log_time := last_log_time m;
     last_intervention_time := last_intervention_time m;
     last_intervention_type := last_intervention_type m;
     last_distraction_status := last_distraction_status m;
     current_focus_plan := current_focus_plan m;
     current_content_time := current_content_time m;
     interaction_count := interaction_count m;
     preferred_work_duration := preferred_work_duration m;
     sessions_completed := sessions_completed m |}.

(** *** Temporal smoother *)

(** [history.append(frame); if len(history) > 10: history.pop(0)] *)
Definition push_frame (history : list FrameState) (frame : FrameState)
  : list FrameState :=
  let history := history ++ [frame] in
  if (10 <? length history)%nat then drop 1 history else history.

(** [len(face_frames) / len(history) if history else 0.0] *)
Definition face_ratio (history : list FrameState) : float :=
  match history with
  | [] => 0.0%float
  | _ => true_div (length (List.filter face_present history)) (length history)
  end.

(** The vote: stable status, stable type and the candidate message. *)
Definition stable_state (history : list FrameState)
  : bool * option string * option string :=
  let distracted_frames := List.filter is_distracted history in
  if fge (face_ratio history) 0.6%float then (false, None, None)
  else (true, Some "looking_away",
        if (3 <=? length distracted_frames)%nat then Some refocus_message else None).

(** *** Intervention gate and logging gate *)

Definition intervention_cooldown : float := 8.0%float.

Definition should_show_intervention (final_status : bool) (final_type : option string)
    (last_status : bool) (last_intervention_type : option string)
    (current_time last_intervention_time : float) : bool :=
  if final_status then
    if negb (Bool.eqb final_status last_status) then true
    else if negb (opt_str_eqb final_type last_intervention_type) then true
    else if fgt (PrimFloat.sub current_time last_intervention_time)
                intervention_cooldown then true
    else false
  else false.

Definition should_log (final_status last_status : bool)
    (current_time last_log_time : float) : bool :=
  if negb (Bool.eqb final_status last_status) then true
  else if final_status && fgt (PrimFloat.sub current_time last_log_time) 20%float
  then true
  else false.

(** *** Plan adaptation inside a logged distraction *)

(** The block run when a distracted tick is logged: the decision is recorded,
    the plan is fetched or generated, and [adapt_plan] is called on it.  The
    plan is one object, changed in place, so the student model sees the
    changes even when [adapt_plan] raises. *)
Definition logged_distraction (now : datetime) (current_time : float)
    (models : gmap string StudentModel) (logs : gmap string (list Decision))
    (user_id : string) (model : StudentModel)
    (behavioral_signals : Signals) (learning_event : LearningEvent)
    (final_distraction_type : option string)
  : outcome * StudentModel * gmap string (list Decision) :=
  let '(_, logs) :=
    log_decision now logs user_id "detect_distraction"
      (EvSignals behavioral_signals) in
  let model := with_log_time model current_time in
  let '(current_plan, model, logs) :=
    match current_focus_plan model with
    | Some p => (p, model, logs)
    | None =>
        let '(p, logs) :=
          generate_focus_plan now (<[user_id := model]> models) logs user_id 25 in
        (p, with_plan model p, logs)
    end in
  let trigger_event :=
    {| trig_event_type := event_type learning_event;
       trig_distraction_type := final_distraction_type;
       trig_distraction_level :=
         Some (default (PFloat 0.0%float) (sig_distraction_level behavioral_signals));
       trig_distraction_count := Some (distraction_count model) |} in
  let '(res, adapted_plan, logs) :=
    adapt_plan now (<[user_id := model]> models) logs user_id
      current_plan trigger_event in
  (res, with_plan model adapted_plan, logs).

(** *** [analyze_focus]: the student-model update

    The code from "Update student model using Request Loop" to the two
    overrides of the intervention, with the payload assembled from what it
    has computed.  It reads [len(faces)] where the code does. *)

Definition update_student_model (st : State) (user_id : string) (faces : nat)
    (now : datetime) (current_time : float) : Response * State :=
  (* raw, per-frame classification *)
  let raw_detected := (faces =? 0)%nat in
  let raw_type := if raw_detected then Some "looking_away" else None in
  let distraction_level := if raw_detected then 0.8%float else 0.0%float in
  (* lazy creation of the student model *)
  let models := lazy_init (STUDENT_MODELS st) user_id in
  let model := default fresh_student_model (STUDENT_MODELS st !! user_id) in
  match status_history model with
  | None =>
      (Fallback (KeyError "status_history"),
       {| STUDENT_MODELS := models;
          LEARNING_EVENTS := LEARNING_EVENTS st;
          DECISION_LOGS := DECISION_LOGS st;
          FOCUS_SESSIONS := FOCUS_SESSIONS st |})
  | Some history =>
      let current_frame_state :=
        {| is_distracted := raw_detected; frame_type := raw_type;
           face_present := (0 <? faces)%nat |} in
      let history := push_frame history current_frame_state in
      let ratio := face_ratio history in
      let '(final_distraction_status, final_distraction_type, intervention) :=
        stable_state history in
      let behavioral_signals :=
        {| sig_face_present := Some (PBool (0 <? faces)%nat);
           sig_eyes_open := None;
           sig_gaze_stable := Some (PBool (negb final_distraction_status));
           sig_distraction_level :=
             Some (PFloat (match history with
                           | [] => 0.0%float
                           | _ => PrimFloat.sub 1.0%float ratio
                           end));
           sig_time_on_content :=
             Some (PInt (default 30 (current_content_time model)));
           sig_interaction_count :=
             Some (PInt (default 1 (interaction_count model))) |} in
      match infer_learning_event (LEARNING_EVENTS st) user_id behavioral_signals now with
      | Throw e =>
          (Fallback e,
           {| STUDENT_MODELS := <[user_id := with_history model history]> models;
              LEARNING_EVENTS := LEARNING_EVENTS st;
              DECISION_LOGS := DECISION_LOGS st;
              FOCUS_SESSIONS := FOCUS_SESSIONS st |})
      | Value (learning_event, events) =>
      let last_log := default 0.0%float (last_log_time model) in
      let last_time := default 0.0%float (last_intervention_time model) in
      let last_type := last_intervention_type model in
      let last_status := default false (last_distraction_status model) in
      let show :=
        should_show_intervention final_distraction_status final_distraction_type
          last_status last_type current_time last_time in
      let intervention :=
        if final_distraction_status && negb show then None else intervention in
      let log := should_log final_distraction_status last_status current_time last_log in
      let model :=
        if final_distraction_status && show
        then with_tick model history final_distraction_status
               (Some current_time) final_distraction_type
        else with_tick model history final_distraction_status
               (last_intervention_time model) (last_intervention_type model) in
      let finish (model : StudentModel) (logs : gmap string (list Decision))
                 (intervention : option string) : Response * State :=
        let current_plan := current_focus_plan model in
        (Ok {| distraction_detected := final_distraction_status;
               distraction_type := final_distraction_type;
               distraction_level := distraction_level;
               intervention := intervention;
               faces_detected := faces;
               learning_event := learning_event;
               resp_should_intervene := should_intervene learning_event;
               teaching_ready := fst (should_teach events user_id);
               focus_plan := current_plan;
               plan_adapted :=
                 match current_plan with
                 | Some p => (0 <? length (default [] (adaptations p)))%nat
                 | None => false
                 end |},
         {| STUDENT_MODELS := <[user_id := model]> models;
            LEARNING_EVENTS := events;
            DECISION_LOGS := logs;
            FOCUS_SESSIONS := FOCUS_SESSIONS st |}) in
      if final_distraction_status then
        let model :=
          with_counters model (distraction_count model + 1) (total_focus_time model) in
        let '(res, model, logs) :=
          if log then
            logged_distraction now current_time models (DECISION_LOGS st)
              user_id model behavioral_signals learning_event
              final_distraction_type
          else (Returned, model, DECISION_LOGS st) in
        match res with
        | Raised e =>
            (Fallback e,
             {| STUDENT_MODELS := <[user_id := model]> models;
                LEARNING_EVENTS := events;
                DECISION_LOGS := logs;
                FOCUS_SESSIONS := FOCUS_SESSIONS st |})
        | Returned =>
            let count := distraction_count model in
            let intervention :=
              if (5 <? count) && negb (truthy intervention)
              then Some break_message else intervention in
            let intervention :=
              if opt_str_eqb (intervention_type learning_event) (Some "suggest_break")
              then Some tired_message
              else if opt_str_eqb (intervention_type learning_event)
                        (Some "simplify_content")
              then Some simplify_message
              else intervention in
            finish model logs intervention
        end
      else
        finish (with_counters model (distraction_count model)
                  (total_focus_time model + 3))
               (DECISION_LOGS st) intervention
      end
  end.

(** *** [analyze_focus]

    [POST /api/focus/analyze], from the detection on.  A detected face
    raises in the drawing loop, before anything is stored.  Otherwise the
    student model is updated and, when the request names a saved session,
    an entry is appended to its ["distraction_log"]; the entry holds the
    stable type and the level of the frame.  A session saved without that
    key (or with a value that is not a list) makes the append raise after
    the update: the answer is the fallback and the update stays. *)

Definition with_focus_sessions (st : State) (sessions : gmap string SavedSession)
  : State :=
  {| STUDENT_MODELS := STUDENT_MODELS st;
     LEARNING_EVENTS := LEARNING_EVENTS st;
     DECISION_LOGS := DECISION_LOGS st;
     FOCUS_SESSIONS := sessions |}.

Definition analyze_focus (st : State) (user_id : string)
    (session_id : option string) (faces : nat)
    (now : datetime) (current_time : float) : Response * State :=
  if (0 <? faces)%nat then (Fallback NameError, st)
  else
    match update_student_model st user_id faces now current_time with
    | (Fallback e, st) => (Fallback e, st)
    | (Ok a, st) =>
        if truthy session_id then
          let sid := default "" session_id in
          match FOCUS_SESSIONS st !! sid with
          | Some session =>
              match distraction_log session with
              | LogList entries =>
                  let entry :=
                    TickEntry now (distraction_type a) (distraction_level a)
                      (event_type (learning_event a)) in
                  let session :=
                    {| saved_user_id := saved_user_id session;
                       saved_duration := saved_duration session;
                       saved_completed := saved_completed session;
                       distraction_log := LogList (entries ++ [entry]) |} in
                  (Ok a, with_focus_sessions st (<[sid := session]> (FOCUS_SESSIONS st)))
              | NoLog => (Fallback (KeyError "distraction_log"), st)
              | NotAList => (Fallback AttributeError, st)
              end
          | None => (Ok a, st)
          end
        else (Ok a, st)
    end.


(** ** The other writers of [STUDENT_MODELS] *)

Definition with_sessions (m : StudentModel) (n : Z) : StudentModel :=
  {| distraction_count := distraction_count m;
     total_focus_time := total_focus_time m;
     status_history := status_history m;
     last_log_time := last_log_time m;
     last_intervention_time := last_intervention_time m;
     last_intervention_type := last_intervention_type m;
     last_distraction_status := last_distraction_status m;
     current_focus_plan := current_focus_plan m;
     current_content_time := current_content_time m;
     interaction_count := interaction_count m;
     preferred_work_duration := preferred_work_duration m;
     sessions_completed := Some n |}.

(** The dict that [save_focus_session] and [get_student_model] store for an
    unknown user: it has no ["status_history"] key. *)
Definition session_student_model : StudentModel :=
  {| distraction_count := 0; total_focus_time := 0;
     status_history := None;
     last_log_time := None; last_intervention_time := None;
     last_intervention_type := None; last_distraction_status := None;
     current_focus_plan := None; current_content_time := None;
     interaction_count := None; preferred_work_duration := Some 25;
     sessions_completed := Some 0 |}.

(** The student-model part of [save_focus_session]; the increment of
    ["sessions_completed"] raises on a model without that key, after the
    focus time has been added. *)
Definition session_model_update (models : gmap string StudentModel)
    (user_id : string) (duration : Z) (completed : bool)
  : gmap string StudentModel :=
  let model := default session_student_model (models !! user_id) in
  let model :=
    with_counters model (distraction_count model) (total_focus_time model + duration) in
  let model :=
    if completed then
      match sessions_completed model with
      | Some n => with_sessions model (n + 1)
      | None => model
      end
    else model in
  <[user_id := model]> models.

(** [POST /api/focus/session/save].  The session is stored first, under the
    id it came with (or a fresh one), with whatever it holds under
    ["distraction_log"]; then the student model is updated. *)
Definition save_focus_session (st : State) (session_id : string)
    (log : LogSlot) (user_id : string) (duration : Z) (completed : bool)
  : State :=
  {| STUDENT_MODELS :=
       session_model_update (STUDENT_MODELS st) user_id duration completed;
     LEARNING_EVENTS := LEARNING_EVENTS st;
     DECISION_LOGS := DECISION_LOGS st;
     FOCUS_SESSIONS :=
       <[session_id := {| saved_user_id := user_id; saved_duration := duration;
                          saved_completed := completed;
                          distraction_log := log |}]> (FOCUS_SESSIONS st) |}.

Definition get_student_model (models : gmap string StudentModel) (user_id : string)
  : gmap string StudentModel :=
  match models !! user_id with
  | Some _ => models
  | None => <[user_id := session_student_model]> models
  end.

(** ** Runs of the service *)

Inductive Call :=
| AnalyzeFocus (user_id : string) (session_id : option string) (faces : nat)
               (now : datetime) (current_time : float)
| SaveFocusSession (session_id : string) (log : LogSlot) (user_id : string)
                   (duration : Z) (completed : bool)
| GetStudentModel (user_id : string).

Definition step (st : State) (c : Call) : State :=
  match c with
  | AnalyzeFocus u sid faces now t => snd (analyze_focus st u sid faces now t)
  | SaveFocusSession sid log u duration completed =>
      save_focus_session st sid log u duration completed
  | GetStudentModel u =>
      {| STUDENT_MODELS := get_student_model (STUDENT_MODELS st) u;
         LEARNING_EVENTS := LEARNING_EVENTS st;
         DECISION_LOGS := DECISION_LOGS st;
         FOCUS_SESSIONS := FOCUS_SESSIONS st |}
  end.

Definition run (st : State) (calls : list Call) : State := fold_left step calls st.

Definition initial_state : State :=
  {| STUDENT_MODELS := ∅; LEARNING_EVENTS := ∅; DECISION_LOGS := ∅;
     FOCUS_SESSIONS := ∅ |}.

(** ** Vocabulary of the statements *)

(** The frame state that a request with [len(faces) = faces] pushes. *)
Definition frame_of (faces : nat) : FrameState :=
  {| is_distracted := (faces =? 0)%nat;
     frame_type := if (faces =? 0)%nat then Some "looking_away" else None;
     face_present := (0 <? faces)%nat |}.

(** The student model that a tick for [user_id] works on. *)
Definition model_of (st : State) (user_id : string) : StudentModel :=
  default fresh_student_model (STUDENT_MODELS st !! user_id).

(** The frames of the requests for [user_id] that reach the student-model
    update, those without a detected face, oldest first. *)
Definition frames_for (user_id : string) (calls : list Call) : list FrameState :=
  flat_map (fun c => match c with
                     | AnalyzeFocus u _ faces _ _ =>
                         if String.eqb u user_id && (faces =? 0)%nat
                         then [frame_of faces] else []
                     | _ => []
                     end) calls.

(** The session that a request names, if it is saved, holds a list under
    ["distraction_log"]. *)
Definition session_loggable (sessions : gmap string SavedSession)
    (session_id : option string) : bool :=
  if truthy session_id then
    match sessions !! default "" session_id with
    | Some session =>
        match distraction_log session with LogList _ => true | _ => false end
    | None => true
    end
  else true.

Definition count_faces (history : list FrameState) : nat :=
  length (List.filter face_present history).

Definition count_distracted (history : list FrameState) : nat :=
  length (List.filter is_distracted history).

(** A timestamp that the cooldown test reads without raising: none, or an
    ISO string without offset. *)
Definition stamp_ok (a : Adaptation) : bool :=
  match adapt_timestamp a with
  | None | Some (Naive _) => true
  | Some _ => false
  end.

(** A plan on which [adapt_plan] does not raise: it has its list of
    adaptations, and the last of them, if any, has such a timestamp. *)
Definition takes_adaptation (p : FocusPlan) : bool :=
  match adaptations p with
  | Some l => match last l with Some a => stamp_ok a | None => true end
  | None => false
  end.

(** The stored plan, if any, can take an adaptation. *)
Definition plan_ok (m : StudentModel) : bool :=
  match current_focus_plan m with
  | Some p => takes_adaptation p
  | None => true
  end.

(** A trigger on which no rule of [adapt_plan] fires, for a user with
    [count] distractions. *)
Definition matches_no_rule (count : Z) (tr : TriggerEvent) : Prop :=
  trig_distraction_type tr <> Some "phone_use"
  /\ ~ (trig_distraction_type tr = Some "looking_away" /\ 3 < count)
  /\ trig_event_type tr <> Some LearningEventType.COGNITIVE_OVERLOAD
  /\ trig_event_type tr <> Some LearningEventType.SUSTAINED_FOCUS.

(** What holds of every student model in a run from the initial state. *)
Definition model_inv (m : StudentModel) : Prop :=
  plan_ok m = true
  /\ current_content_time m = None
  /\ interaction_count m = None
  /\ 0 <= distraction_count m
  /\ match status_history m with
     | Some h => (length h <= 10)%nat
     | None => True
     end.

Definition state_inv (st : State) : Prop :=
  forall u m, STUDENT_MODELS st !! u = Some m -> model_inv m.

(** The ratio test of the smoother agrees with the exact comparison
    [count / n >= 6 / 10] on every window of at most ten frames. *)
Definition ratio_table_ok : bool :=
  forallb (fun n =>
    forallb (fun c => Bool.eqb (fge (true_div c n) 0.6%float) (6 * n <=? 10 * c)%nat)
            (seq 0 (S n)))
    (seq 1 10).

(** What the append to the log of the session raises when the session is
    not loggable. *)
Definition session_error (sessions : gmap string SavedSession)
    (session_id : option string) : Exn :=
  match sessions !! default "" session_id ≫= (fun s => Some (distraction_log s)) with
  | Some NotAList => AttributeError
  | _ => KeyError "distraction_log"
  end.

(** The signals with every absent key replaced by its default. *)
Definition fill_defaults (s : Signals) : Signals :=
  {| sig_face_present := Some (default (PBool true) (sig_face_present s));
     sig_eyes_open := Some (default (PBool true) (sig_eyes_open s));
     sig_gaze_stable := Some (default (PBool true) (sig_gaze_stable s));
     sig_distraction_level :=
       Some (default (PFloat 0.0%float) (sig_distraction_level s));
     sig_time_on_content := Some (default (PInt 0) (sig_time_on_content s));
     sig_interaction_count := Some (default (PInt 0) (sig_interaction_count s)) |}.

(** A value that Python compares with a number. *)
Definition is_number (v : pyval) : bool :=
  match v with
  | PBool _ | PInt _ | PFloat _ => true
  | _ => false
  end.

(** The event types that [LearningEventType] names. *)
Definition named_types : list string :=
  [LearningEventType.SUSTAINED_FOCUS; LearningEventType.SHALLOW_ENGAGEMENT;
   LearningEventType.CONFUSION_SILENT; LearningEventType.COGNITIVE_OVERLOAD;
   LearningEventType.DISTRACTION_PHONE; LearningEventType.DISTRACTION_ENVIRONMENT;
   LearningEventType.FATIGUE; LearningEventType.SUCCESSFUL_APPLICATION;
   LearningEventType.DISENGAGEMENT_POST_EXPLANATION; LearningEventType.RECOVERY;
   LearningEventType.ATTENTION_DROP].

(** An event as the classifier stores it: its type is unset or named. *)
Definition typed_event (e : LearningEvent) : Prop :=
  match event_type e with
  | Some ty => In ty named_types
  | None => True
  end.

(** A distraction-type event: one of the two types named after a
    distraction. *)
Definition names_distraction (e : LearningEvent) : Prop :=
  event_type e = Some LearningEventType.DISTRACTION_PHONE
  \/ event_type e = Some LearningEventType.DISTRACTION_ENVIRONMENT.

(** [e] stands at one of the last ten positions of [l]. *)
Definition among_last_ten (l : list LearningEvent) (e : LearningEvent) : Prop :=
  exists i, l !! i = Some e /\ (length l <= i + 10)%nat.

(** Some event among the last ten stored for the user is a distraction. *)
Definition recovering (events : gmap string (list LearningEvent))
    (user_id : string) : Prop :=
  exists e, among_last_ten (default [] (events !! user_id)) e
            /\ names_distraction e.

(** Ten stored events for "alice": a distraction followed by nine
    unclassified ones; and the same behind one more unclassified event. *)
Definition quiet_event : LearningEvent :=
  {| ev_timestamp := 0; event_type := None;
     evidence := mkSignals None None None None None None;
     confidence := 0.0%float; should_intervene := false;
     intervention_type := None |}.

Definition away_event : LearningEvent :=
  {| ev_timestamp := 0;
     event_type := Some LearningEventType.DISTRACTION_ENVIRONMENT;
     evidence := mkSignals None None None None None None;
     confidence := 0.9%float; should_intervene := true;
     intervention_type := Some "gentle_refocus" |}.

Definition ten_events : gmap string (list LearningEvent) :=
  {[ "alice" := away_event :: replicate 9 quiet_event ]}.

Definition eleven_events : gmap string (list LearningEvent) :=
  {[ "alice" := away_event :: replicate 10 quiet_event ]}.

(** Signals that hold null where a number is expected. *)
Definition null_time_signals : Signals :=
  mkSignals None None None None (Some PNone) None.

Definition text_level_signals : Signals :=
  mkSignals (Some (PBool false)) None None (Some (PStr "high")) None None.

(** The three components of the vote. *)
Definition stable_status (history : list FrameState) : bool :=
  fst (fst (stable_state history)).
Definition stable_type (history : list FrameState) : option string :=
  snd (fst (stable_state history)).
Definition stable_message (history : list FrameState) : option string :=
  snd (stable_state history).

(** The gate of a tick at [current_time], read off the bookkeeping of the
    student model [m] and the window [history] after the push. *)
Definition gate_open (m : StudentModel) (history : list FrameState)
    (current_time : float) : bool :=
  should_show_intervention (stable_status history) (stable_type history)
    (default false (last_distraction_status m)) (last_intervention_type m)
    current_time (default 0.0%float (last_intervention_time m)).

(** The message of a tick after the gate and the escalation, for the student
    model [m] as it is before the tick.  The override by the learning event
    is left out: it never applies while ["current_content_time"] is absent
    from the model (lemma [analyze_focus_tick]). *)
Definition tick_message (m : StudentModel) (history : list FrameState)
    (current_time : float) : option string :=
  if stable_status history then
    let shown :=
      if gate_open m history current_time then stable_message history else None in
    if (5 <? distraction_count m + 1) && negb (truthy shown)
    then Some break_message else shown
  else None.

(** A frame as the tick builds it: distracted exactly when no face is seen. *)
Definition well_shaped (f : FrameState) : Prop :=
  is_distracted f = negb (face_present f).



(** No saved session lacks its log. *)
Definition sessions_ok (sessions : gmap string SavedSession) : Prop :=
  forall sid session, sessions !! sid = Some session ->
                      exists entries, distraction_log session = LogList entries.




(** ** Sample runs *)

(** [sec] seconds as a float timestamp. *)
Definition seconds (sec : Z) : float := PrimFloat.of_uint63 (Uint63.of_Z sec).

(** A tick for [u] at [sec] seconds on both clocks. *)
Definition tick_at (u : string) (faces : nat) (sec : Z) : Call :=
  AnalyzeFocus u None faces (sec * 1000000) (seconds sec).

(** The signals of the classifier scenario of the specification. *)
Definition scenario_signals : TypedSignals :=
  mkTyped (Some true) None (Some true) None (Some 40) (Some 1).

(** Eleven frames without a face, one second apart. *)
Definition eleven_calls : list Call :=
  map (tick_at "bob" 0)
      [1000; 1001; 1002; 1003; 1004; 1005; 1006; 1007; 1008; 1009; 1010].

(** Two ticks without a face, one second apart. *)
Definition short_streak_calls : list Call :=
  map (tick_at "dave" 0) [1000; 1001].

(** Five ticks without a face; the fifth, ten seconds after the first,
    shows the refocus message. *)
Definition long_streak_calls : list Call :=
  map (tick_at "dave" 0) [1000; 1001; 1002; 1003; 1010].


(** A plan as [generate_focus_plan] makes it, and one already adapted once
    at time 0. *)
Definition sample_plan : FocusPlan :=
  {| plan_user_id := "erin"; created_at := 0;
     recommended_duration_minutes := Some 25;
     break_interval_minutes := Some 25;
     break_duration_minutes := 5;
     tasks := None; adaptations := Some [];
     plan_confidence := 0.5%float |}.

Definition adapted_plan : FocusPlan :=
  set_adaptations sample_plan
    [{| adapt_type := "reduce_focus_time"; new_duration := Some 20;
        new_break_interval := Some 15; adapt_timestamp := Some (Naive 0) |}].

(** The same plan as a client may send it back: the timestamp of its
    adaptation carries a UTC offset. *)
Definition offset_plan : FocusPlan :=
  set_adaptations sample_plan
    [{| adapt_type := "reduce_focus_time"; new_duration := Some 20;
        new_break_interval := Some 15; adapt_timestamp := Some (Aware 0) |}].

Definition no_trigger : TriggerEvent := mkTrigger None None None None.
Definition phone_trigger : TriggerEvent :=
  mkTrigger None (Some "phone_use") None None.
Definition away_trigger : TriggerEvent :=
  mkTrigger None (Some "looking_away") None None.
Definition focus_trigger : TriggerEvent :=
  mkTrigger (Some LearningEventType.SUSTAINED_FOCUS) None None None.

(** ** Further vocabulary *)

(** A per-user store of lists changes at [u] only, and there only by
    appending. *)
Definition grows_at {A} (u : string) (m m' : gmap string (list A)) : Prop :=
  (forall u', u' <> u -> m' !! u' = m !! u')
  /\ exists added, default [] (m' !! u) = default [] (m !! u) ++ added.

(** The event types that a tick can store while ["current_content_time"] is
    absent from the student model. *)
Definition tick_event_type (ty : option string) : Prop :=
  ty = Some LearningEventType.DISTRACTION_ENVIRONMENT \/ ty = None.

Definition events_inv (events : gmap string (list LearningEvent)) : Prop :=
  forall u l, events !! u = Some l -> Forall (fun e => tick_event_type (event_type e)) l.

(** The [behavioral_signals] that a tick builds from the student model [m]
    as it is before the tick, the window after the push and [len(faces)]. *)
Definition tick_signals (m : StudentModel) (history : list FrameState)
    (faces : nat) : Signals :=
  {| sig_face_present := Some (PBool (0 <? faces)%nat);
     sig_eyes_open := None;
     sig_gaze_stable := Some (PBool (negb (stable_status history)));
     sig_distraction_level :=
       Some (PFloat (match history with
                     | [] => 0.0%float
                     | _ => PrimFloat.sub 1.0%float (face_ratio history)
                     end));
     sig_time_on_content := Some (PInt (default 30 (current_content_time m)));
     sig_interaction_count := Some (PInt (default 1 (interaction_count m))) |}.

(** Whether a tick at [current_time] records its distraction. *)
Definition tick_logged (m : StudentModel) (history : list FrameState)
    (current_time : float) : bool :=
  stable_status history
  && should_log (stable_status history)
       (default false (last_distraction_status m))
       current_time (default 0.0%float (last_log_time m)).

(** ** Further sample runs *)

(** A user first seen by [get_student_model]. *)
Definition visitor_state : State := step initial_state (GetStudentModel "gina").

(** One tick of "alice" without a face. *)
Definition alice_state : State := run initial_state [tick_at "alice" 0 1000].

(** The plans that ticks produce: the generated 25 minute plan, or the plan
    after one or more "decompose_goal" adaptations. *)
Definition tick_plan (p : FocusPlan) : Prop :=
  exists d b l,
    recommended_duration_minutes p = Some d
    /\ break_interval_minutes p = Some b
    /\ adaptations p = Some l
    /\ Forall (fun a => adapt_type a = "decompose_goal") l
    /\ ((l = [] /\ d = 25 /\ b = 25) \/ (l <> [] /\ d = 15 /\ (b = 12 \/ b = 10)))
    /\ tasks p = None
    /\ break_duration_minutes p = 5.

Definition plan_inv (m : StudentModel) : Prop :=
  (preferred_work_duration m = None \/ preferred_work_duration m = Some 25)
  /\ match current_focus_plan m with
     | Some p => tick_plan p
     | None => distraction_count m = 0
               /\ default false (last_distraction_status m) = false
     end.

(** Five ticks without a face, the fifth half a minute after the first. *)
Definition adapted_calls : list Call :=
  map (tick_at "dave" 0) [1000; 1001; 1002; 1003; 1030].


(** ** The endpoint [adapt_focus_plan] *)

Record AdaptResponse := mkAdaptResponse {
  ar_plan : FocusPlan;
  was_adapted : bool
}.

(** [POST /api/antigravity/adapt-plan].  [adapt_plan] changes the dict
    [request.current_plan] in place and returns that same dict, so the two
    lengths compared for [was_adapted] are both read from the plan as it is
    after the call.  An exception of [adapt_plan] is not caught here: the
    request fails ([None]). *)
Definition adapt_focus_plan (now : datetime)
    (models : gmap string StudentModel) (logs : gmap string (list Decision))
    (user_id : string) (current_plan : FocusPlan) (trigger_event : TriggerEvent)
  : option AdaptResponse * gmap string (list Decision) :=
  let '(res, plan_object, logs) :=
    adapt_plan now models logs user_id current_plan trigger_event in
  match res with
  | Raised _ => (None, logs)
  | Returned =>
      let adapted_plan := plan_object in
      let request_current_plan := plan_object in
      (Some {| ar_plan := adapted_plan;
               was_adapted :=
                 (length (default [] (adaptations request_current_plan))
                  <? length (default [] (adaptations adapted_plan)))%nat |},
       logs)
  end.

(** ** The query endpoints *)

(** [l[start:]] for any int [start]. *)
Definition py_slice_from {A} (start : Z) (l : list A) : list A :=
  let n := Z.of_nat (length l) in
  let i := if start <? 0 then Z.max (n + start) 0 else Z.min start n in
  drop (Z.to_nat i) l.

(** [GET /api/antigravity/decisions/{user_id}]: the pair of ["decisions"]
    and ["total_count"]. *)
Definition get_decision_logs (DECISION_LOGS : gmap string (list Decision))
    (user_id : string) (limit : Z) : list Decision * nat :=
  let logs := default [] (DECISION_LOGS !! user_id) in
  (if negb (limit =? 0) then py_slice_from (- limit) logs else logs, length logs).

(** [GET /api/antigravity/learning-events/{user_id}]: the pair of ["events"]
    and ["total_count"]. *)
Definition get_learning_events (LEARNING_EVENTS : gmap string (list LearningEvent))
    (user_id : string) (limit : Z) : list LearningEvent * nat :=
  let events := default [] (LEARNING_EVENTS !! user_id) in
  (if negb (limit =? 0) then py_slice_from (- limit) events else events,
   length events).

(** The two kinds of student model: one that [analyze_focus] created, and
    one that [save_focus_session] or [get_student_model] created. *)
Definition model_kind (m : StudentModel) : Prop :=
  (is_Some (status_history m) /\ sessions_completed m = None)
  \/ (status_history m = None /\ is_Some (sessions_completed m)).

(** A run that mixes the three endpoints for two users. *)
Definition mixed_calls : list Call :=
  [tick_at "alice" 0 1000; GetStudentModel "gina";
   SaveFocusSession "s1" NoLog "alice" 60 true;
   tick_at "gina" 0 1001; SaveFocusSession "s2" NoLog "gina" 30 true].

(** ** The reaction-correlation engine ([OpenNoteCorrelationEngine]) *)

(** The [cv_signals] and [engagement_signals] dicts; the two numbers are
    taken as ints. *)
Record CvSignals := mkCv {
  cv_face_detected : option bool;
  cv_eyes_open : option bool;
  cv_looking_away : option bool;
  cv_distraction_type : option string
}.

Record EngagementSignals := mkEngagement {
  eng_time_on_response : option Z;
  eng_typing_started : option bool;
  eng_took_notes : option bool;
  eng_scroll_speed : option Z
}.

(** [max(0, min(1, x))]: [min] keeps its first argument unless the second is
    smaller, [max] unless the second is greater. *)
Definition clamp_unit (x : float) : float :=
  let m := if PrimFloat.ltb x 1.0%float then x else 1.0%float in
  if PrimFloat.ltb 0.0%float m then m else 0.0%float.

Definition _calculate_engagement (cv_signals : CvSignals)
    (engagement_signals : EngagementSignals) : float :=
  let score := 0.5%float in
  let score := if default false (cv_face_detected cv_signals)
               then PrimFloat.add score 0.1%float else score in
  let score := if default false (cv_eyes_open cv_signals)
               then PrimFloat.add score 0.15%float else score in
  let score := if default false (cv_looking_away cv_signals)
               then PrimFloat.sub score 0.2%float else score in
  let score := if opt_str_eqb (cv_distraction_type cv_signals) (Some "phone_use")
               then PrimFloat.sub score 0.3%float else score in
  let time_on_response := default 0 (eng_time_on_response engagement_signals) in
  let score := if 10 <? time_on_response
               then PrimFloat.add score 0.1%float else score in
  let score := if 30 <? time_on_response
               then PrimFloat.add score 0.1%float else score in
  let score := if default false (eng_typing_started engagement_signals)
               then PrimFloat.add score 0.15%float else score in
  let score := if default false (eng_took_notes engagement_signals)
               then PrimFloat.add score 0.2%float else score in
  let score := if 500 <? default 0 (eng_scroll_speed engagement_signals)
               then PrimFloat.sub score 0.15%float else score in
  clamp_unit score.

Definition _classify_reaction (cv_signals : CvSignals)
    (engagement_signals : EngagementSignals) (score : float) : string :=
  if opt_str_eqb (cv_distraction_type cv_signals) (Some "phone_use") then "DISTRACTED"
  else if default false (cv_looking_away cv_signals)
          && PrimFloat.ltb score 0.4%float then "CONFUSED"
  else if fge score 0.8%float then
    if default false (eng_typing_started engagement_signals)
       || default false (eng_took_notes engagement_signals)
    then "MOTIVATED" else "ENGAGED"
  else if fge score 0.5%float then "ENGAGED"
  else if fge score 0.3%float then
    if 300 <? default 0 (eng_scroll_speed engagement_signals)
    then "BORED" else "CONFUSED"
  else "DISTRACTED".

Record Strategy := mkStrategy {
  strategy_action : string;
  focus_time_modifier : float;
  explanation_style : string;
  suggestions : list string;
  priority_change : option string
}.

Definition strategy_engaged : Strategy :=
  {| strategy_action := "continue"; focus_time_modifier := 1.0%float;
     explanation_style := "maintain";
     suggestions := ["Continue with current pace"; "Add optional deep-dive content"];
     priority_change := None |}.

Definition _generate_adaptation (reaction_type : string) : Strategy :=
  if String.eqb reaction_type "ENGAGED" then strategy_engaged
  else if String.eqb reaction_type "MOTIVATED" then
    {| strategy_action := "accelerate"; focus_time_modifier := 1.25%float;
       explanation_style := "advanced";
       suggestions := ["Increase difficulty"; "Add challenge problems";
                       "Extend focus session"];
       priority_change := Some "increase_complexity" |}
  else if String.eqb reaction_type "CONFUSED" then
    {| strategy_action := "simplify"; focus_time_modifier := 0.8%float;
       explanation_style := "simplified";
       suggestions := ["Use visual explanation"; "Break into smaller steps";
                       "Provide analogy"];
       priority_change := Some "add_prerequisites" |}
  else if String.eqb reaction_type "DISTRACTED" then
    {| strategy_action := "re-engage"; focus_time_modifier := 0.6%float;
       explanation_style := "interactive";
       suggestions := ["Ask a question"; "Take a break"; "Switch to different topic"];
       priority_change := Some "pause_and_reset" |}
  else if String.eqb reaction_type "BORED" then
    {| strategy_action := "change_approach"; focus_time_modifier := 0.75%float;
       explanation_style := "engaging";
       suggestions := ["Make it more interactive"; "Add real-world examples"; "Gamify"];
       priority_change := Some "add_variety" |}
  else strategy_engaged.

(** A stored correlation; its uuid, timestamp and reasoning text are left
    out, [corr_topic] is the ["topic"] key of the context. *)
Record Correlation := mkCorrelation {
  corr_user_id : string;
  ai_response_id : string;
  corr_cv_signals : CvSignals;
  corr_engagement_signals : EngagementSignals;
  engagement_score : float;
  reaction_type : string;
  corr_topic : option string;
  adaptation : Strategy
}.

(** The per-user learning patterns (the keys that are never written after
    creation are left out). *)
Record Patterns := mkPatterns {
  total_interactions : Z;
  reaction_counts : gmap string Z;
  topics_struggled : list string;
  topics_excelled : list string
}.

Definition new_patterns : Patterns :=
  {| total_interactions := 0;
     reaction_counts :=
       <["ENGAGED" := 0]> (<["MOTIVATED" := 0]> (<["CONFUSED" := 0]>
         (<["DISTRACTED" := 0]> (<["BORED" := 0]> ∅))));
     topics_struggled := []; topics_excelled := [] |}.

(** [x in l] on a list of strings. *)
Definition str_mem (x : string) (l : list string) : bool :=
  existsb (String.eqb x) l.

(** [_update_learning_patterns].  The interaction total is incremented
    before [patterns["reaction_counts"][reaction_type] += 1], which raises
    [KeyError] for a reaction type that is not a key of the counts. *)
Definition _update_learning_patterns (learning_patterns : gmap string Patterns)
    (user_id : string) (correlation : Correlation)
  : outcome * gmap string Patterns :=
  let patterns := default new_patterns (learning_patterns !! user_id) in
  let total := total_interactions patterns + 1 in
  match reaction_counts patterns !! reaction_type correlation with
  | None =>
      (Raised (KeyError (reaction_type correlation)),
       <[user_id := {| total_interactions := total;
                       reaction_counts := reaction_counts patterns;
                       topics_struggled := topics_struggled patterns;
                       topics_excelled := topics_excelled patterns |}]>
         learning_patterns)
  | Some n =>
      let counts := <[reaction_type correlation := n + 1]> (reaction_counts patterns) in
      let topic := default "" (corr_topic correlation) in
      let rt := reaction_type correlation in
      let struggled :=
        if String.eqb rt "CONFUSED" || String.eqb rt "DISTRACTED" then
          if negb (String.eqb topic "") && negb (str_mem topic (topics_struggled patterns))
          then topics_struggled patterns ++ [topic]
          else topics_struggled patterns
        else topics_struggled patterns in
      let excelled :=
        if String.eqb rt "CONFUSED" || String.eqb rt "DISTRACTED" then
          topics_excelled patterns
        else if String.eqb rt "ENGAGED" || String.eqb rt "MOTIVATED" then
          if negb (String.eqb topic "") && negb (str_mem topic (topics_excelled patterns))
          then topics_excelled patterns ++ [topic]
          else topics_excelled patterns
        else topics_excelled patterns in
      (Returned,
       <[user_id := {| total_interactions := total;
                       reaction_counts := counts;
                       topics_struggled := struggled;
                       topics_excelled := excelled |}]> learning_patterns)
  end.

Record Engine := mkEngine {
  correlations : gmap string (list Correlation);
  learning_patterns : gmap string Patterns
}.

Definition empty_engine : Engine :=
  {| correlations := ∅; learning_patterns := ∅ |}.

(** [analyze_reaction]: the correlation is stored before the patterns are
    updated, so it stays stored if the update raises ([None]). *)
Definition analyze_reaction (eng : Engine) (user_id ai_response_id : string)
    (cv_signals : CvSignals) (engagement_signals : EngagementSignals)
    (topic : option string) : option Correlation * Engine :=
  let score := _calculate_engagement cv_signals engagement_signals in
  let rt := _classify_reaction cv_signals engagement_signals score in
  let correlation :=
    {| corr_user_id := user_id; ai_response_id := ai_response_id;
       corr_cv_signals := cv_signals;
       corr_engagement_signals := engagement_signals;
       engagement_score := score; reaction_type := rt;
       corr_topic := topic; adaptation := _generate_adaptation rt |} in
  let stored := default [] (correlations eng !! user_id) ++ [correlation] in
  let corrs := <[user_id := stored]> (correlations eng) in
  let '(res, lp) :=
    _update_learning_patterns (learning_patterns eng) user_id correlation in
  (match res with Returned => Some correlation | Raised _ => None end,
   {| correlations := corrs; learning_patterns := lp |}).

(** One request to the engine, and a run of requests. *)
Record Reaction := mkReaction {
  rq_user : string;
  rq_response : string;
  rq_cv : CvSignals;
  rq_engagement : EngagementSignals;
  rq_topic : option string
}.

Definition engine_step (eng : Engine) (r : Reaction) : Engine :=
  snd (analyze_reaction eng (rq_user r) (rq_response r) (rq_cv r)
         (rq_engagement r) (rq_topic r)).

Definition engine_run (eng : Engine) (rs : list Reaction) : Engine :=
  fold_left engine_step rs eng.

Definition count_of (p : Patterns) (k : string) : Z :=
  default 0 (reaction_counts p !! k).

(** What every stored pattern satisfies. *)
Definition patterns_inv (p : Patterns) (stored : list Correlation) : Prop :=
  (forall k, In k ["ENGAGED"; "MOTIVATED"; "CONFUSED"; "DISTRACTED"; "BORED"] ->
             exists n, reaction_counts p !! k = Some n /\ 0 <= n)
  /\ total_interactions p
     = count_of p "ENGAGED" + count_of p "MOTIVATED" + count_of p "CONFUSED"
       + count_of p "DISTRACTED" + count_of p "BORED"
  /\ total_interactions p = Z.of_nat (length stored)
  /\ NoDup (topics_struggled p)
  /\ NoDup (topics_excelled p).

(** What holds of the engine after any run from the empty one. *)
Definition engine_inv (e : Engine) : Prop :=
  forall u,
    match learning_patterns e !! u with
    | Some p => patterns_inv p (default [] (correlations e !! u))
    | None => correlations e !! u = None
    end.

(** Two reactions of one user to one topic. *)
Definition sample_reactions : list Reaction :=
  [ mkReaction "hana" "r1" (mkCv (Some true) None (Some true) None)
      (mkEngagement (Some 5) None None (Some 400)) (Some "limits");
    mkReaction "hana" "r2" (mkCv (Some true) (Some true) None (Some "phone_use"))
      (mkEngagement (Some 40) (Some true) None None) (Some "limits") ].

(** ** Focus Room sessions: [FocusSession] and [FocusSessionManager]

    A session keeps what the methods below read and write: its interactions,
    the concepts covered and the behaviour log.  An interaction and a
    behaviour entry also carry the time of the call as a text and, for a
    behaviour, the caller's data; no method reads them back and they are
    left out.  A behaviour entry is its ["type"]. *)
Record Interaction := mkInteraction {
  ia_question : string;
  ia_response : string;
  ia_confidence : float
}.

Record FocusSession := mkFocusSession {
  session_user_id : string;
  session_topic : string;
  interactions : list Interaction;
  concepts_covered : list string;
  behavior_log : list string
}.

Definition new_session (user_id topic : string) : FocusSession :=
  {| session_user_id := user_id; session_topic := topic;
     interactions := []; concepts_covered := []; behavior_log := [] |}.

Definition add_interaction (s : FocusSession) (question response : string)
    (confidence : float) : FocusSession :=
  {| session_user_id := session_user_id s; session_topic := session_topic s;
     interactions := interactions s ++ [mkInteraction question response confidence];
     concepts_covered := concepts_covered s; behavior_log := behavior_log s |}.

Definition add_concept (s : FocusSession) (concept : string) : FocusSession :=
  if str_mem concept (concepts_covered s) then s
  else {| session_user_id := session_user_id s; session_topic := session_topic s;
          interactions := interactions s;
          concepts_covered := concepts_covered s ++ [concept];
          behavior_log := behavior_log s |}.

Definition log_behavior (s : FocusSession) (behavior_type : string) : FocusSession :=
  {| session_user_id := session_user_id s; session_topic := session_topic s;
     interactions := interactions s; concepts_covered := concepts_covered s;
     behavior_log := behavior_log s ++ [behavior_type] |}.

(** [active_sessions] of the manager, by session id. *)
Definition Sessions := gmap string FocusSession.

(** [record_interaction]: [None] is the answer "Session not found";
    otherwise the number of interactions and the concepts covered.  A list
    of concepts that is missing or empty is skipped. *)
Definition record_interaction (active_sessions : Sessions) (session_id : string)
    (question response : string) (confidence : float)
    (concepts : option (list string))
  : option (nat * list string) * Sessions :=
  match active_sessions !! session_id with
  | None => (None, active_sessions)
  | Some session =>
      let session := add_interaction session question response confidence in
      let session :=
        match concepts with
        | Some (c :: cs) => fold_left add_concept (c :: cs) session
        | _ => session
        end in
      (Some (length (interactions session), concepts_covered session),
       <[session_id := session]> active_sessions)
  end.

Inductive BehaviorResponse :=
| SessionNotFound       (* success False, error "Session not found" *)
| InterventionNeeded    (* success True, intervention_needed True *)
| BehaviorLogged.       (* success True, behavior_logged True *)

Definition distracted_entries (log : list string) : nat :=
  length (List.filter (fun b => String.eqb b "distracted") log).

Definition log_focus_behavior (active_sessions : Sessions)
    (session_id behavior_type : string) : BehaviorResponse * Sessions :=
  match active_sessions !! session_id with
  | None => (SessionNotFound, active_sessions)
  | Some session =>
      let session := log_behavior session behavior_type in
      let active_sessions := <[session_id := session]> active_sessions in
      if String.eqb behavior_type "distracted" then
        if (3 <? distracted_entries (behavior_log session))%nat
        then (InterventionNeeded, active_sessions)
        else (BehaviorLogged, active_sessions)
      else (BehaviorLogged, active_sessions)
  end.

(** A sequence of behaviour reports for one session. *)
Definition behavior_run (m : Sessions) (session_id : string) (bs : list string)
  : Sessions :=
  fold_left (fun m b => snd (log_focus_behavior m session_id b)) bs m.

(** The answer the code gives to one more report after the log [log]. *)
Definition expected_behavior_response (log : list string) (b : string)
  : BehaviorResponse :=
  if String.eqb b "distracted" && (3 <=? distracted_entries log)%nat
  then InterventionNeeded else BehaviorLogged.

Definition one_session : Sessions :=
  {[ "s1" := new_session "ivy" "algebra" ]}.

(** ** The knowledge graph: [update_concept_node]

    [CONCEPT_NODES] maps a user to their concepts by name.  The two times of
    a node are texts of [datetime.now()] in the source; here they are the
    time of the call.  [max(0, min(1, x))] keeps [x] when [x < 1] and
    [x > 0] and gives the integer 1 or 0 otherwise; the integers are written
    as the floats of the same value, which is what the next addition makes of
    them.  A connection is a dict, here its list of items. *)
Record ConceptNode := mkConceptNode {
  node_name : string;
  node_department : string;
  node_confidence : float;
  misconceptions : list string;
  connections : list (list (string * string));
  node_created_at : datetime;
  node_updated_at : datetime
}.

Definition ConceptNodes := gmap string (gmap string ConceptNode).

Definition py_min_1 (x : float) : float := if (x <? 1)%float then x else 1%float.
Definition py_max_0 (y : float) : float := if (0 <? y)%float then y else 0%float.

Definition update_concept_node (CONCEPT_NODES : ConceptNodes)
    (user_id concept_name department : string) (confidence_delta : float)
    (misconception : option string) (connection : option (list (string * string)))
    (now : datetime) : ConceptNode * ConceptNodes :=
  let user_nodes := default ∅ (CONCEPT_NODES !! user_id) in
  let node :=
    match user_nodes !! concept_name with
    | Some node => node
    | None =>
        {| node_name := concept_name; node_department := department;
           node_confidence := 0%float; misconceptions := []; connections := [];
           node_created_at := now; node_updated_at := now |}
    end in
  let conf := py_max_0 (py_min_1 (node_confidence node + confidence_delta)%float) in
  let ms :=
    match misconception with
    | Some m =>
        if negb (String.eqb m "") && negb (str_mem m (misconceptions node))
        then misconceptions node ++ [m] else misconceptions node
    | None => misconceptions node
    end in
  let cs :=
    match connection with
    | Some (i :: items) => connections node ++ [i :: items]
    | _ => connections node
    end in
  let node :=
    {| node_name := node_name node; node_department := node_department node;
       node_confidence := conf; misconceptions := ms; connections := cs;
       node_created_at := node_created_at node; node_updated_at := now |} in
  (node, <[user_id := <[concept_name := node]> user_nodes]> CONCEPT_NODES).

Record ConceptUpdate := mkConceptUpdate {
  cu_user : string;
  cu_concept : string;
  cu_department : string;
  cu_delta : float;
  cu_misconception : option string;
  cu_connection : option (list (string * string));
  cu_now : datetime
}.

Definition concept_step (g : ConceptNodes) (u : ConceptUpdate) : ConceptNodes :=
  snd (update_concept_node g (cu_user u) (cu_concept u) (cu_department u)
         (cu_delta u) (cu_misconception u) (cu_connection u) (cu_now u)).

Definition concept_run (g : ConceptNodes) (us : list ConceptUpdate) : ConceptNodes :=
  fold_left concept_step us g.

Definition node_inv (concept : string) (n : ConceptNode) : Prop :=
  node_name n = concept
  /\ (0 <=? node_confidence n)%float = true
  /\ (node_confidence n <=? 1)%float = true
  /\ NoDup (misconceptions n)
  /\ ~ In "" (misconceptions n).

Definition graph_inv (g : ConceptNodes) : Prop :=
  forall u cs c n, g !! u = Some cs -> cs !! c = Some n -> node_inv c n.

Definition sample_updates : list ConceptUpdate :=
  [ mkConceptUpdate "jo" "limits" "math" 0.7%float (Some "0/0 is 1") None 10;
    mkConceptUpdate "jo" "limits" "math" 0.7%float (Some "0/0 is 1") None 20;
    mkConceptUpdate "jo" "limits" "math" nan None None 30 ].

(** * Properties *)

(** ** Python helpers *)

Lemma last_n_length {A} (n : nat) (l : list A) :
  length (last_n n l) = Nat.min n (length l).
Proof. unfold last_n. rewrite length_drop. lia. Qed.

Lemma last_n_all {A} (n : nat) (l : list A) :
  (length l <= n)%nat -> last_n n l = l.
Proof.
  intros H. unfold last_n.
  replace (length l - n)%nat with 0%nat by lia. reflexivity.
Qed.

Lemma last_n_snoc {A} (n : nat) (l : list A) (x : A) :
  last_n (S n) (l ++ [x]) = last_n n l ++ [x].
Proof.
  unfold last_n. rewrite length_app. simpl.
  replace (length l + 1 - S n)%nat with (length l - n)%nat by lia.
  rewrite drop_app_le by lia. reflexivity.
Qed.

Lemma opt_str_eqb_eq (a b : option string) :
  opt_str_eqb a b = true <-> a = b.
Proof.
  destruct a as [x|], b as [y|]; simpl; try (split; congruence).
  rewrite String.eqb_eq. split; congruence.
Qed.

Lemma opt_str_eqb_refl (a : option string) : opt_str_eqb a a = true.
Proof. apply opt_str_eqb_eq. reflexivity. Qed.

(** ** Temporal smoother *)

Lemma push_frame_length (h : list FrameState) (f : FrameState) :
  (length h <= 10)%nat -> (1 <= length (push_frame h f) <= 10)%nat.
Proof.
  intros H. unfold push_frame.
  destruct (Nat.ltb_spec 10 (length (h ++ [f]))) as [Hlt|Hge].
  - rewrite length_drop, length_app in *. simpl in *. lia.
  - rewrite length_app in *. simpl in *. lia.
Qed.

Lemma push_frame_last_n (h : list FrameState) (f : FrameState) :
  (length h <= 10)%nat -> push_frame h f = last_n 10 (h ++ [f]).
Proof.
  intros H. unfold push_frame, last_n.
  rewrite length_app. simpl.
  destruct (Nat.ltb_spec 10 (length h + 1)) as [Hlt|Hge].
  - replace (length h + 1 - 10)%nat with 1%nat by lia. reflexivity.
  - replace (length h + 1 - 10)%nat with 0%nat by lia. reflexivity.
Qed.

Lemma push_frame_full (h : list FrameState) (f : FrameState) :
  length h = 10%nat -> push_frame h f = drop 1 h ++ [f].
Proof.
  intros H. unfold push_frame. rewrite length_app. simpl.
  replace (10 <? length h + 1)%nat with true
    by (symmetry; apply Nat.ltb_lt; lia).
  rewrite drop_app_le by lia. reflexivity.
Qed.

Lemma count_faces_le (h : list FrameState) : (count_faces h <= length h)%nat.
Proof. unfold count_faces. apply List.filter_length_le. Qed.

Lemma ratio_table : ratio_table_ok = true.
Proof. vm_compute. reflexivity. Qed.

Lemma ratio_threshold (c n : nat) :
  (1 <= n <= 10)%nat -> (c <= n)%nat ->
  fge (true_div c n) 0.6%float = (6 * n <=? 10 * c)%nat.
Proof.
  intros Hn Hc.
  pose proof ratio_table as T. unfold ratio_table_ok in T.
  rewrite forallb_forall in T.
  specialize (T n). rewrite forallb_forall in T.
  assert (Hin : In n (seq 1 10)) by (apply in_seq; lia).
  specialize (T Hin c).
  assert (Hic : In c (seq 0 (S n))) by (apply in_seq; lia).
  specialize (T Hic). apply Bool.eqb_prop in T. exact T.
Qed.

Lemma face_ratio_nonempty (h : list FrameState) :
  h <> [] -> face_ratio h = true_div (count_faces h) (length h).
Proof. destruct h; [congruence | reflexivity]. Qed.

(** The vote on a window of one to ten frames, in exact terms. *)
Lemma stable_state_vote (h : list FrameState) :
  (1 <= length h <= 10)%nat ->
  stable_state h =
    if (6 * length h <=? 10 * count_faces h)%nat then (false, None, None)
    else (true, Some "looking_away",
          if (3 <=? count_distracted h)%nat then Some refocus_message else None).
Proof.
  intros H. unfold stable_state.
  rewrite face_ratio_nonempty by (destruct h; simpl in *; [lia | congruence]).
  rewrite ratio_threshold by (auto using count_faces_le).
  reflexivity.
Qed.

(** ** Plan adapter *)

Lemma select_adaptation_adaptations now c p tr :
  adaptations (snd (select_adaptation now c p tr)) = adaptations p.
Proof.
  unfold select_adaptation.
  repeat match goal with |- context [if ?b then _ else _] => destruct b end;
    reflexivity.
Qed.

Lemma select_adaptation_none now c p tr q :
  select_adaptation now c p tr = (None, q) -> q = p.
Proof.
  unfold select_adaptation.
  repeat match goal with |- context [if ?b then _ else _] => destruct b end;
    intros H; inversion H; reflexivity.
Qed.

Lemma select_adaptation_timestamp now c p tr a q :
  select_adaptation now c p tr = (Some a, q) -> adapt_timestamp a = Some (Naive now).
Proof.
  unfold select_adaptation.
  repeat match goal with |- context [if ?b then _ else _] => destruct b end;
    intros H; inversion H; reflexivity.
Qed.

(** The cooldown test returns on a list whose last timestamp it can read. *)
Lemma cooldown_active_returns now l :
  match last l with Some a => stamp_ok a | None => true end = true ->
  exists b, cooldown_active now l = Value b.
Proof.
  unfold cooldown_active, stamp_ok. destruct (last l) as [a|]; [| eauto].
  destruct (adapt_timestamp a) as [[t|t| |]|]; intros H;
    first [discriminate H | simpl; eauto].
Qed.

Lemma adapt_plan_returns now models logs u p tr :
  takes_adaptation p = true ->
  exists p' logs',
    adapt_plan now models logs u p tr = (Returned, p', logs')
    /\ takes_adaptation p' = true.
Proof.
  intros Hp. unfold adapt_plan. unfold takes_adaptation in Hp.
  destruct (adaptations p) as [l|] eqn:Hl; [| discriminate Hp].
  cbn [default from_option id].
  destruct (cooldown_active_returns now l Hp) as [b ->].
  destruct b.
  { eexists _, _. split; [reflexivity |]. unfold takes_adaptation.
    rewrite Hl. exact Hp. }
  pose proof (select_adaptation_adaptations now
                (lookup_distraction_count models u) p tr) as Hs.
  destruct (select_adaptation _ _ _ _) as [[a|] q] eqn:Hsel; simpl in Hs.
  - rewrite Hs, Hl. simpl.
    eexists _, _. split; [reflexivity |].
    unfold takes_adaptation. simpl. rewrite last_snoc. unfold stamp_ok.
    rewrite (select_adaptation_timestamp _ _ _ _ _ _ Hsel). reflexivity.
  - eexists _, _. split; [reflexivity |].
    unfold takes_adaptation. rewrite Hs, Hl. exact Hp.
Qed.

Lemma generate_focus_plan_adaptations now models logs u g :
  adaptations (fst (generate_focus_plan now models logs u g)) = Some [].
Proof. reflexivity. Qed.

(** The logged-distraction block touches the log time and the plan only. *)
Lemma logged_distraction_model now t models logs u m sig ev ty :
  exists res p' logs',
    logged_distraction now t models logs u m sig ev ty
    = (res, with_plan (with_log_time m t) p', logs')
    /\ (plan_ok m = true -> res = Returned /\ takes_adaptation p' = true).
Proof.
  unfold logged_distraction. simpl.
  destruct (current_focus_plan m) as [p|] eqn:Hp; simpl.
  - match goal with |- context [adapt_plan ?a ?b ?c ?d ?e ?f] =>
      destruct (adapt_plan a b c d e f) as [[res q] l'] eqn:Ha end.
    eexists res, q, l'. split; [reflexivity |].
    intros Hok. unfold plan_ok in Hok. rewrite Hp in Hok.
    match type of Ha with adapt_plan ?a ?b ?c ?d ?e ?f = _ =>
      destruct (adapt_plan_returns a b c d e f Hok) as (p' & l2 & E & Hq) end.
    rewrite E in Ha. inversion Ha; subst. auto.
  - match goal with |- context [adapt_plan ?a ?b ?c ?d ?e ?f] =>
      destruct (adapt_plan a b c d e f) as [[res q] l'] eqn:Ha end.
    eexists res, q, l'. split; [reflexivity |].
    intros _.
    match type of Ha with adapt_plan ?a ?b ?c ?d ?e ?f = _ =>
      assert (Hs : takes_adaptation e = true) by reflexivity;
      destruct (adapt_plan_returns a b c d e f Hs) as (p' & l2 & E & Hq) end.
    rewrite E in Ha. inversion Ha; subst. auto.
Qed.

(** ** The analysis tick *)

(** The relabelling step keeps everything but the type and the confidence,
    and touches no event that is not a sustained focus. *)
Lemma relabel_keeps (b : bool) (e : LearningEvent) :
  let e' := if b && opt_str_eqb (event_type e)
                      (Some LearningEventType.SUSTAINED_FOCUS)
            then relabel e LearningEventType.RECOVERY 0.75%float else e in
  evidence e' = evidence e
  /\ ev_timestamp e' = ev_timestamp e
  /\ intervention_type e' = intervention_type e
  /\ should_intervene e' = should_intervene e
  /\ (event_type e <> Some LearningEventType.SUSTAINED_FOCUS -> e' = e).
Proof.
  cbv zeta. destruct (b && _) eqn:E; repeat split; try reflexivity.
  intros H. apply andb_true_iff in E as [_ E]. apply opt_str_eqb_eq in E.
  contradiction.
Qed.

(** The rule chain on signals as a tick builds them: no comparison raises,
    and with 30 seconds on the content only the first rule can apply. *)
Lemma classify_tick (e : LearningEvent) (face gaze : bool) (lvl : float)
    (time clicks : Z) :
  exists e',
    classify e
      {| sig_face_present := Some (PBool face); sig_eyes_open := None;
         sig_gaze_stable := Some (PBool gaze);
         sig_distraction_level := Some (PFloat lvl);
         sig_time_on_content := Some (PInt time);
         sig_interaction_count := Some (PInt clicks) |}
    = Value e'
    /\ evidence e' = evidence e
    /\ ev_timestamp e' = ev_timestamp e
    /\ (time = 30 -> intervention_type e = None -> event_type e = None ->
        intervention_type e' = (if face then None else Some "gentle_refocus")
        /\ event_type e' =
             (if face then None
              else Some LearningEventType.DISTRACTION_ENVIRONMENT)).
Proof.
  unfold classify. cbn [default from_option id py_truth
    sig_face_present sig_eyes_open sig_gaze_stable sig_distraction_level
    sig_time_on_content sig_interaction_count py_gt_half py_gt_int py_lt_int
    py_eq_zero bind].
  destruct face; cbn [negb].
  - destruct ((120 <? time) && (clicks =? 0)) eqn:E1.
    { eexists. repeat split; try reflexivity; subst; discriminate E1. }
    destruct ((time <? 10) && gaze) eqn:E2.
    { eexists. repeat split; try reflexivity; subst; discriminate E2. }
    destruct gaze; cbn [andb].
    + destruct (30 <? time) eqn:E3.
      { eexists. repeat split; try reflexivity; subst; discriminate E3. }
      exists e. repeat split; try reflexivity; assumption.
    + exists e. repeat split; try reflexivity; assumption.
  - eexists. repeat split; reflexivity.
Qed.

Lemma infer_tick events u (face gaze : bool) (lvl : float) (time clicks : Z) ts :
  exists ev,
    infer_learning_event events u
      {| sig_face_present := Some (PBool face); sig_eyes_open := None;
         sig_gaze_stable := Some (PBool gaze);
         sig_distraction_level := Some (PFloat lvl);
         sig_time_on_content := Some (PInt time);
         sig_interaction_count := Some (PInt clicks) |} ts
    = Value (ev, <[u := default [] (events !! u) ++ [ev]]> events)
    /\ evidence ev =
         {| sig_face_present := Some (PBool face); sig_eyes_open := None;
            sig_gaze_stable := Some (PBool gaze);
            sig_distraction_level := Some (PFloat lvl);
            sig_time_on_content := Some (PInt time);
            sig_interaction_count := Some (PInt clicks) |}
    /\ ev_timestamp ev = ts
    /\ (time = 30 ->
        intervention_type ev = (if face then None else Some "gentle_refocus")
        /\ event_type ev =
             (if face then None
              else Some LearningEventType.DISTRACTION_ENVIRONMENT)).
Proof.
  unfold infer_learning_event.
  match goal with |- context [classify ?e ?s] =>
    destruct (classify_tick e face gaze lvl time clicks)
      as (e' & -> & Hev & Hts & H30) end.
  cbn [bind].
  match goal with |- context [if ?b && _ then _ else _] =>
    pose proof (relabel_keeps b e') as K end.
  cbv zeta in K. destruct K as (K1 & K2 & K3 & K4 & K5).
  eexists. split; [reflexivity |].
  split; [rewrite K1, Hev; reflexivity |].
  split; [rewrite K2, Hts; reflexivity |].
  intros Ht. destruct (H30 Ht eq_refl eq_refl) as [Hi Hty].
  rewrite K5 by (rewrite Hty; destruct face; discriminate).
  split; assumption.
Qed.

Ltac tick_field := simpl; first [reflexivity | lia | f_equal; lia].

(** What the update does to the student model of its user, and what it
    returns, for a model that has a history. *)
Lemma update_tick st u faces now t h :
  status_history (model_of st u) = Some h ->
  let m := model_of st u in
  let h' := push_frame h (frame_of faces) in
  let shown := stable_status h' && gate_open m h' t in
  exists r m' events logs,
    update_student_model st u faces now t =
      (r, {| STUDENT_MODELS := <[u := m']> (lazy_init (STUDENT_MODELS st) u);
             LEARNING_EVENTS := events; DECISION_LOGS := logs;
             FOCUS_SESSIONS := FOCUS_SESSIONS st |})
    /\ status_history m' = Some h'
    /\ distraction_count m' =
         distraction_count m + (if stable_status h' then 1 else 0)
    /\ total_focus_time m' =
         total_focus_time m + (if stable_status h' then 0 else 3)
    /\ last_distraction_status m' = Some (stable_status h')
    /\ last_intervention_type m' =
         (if shown then stable_type h' else last_intervention_type m)
    /\ last_intervention_time m' =
         (if shown then Some t else last_intervention_time m)
    /\ current_content_time m' = current_content_time m
    /\ interaction_count m' = interaction_count m
    /\ (plan_ok m = true -> plan_ok m' = true /\ exists a, r = Ok a)
    /\ (forall a,
          r = Ok a ->
          distraction_detected a = stable_status h'
          /\ distraction_type a = stable_type h'
          /\ distraction_level a =
               (if (faces =? 0)%nat then 0.8%float else 0.0%float)
          /\ evidence (learning_event a) = tick_signals m h' faces
          /\ (current_content_time m = None ->
              intervention a = tick_message m h' t)).
Proof.
  intros Hh m h' shown. unfold update_student_model. fold (model_of st u). rewrite Hh.
  fold (frame_of faces). fold h'. fold m.
  subst shown. unfold tick_signals, tick_message, gate_open, stable_status,
    stable_type, stable_message.
  destruct (stable_state h') as [[fs ft] iv] eqn:Hs. cbn [fst snd].
  match goal with
  | |- context [infer_learning_event ?a ?b
                  {| sig_face_present := Some (PBool ?f); sig_eyes_open := None;
                     sig_gaze_stable := Some (PBool ?g);
                     sig_distraction_level := Some (PFloat ?l);
                     sig_time_on_content := Some (PInt ?c);
                     sig_interaction_count := Some (PInt ?k) |} ?d] =>
      destruct (infer_tick a b f g l c k d) as (ev & Einf & Hev & _ & Hit);
      rewrite Einf
  end.
  set (events := <[u := _]> (LEARNING_EVENTS st)) in *. clearbody events. clear Einf.
  set (show := should_show_intervention fs ft _ _ _ _).
  assert (Hiv : fs = false -> iv = None).
  { intros ->. unfold stable_state in Hs. destruct (fge _ _); inversion Hs; reflexivity. }
  destruct fs; [destruct show eqn:Hshow | subst show; cbn [should_show_intervention]]; simpl andb; cbv iota;
    try destruct (should_log _ _ _ _);
    try match goal with |- context [logged_distraction ?a ?b ?c ?d ?e ?f ?g ?i ?j] =>
          destruct (logged_distraction_model a b c d e f g i j)
            as (res & p' & logs' & E & Hok); rewrite E; destruct res as [|exn] end;
    (eexists _, _, _, _; split; [reflexivity |]);
    do 8 (split; [tick_field |]);
    (split;
     [ intros Hp;
       try (destruct (Hok Hp) as [Hr _]; discriminate Hr);
       (split;
        [ first [ exact Hp
                | destruct (Hok Hp) as [_ Hl]; unfold plan_ok; simpl; exact Hl ]
        | eexists; reflexivity ])
     | intros a0 Ha0;
       first [ discriminate Ha0
             | injection Ha0 as <-; simpl;
               repeat (split; [first [reflexivity | exact Hev] |]);
               intros Hc;
               first [ exact (Hiv eq_refl)
                     | destruct (Hit ltac:(rewrite Hc; reflexivity)) as [Hit' _];
                       rewrite Hit'; simpl;
                       destruct (0 <? faces)%nat; reflexivity ] ] ]).
Qed.

(** ** The student-model store *)

Lemma lazy_init_lookup models u :
  lazy_init models u !! u = Some (default fresh_student_model (models !! u)).
Proof.
  unfold lazy_init. destruct (models !! u) eqn:E; simpl.
  - exact E.
  - apply lookup_insert_eq.
Qed.

Lemma lazy_init_other models u u' :
  u' <> u -> lazy_init models u !! u' = models !! u'.
Proof.
  intros H. unfold lazy_init. destruct (models !! u); [reflexivity |].
  apply lookup_insert_ne. congruence.
Qed.

Lemma update_no_history st u faces now t :
  status_history (model_of st u) = None ->
  update_student_model st u faces now t =
    (Fallback (KeyError "status_history"), st).
Proof.
  intros H. unfold update_student_model. fold (model_of st u). rewrite H.
  unfold model_of in H. unfold lazy_init.
  destruct (STUDENT_MODELS st !! u); [| discriminate].
  destruct st; reflexivity.
Qed.

(** The update leaves the saved sessions alone. *)
Lemma update_sessions st u faces now t :
  FOCUS_SESSIONS (snd (update_student_model st u faces now t)) = FOCUS_SESSIONS st.
Proof.
  destruct (status_history (model_of st u)) as [h|] eqn:Hh.
  - destruct (update_tick st u faces now t h Hh) as (r & m' & ev & lg & E & _).
    rewrite E. reflexivity.
  - rewrite update_no_history by assumption. reflexivity.
Qed.

Lemma with_focus_sessions_same st :
  with_focus_sessions st (FOCUS_SESSIONS st) = st.
Proof. destruct st; reflexivity. Qed.

(** A request with a detected face changes nothing. *)
Lemma analyze_focus_face st u sid faces now t :
  (0 < faces)%nat ->
  analyze_focus st u sid faces now t = (Fallback NameError, st).
Proof.
  intros H. unfold analyze_focus.
  replace (0 <? faces)%nat with true by (symmetry; apply Nat.ltb_lt; exact H).
  reflexivity.
Qed.

Lemma sessions_ok_insert sessions sid session entries :
  sessions_ok sessions ->
  distraction_log session = LogList entries ->
  sessions_ok (<[sid := session]> sessions).
Proof.
  intros Hok Hl sid' s' H. destruct (decide (sid' = sid)) as [->|Hne].
  - rewrite lookup_insert_eq in H. inversion H; subst. eauto.
  - rewrite lookup_insert_ne in H by congruence. eapply Hok; eassumption.
Qed.


(** A request without a face: the update runs, then the session log.  The
    three stores of the loop are those of the update; the answer is that of
    the update unless the append to the session log raises. *)
Lemma analyze_focus_away st u sid now t :
  exists sessions,
    analyze_focus st u sid 0 now t =
      (match fst (update_student_model st u 0 now t) with
       | Ok a => if session_loggable (FOCUS_SESSIONS st) sid then Ok a
                 else Fallback (session_error (FOCUS_SESSIONS st) sid)
       | Fallback e => Fallback e
       end,
       with_focus_sessions (snd (update_student_model st u 0 now t)) sessions)
    /\ (sessions_ok (FOCUS_SESSIONS st) -> sessions_ok sessions)
    /\ (forall sid', truthy sid = false \/ Some sid' <> sid ->
                     sessions !! sid' = FOCUS_SESSIONS st !! sid').
Proof.
  unfold analyze_focus. cbn [Nat.ltb Nat.leb].
  pose proof (update_sessions st u 0 now t) as Hs.
  destruct (update_student_model st u 0 now t) as [[a|e] st'] eqn:E; cbn [fst snd] in *.
  2: { exists (FOCUS_SESSIONS st). rewrite <- Hs, with_focus_sessions_same. auto. }
  unfold session_loggable, session_error. rewrite Hs.
  destruct (truthy sid) eqn:Ht.
  2: { exists (FOCUS_SESSIONS st). rewrite <- Hs, with_focus_sessions_same. auto. }
  destruct (FOCUS_SESSIONS st !! default "" sid) as [session|] eqn:El; cbn [mbind option_bind].
  2: { exists (FOCUS_SESSIONS st). rewrite <- Hs, with_focus_sessions_same. auto. }
  destruct (distraction_log session) as [| |entries] eqn:Hl.
  - exists (FOCUS_SESSIONS st). rewrite <- Hs, with_focus_sessions_same. auto.
  - exists (FOCUS_SESSIONS st). rewrite <- Hs, with_focus_sessions_same. auto.
  - eexists. split; [reflexivity |]. split.
    + intros Hok. eapply sessions_ok_insert; [exact Hok | reflexivity].
    + intros sid' [H|H]; [discriminate H |].
      apply lookup_insert_ne. intros <-. apply H.
      destruct sid as [x|]; [reflexivity | discriminate Ht].
Qed.

Lemma analyze_focus_no_history st u sid faces now t :
  status_history (model_of st u) = None ->
  analyze_focus st u sid faces now t =
    (Fallback (if (0 <? faces)%nat then NameError else KeyError "status_history"), st).
Proof.
  intros H. destruct faces as [|n].
  - unfold analyze_focus. cbn [Nat.ltb Nat.leb].
    rewrite update_no_history by assumption. reflexivity.
  - apply analyze_focus_face. lia.
Qed.

(** What one tick without a face does to the student model of its user, and
    what it returns, for a model that has a history. *)
Lemma analyze_focus_tick st u sid now t h :
  status_history (model_of st u) = Some h ->
  let m := model_of st u in
  let h' := push_frame h (frame_of 0) in
  let shown := stable_status h' && gate_open m h' t in
  exists r m' events logs sessions,
    analyze_focus st u sid 0 now t =
      (r, {| STUDENT_MODELS := <[u := m']> (lazy_init (STUDENT_MODELS st) u);
             LEARNING_EVENTS := events; DECISION_LOGS := logs;
             FOCUS_SESSIONS := sessions |})
    /\ status_history m' = Some h'
    /\ distraction_count m' =
         distraction_count m + (if stable_status h' then 1 else 0)
    /\ total_focus_time m' =
         total_focus_time m + (if stable_status h' then 0 else 3)
    /\ last_distraction_status m' = Some (stable_status h')
    /\ last_intervention_type m' =
         (if shown then stable_type h' else last_intervention_type m)
    /\ last_intervention_time m' =
         (if shown then Some t else last_intervention_time m)
    /\ current_content_time m' = current_content_time m
    /\ interaction_count m' = interaction_count m
    /\ (sessions_ok (FOCUS_SESSIONS st) -> sessions_ok sessions)
    /\ (plan_ok m = true ->
        plan_ok m' = true
        /\ (session_loggable (FOCUS_SESSIONS st) sid = true -> exists a, r = Ok a))
    /\ (forall a,
          r = Ok a ->
          session_loggable (FOCUS_SESSIONS st) sid = true
          /\ distraction_detected a = stable_status h'
          /\ distraction_type a = stable_type h'
          /\ distraction_level a = 0.8%float
          /\ evidence (learning_event a) = tick_signals m h' 0
          /\ (current_content_time m = None ->
              intervention a = tick_message m h' t)).
Proof.
  intros Hh m h' shown.
  destruct (update_tick st u 0 now t h Hh)
    as (r & m' & ev & lg & E & H1 & H2 & H3 & H4 & H5 & H6 & H7 & H8 & H9 & H10).
  destruct (analyze_focus_away st u sid now t) as (ss & Ea & Hok & _).
  rewrite E in Ea. cbn [fst snd] in Ea.
  eexists _, m', ev, lg, ss. split; [exact Ea |].
  do 9 (split; [assumption |]).
  split.
  - intros Hp. destruct (H9 Hp) as (Hp' & a & ->).
    split; [exact Hp' |]. intros ->. exists a. reflexivity.
  - intros a Ha. destruct r as [a'|e]; [| discriminate Ha].
    destruct (session_loggable (FOCUS_SESSIONS st) sid); [| discriminate Ha].
    injection Ha as ->. split; [reflexivity |]. apply H10. reflexivity.
Qed.

Lemma analyze_focus_other st u sid faces now t u' :
  u' <> u ->
  STUDENT_MODELS (snd (analyze_focus st u sid faces now t)) !! u'
  = STUDENT_MODELS st !! u'.
Proof.
  intros Hne. destruct faces as [|n];
    [| rewrite analyze_focus_face by lia; reflexivity].
  destruct (status_history (model_of st u)) as [h|] eqn:Hh.
  - destruct (analyze_focus_tick st u sid now t h Hh)
      as (r & m' & ev & lg & ss & E & _).
    rewrite E. simpl. rewrite lookup_insert_ne by congruence.
    apply lazy_init_other; assumption.
  - rewrite analyze_focus_no_history by assumption. reflexivity.
Qed.

Lemma model_inv_fresh : model_inv fresh_student_model.
Proof. repeat split; simpl; lia. Qed.

Lemma model_inv_session : model_inv session_student_model.
Proof. repeat split; simpl; lia. Qed.

Lemma model_of_inv st u : state_inv st -> model_inv (model_of st u).
Proof.
  intros H. unfold model_of.
  destruct (STUDENT_MODELS st !! u) eqn:E; simpl.
  - eapply H; eassumption.
  - apply model_inv_fresh.
Qed.

Lemma step_inv st c : state_inv st -> state_inv (step st c).
Proof.
  intros Hinv u' m' Hl. destruct c as [u sid faces now t | sid lg u d c | u];
    cbn [step] in Hl.
  - destruct (decide (u' = u)) as [->|Hne];
      [| rewrite analyze_focus_other in Hl by assumption; eapply Hinv; eassumption].
    destruct faces as [|n];
      [| rewrite analyze_focus_face in Hl by lia; eapply Hinv; eassumption].
    pose proof (model_of_inv st u Hinv) as (Hp & Hc & Hi & Hn & Hb).
    destruct (status_history (model_of st u)) as [h|] eqn:Hh.
    + destruct (analyze_focus_tick st u sid now t h Hh)
        as (r & m2 & ev & lg & ss & E & H1 & H2 & _ & _ & _ & _ & H7 & H8 & _ & H9 & _).
      rewrite E in Hl. simpl in Hl. rewrite lookup_insert_eq in Hl.
      inversion Hl; subst m2. clear Hl.
      destruct (H9 Hp) as [Hp' _].
      repeat split.
      * exact Hp'.
      * congruence.
      * congruence.
      * rewrite H2. destruct (stable_status _); lia.
      * rewrite H1. apply push_frame_length. exact Hb.
    + rewrite analyze_focus_no_history in Hl by assumption.
      eapply Hinv; eassumption.
  - cbn [save_focus_session STUDENT_MODELS] in Hl. unfold session_model_update in Hl.
    destruct (decide (u' = u)) as [->|Hne];
      [| rewrite lookup_insert_ne in Hl by congruence; eapply Hinv; eassumption].
    rewrite lookup_insert_eq in Hl. inversion Hl; subst m'. clear Hl.
    assert (Hm : model_inv (default session_student_model (STUDENT_MODELS st !! u))).
    { destruct (STUDENT_MODELS st !! u) eqn:E; simpl;
        [eapply Hinv; eassumption | apply model_inv_session]. }
    destruct Hm as (Hp & Hc & Hi & Hn & Hb).
    destruct c; [destruct (sessions_completed _) |]; repeat split; assumption.
  - cbn [STUDENT_MODELS] in Hl. unfold get_student_model in Hl.
    destruct (STUDENT_MODELS st !! u) eqn:E; [eapply Hinv; eassumption |].
    destruct (decide (u' = u)) as [->|Hne].
    + rewrite lookup_insert_eq in Hl. inversion Hl. apply model_inv_session.
    + rewrite lookup_insert_ne in Hl by congruence. eapply Hinv; eassumption.
Qed.

Lemma run_snoc st calls c : run st (calls ++ [c]) = step (run st calls) c.
Proof. unfold run. rewrite fold_left_app. reflexivity. Qed.

Lemma run_inv st calls : state_inv st -> state_inv (run st calls).
Proof.
  revert st. induction calls as [|c calls IH]; intros st H; simpl; [exact H |].
  apply IH. apply step_inv. exact H.
Qed.

Lemma initial_state_inv : state_inv initial_state.
Proof. intros u m H. simpl in H. rewrite lookup_empty in H. discriminate. Qed.

Lemma reachable_inv calls : state_inv (run initial_state calls).
Proof. apply run_inv, initial_state_inv. Qed.

Lemma model_of_after_tick st u m' events logs sessions :
  model_of {| STUDENT_MODELS := <[u := m']> (lazy_init (STUDENT_MODELS st) u);
              LEARNING_EVENTS := events; DECISION_LOGS := logs;
              FOCUS_SESSIONS := sessions |} u = m'.
Proof. unfold model_of. simpl. rewrite lookup_insert_eq. reflexivity. Qed.

Lemma stable_status_vote (h : list FrameState) :
  (1 <= length h <= 10)%nat ->
  stable_status h = negb (6 * length h <=? 10 * count_faces h)%nat.
Proof.
  intros H. unfold stable_status. rewrite stable_state_vote by assumption.
  destruct (_ <=? _)%nat; reflexivity.
Qed.

Lemma stable_type_status (h : list FrameState) :
  stable_type h = if stable_status h then Some "looking_away" else None.
Proof.
  unfold stable_type, stable_status, stable_state.
  destruct (fge _ _); reflexivity.
Qed.

Lemma stable_message_count (h : list FrameState) :
  stable_status h = true ->
  stable_message h =
    if (3 <=? count_distracted h)%nat then Some refocus_message else None.
Proof.
  unfold stable_message, stable_status, stable_state.
  destruct (fge _ _); simpl; [discriminate | reflexivity].
Qed.

(** A request that is answered by the analysis saw no face, for a user
    whose model has a history. *)
Lemma analyze_focus_ok st u sid faces now t a :
  fst (analyze_focus st u sid faces now t) = Ok a ->
  faces = 0%nat /\ exists h, status_history (model_of st u) = Some h.
Proof.
  intros H. destruct faces as [|n];
    [| rewrite analyze_focus_face in H by lia; discriminate H].
  split; [reflexivity |].
  destruct (status_history (model_of st u)) as [h|] eqn:Hh; [eauto |].
  rewrite analyze_focus_no_history in H by assumption. discriminate H.
Qed.

(** ** C2: the bounded window *)

Lemma last_n_last_n {A} (n k : nat) (l : list A) :
  (n <= k)%nat -> last_n n (last_n k l) = last_n n l.
Proof.
  intros H. unfold last_n at 1 3. rewrite last_n_length.
  unfold last_n. rewrite drop_drop. f_equal. lia.
Qed.

Lemma push_frame_window (fr : list FrameState) (f : FrameState) :
  push_frame (last_n 10 fr) f = last_n 10 (fr ++ [f]).
Proof.
  rewrite push_frame_last_n by (rewrite last_n_length; lia).
  rewrite !(last_n_snoc 9). rewrite last_n_last_n by lia. reflexivity.
Qed.

Lemma frames_for_snoc u calls c :
  frames_for u (calls ++ [c]) =
  frames_for u calls ++
  match c with
  | AnalyzeFocus u' _ faces _ _ =>
      if String.eqb u' u && (faces =? 0)%nat then [frame_of faces] else []
  | _ => []
  end.
Proof.
  unfold frames_for. rewrite flat_map_app. simpl. rewrite app_nil_r. reflexivity.
Qed.

(** The window stored for a user is the last ten frames that reached the
    update for that user; a user without a model has none. *)
Lemma history_window (u : string) (calls : list Call) :
  match STUDENT_MODELS (run initial_state calls) !! u with
  | None => frames_for u calls = []
  | Some m =>
      match status_history m with
      | Some h => h = last_n 10 (frames_for u calls)
      | None => True
      end
  end.
Proof.
  induction calls as [|c calls IH] using rev_ind.
  - simpl. rewrite lookup_empty. reflexivity.
  - rewrite run_snoc, frames_for_snoc.
    set (st := run initial_state calls) in *.
    destruct c as [u' sid faces now t | sid lg u' d c | u']; cbn [step].
    + destruct faces as [|n].
      2: { rewrite analyze_focus_face by lia. cbn [snd Nat.eqb].
           rewrite Bool.andb_false_r, app_nil_r. exact IH. }
      cbn [Nat.eqb]. rewrite Bool.andb_true_r.
      destruct (String.eqb_spec u' u) as [->|Hne].
      * destruct (status_history (model_of st u)) as [h|] eqn:Hh.
        -- destruct (analyze_focus_tick st u sid now t h Hh)
             as (r & m' & ev & lg & ss & E & H1 & _).
           rewrite E. simpl. rewrite lookup_insert_eq, H1.
           unfold model_of in Hh.
           destruct (STUDENT_MODELS st !! u) as [m|]; simpl in Hh.
           ++ rewrite Hh in IH. subst h. apply push_frame_window.
           ++ inversion Hh; subst h. rewrite IH. reflexivity.
        -- rewrite analyze_focus_no_history by assumption. simpl snd.
           unfold model_of in Hh.
           destruct (STUDENT_MODELS st !! u) as [m|]; simpl in Hh;
             [rewrite Hh; exact I | discriminate].
      * rewrite analyze_focus_other by congruence.
        rewrite app_nil_r. exact IH.
    + rewrite app_nil_r. cbn [save_focus_session STUDENT_MODELS].
      unfold session_model_update.
      destruct (decide (u = u')) as [<-|Hne];
        [| rewrite lookup_insert_ne by congruence; exact IH].
      rewrite lookup_insert_eq.
      destruct (STUDENT_MODELS st !! u) as [m|]; simpl;
        [| destruct c; exact I].
      destruct c; [destruct (sessions_completed m) |]; exact IH.
    + rewrite app_nil_r. cbn [STUDENT_MODELS]. unfold get_student_model.
      destruct (decide (u = u')) as [<-|Hne].
      * destruct (STUDENT_MODELS st !! u) as [m|] eqn:E.
        -- rewrite E. exact IH.
        -- rewrite lookup_insert_eq. exact I.
      * destruct (STUDENT_MODELS st !! u') as [m|]; [exact IH |].
        rewrite lookup_insert_ne by congruence. exact IH.
Qed.

(** One push: the frame goes to the end, and the oldest entry leaves a
    window that held ten. *)
Lemma push_frame_fifo (h : list FrameState) (f : FrameState) :
  (length h <= 10)%nat ->
  push_frame h f = (if (length h =? 10)%nat then drop 1 h else h) ++ [f].
Proof.
  intros Hlen. destruct (Nat.eqb_spec (length h) 10) as [H10|Hn10].
  - apply push_frame_full. exact H10.
  - unfold push_frame. rewrite length_app. simpl.
    replace (10 <? length h + 1)%nat with false
      by (symmetry; apply Nat.ltb_ge; lia).
    reflexivity.
Qed.

(** C2.  After any sequence of requests from the initial state, the history
    stored for a user is the last ten frames that reached the student-model
    update for that user, in order, so its length never exceeds ten; the
    next request leaves it as it is when a face is detected (the request
    fails before the update) and otherwise appends its frame at the end, the
    oldest entry leaving the window when it held ten.  The push is first in,
    first out whatever the stored frames are: in any state, on a history of
    at most ten frames. *)
Theorem C2_history_window (calls : list Call) (u : string)
    (m : StudentModel) (h : list FrameState) :
  STUDENT_MODELS (run initial_state calls) !! u = Some m ->
  status_history m = Some h ->
  h = last_n 10 (frames_for u calls)
  /\ (length h <= 10)%nat
  /\ (forall sid faces now t,
        status_history
          (model_of (step (run initial_state calls)
                       (AnalyzeFocus u sid faces now t)) u)
        = Some (if (faces =? 0)%nat
                then (if (length h =? 10)%nat then drop 1 h else h)
                     ++ [frame_of faces]
                else h))
  /\ (forall st h0 sid now t,
        status_history (model_of st u) = Some h0 ->
        (length h0 <= 10)%nat ->
        status_history (model_of (step st (AnalyzeFocus u sid 0 now t)) u)
        = Some ((if (length h0 =? 10)%nat then drop 1 h0 else h0)
                ++ [frame_of 0])).
Proof.
  intros Hm Hh. pose proof (history_window u calls) as W.
  rewrite Hm, Hh in W.
  assert (Hlen : (length h <= 10)%nat) by (subst h; rewrite last_n_length; lia).
  assert (Push : forall st h0 sid now t,
             status_history (model_of st u) = Some h0 ->
             (length h0 <= 10)%nat ->
             status_history (model_of (step st (AnalyzeFocus u sid 0 now t)) u)
             = Some ((if (length h0 =? 10)%nat then drop 1 h0 else h0)
                     ++ [frame_of 0])).
  { intros st h0 sid now t Hh0 Hl0. cbn [step].
    destruct (analyze_focus_tick st u sid now t h0 Hh0)
      as (r & m' & ev & lg & ss & E & H1 & _).
    rewrite E. cbn [snd]. rewrite model_of_after_tick, H1. f_equal.
    apply push_frame_fifo. exact Hl0. }
  split; [exact W |]. split; [exact Hlen |]. split; [| exact Push].
  intros sid faces now t.
  assert (Hh' : status_history (model_of (run initial_state calls) u) = Some h)
    by (unfold model_of; rewrite Hm; exact Hh).
  destruct faces as [|n].
  - cbn [Nat.eqb]. apply Push; assumption.
  - cbn [step Nat.eqb]. rewrite analyze_focus_face by lia. exact Hh'.
Qed.

(** ** C1: the majority vote *)

Lemma push_frame_replicate (n : nat) (f : FrameState) :
  push_frame (replicate (Nat.min n 10) f) f = replicate (Nat.min (S n) 10) f.
Proof.
  rewrite push_frame_last_n by (rewrite length_replicate; lia).
  rewrite <- replicate_S_end. unfold last_n.
  rewrite length_replicate, drop_replicate. f_equal. lia.
Qed.

Lemma count_faces_away (n : nat) : count_faces (replicate n (frame_of 0)) = 0%nat.
Proof. induction n as [|n IH]; [reflexivity | exact IH]. Qed.

Lemma count_distracted_away (n : nat) :
  count_distracted (replicate n (frame_of 0)) = n.
Proof.
  unfold count_distracted. induction n as [|n IH]; [reflexivity |].
  simpl. f_equal. exact IH.
Qed.


Lemma stable_away (n : nat) :
  (1 <= n <= 10)%nat ->
  stable_state (replicate n (frame_of 0)) =
    (true, Some "looking_away",
     if (3 <=? n)%nat then Some refocus_message else None).
Proof.
  intros H. rewrite stable_state_vote by (rewrite length_replicate; exact H).
  rewrite count_faces_away, count_distracted_away, length_replicate.
  replace (6 * n <=? 10 * 0)%nat with false
    by (symmetry; apply Nat.leb_gt; lia).
  reflexivity.
Qed.

(** In a run from the initial state only frames without a face are stored,
    so every answered request finds the window distracted. *)
Lemma frames_for_away u calls :
  exists k, frames_for u calls = replicate k (frame_of 0).
Proof.
  unfold frames_for. induction calls as [|c calls [k IH]]; simpl; [exists 0%nat; reflexivity |].
  rewrite IH. destruct c as [u0 sid faces now t | |]; try (exists k; reflexivity).
  destruct (String.eqb u0 u); cbn [andb]; [| exists k; reflexivity].
  destruct faces as [|n]; cbn [Nat.eqb]; [exists (S k) | exists k]; reflexivity.
Qed.

Lemma reachable_history_away calls u h :
  status_history (model_of (run initial_state calls) u) = Some h ->
  h = replicate (length h) (frame_of 0) /\ (length h <= 10)%nat.
Proof.
  intros Hh. pose proof (history_window u calls) as W. unfold model_of in Hh.
  destruct (STUDENT_MODELS (run initial_state calls) !! u) as [m|]; simpl in Hh.
  - rewrite Hh in W. destruct (frames_for_away u calls) as [k Hk].
    rewrite Hk in W. unfold last_n in W.
    rewrite length_replicate, drop_replicate in W. subst h.
    rewrite length_replicate. split; [reflexivity | lia].
  - inversion Hh. split; [reflexivity | simpl; lia].
Qed.

Lemma away_push_distracted h :
  h = replicate (length h) (frame_of 0) -> (length h <= 10)%nat ->
  stable_status (push_frame h (frame_of 0)) = true.
Proof.
  intros Hrep Hlen. rewrite Hrep.
  replace (length h) with (Nat.min (length h) 10) by lia.
  rewrite push_frame_replicate. unfold stable_status.
  rewrite stable_away by lia. reflexivity.
Qed.

(** C1.  For a user whose stored history holds at most ten frames, a
    request that is answered by the analysis reports the vote on the window
    it has just stored: focused exactly when the face-present frames are at
    least six tenths of the window ([6 * len <= 10 * faces]), and
    distracted with type "looking_away" otherwise; a full window of ten
    frames with exactly six face-present frames is focused.  A request
    without a face is so answered when the stored plan, if any, can take an
    adaptation and the session it names, if saved, has a log.  In a run of
    the service from its initial state a request with a detected face
    fails before the update, so the stored windows hold no face-present
    frame and every answered request is distracted. *)
Theorem C1_majority_vote (st : State) (u : string) (sid : option string)
    (faces : nat) (now : datetime) (t : float) (h : list FrameState) :
  status_history (model_of st u) = Some h ->
  (length h <= 10)%nat ->
  (faces = 0%nat -> plan_ok (model_of st u) = true ->
   session_loggable (FOCUS_SESSIONS st) sid = true ->
   exists a, fst (analyze_focus st u sid faces now t) = Ok a)
  /\ forall a,
       fst (analyze_focus st u sid faces now t) = Ok a ->
       exists h',
         status_history (model_of (snd (analyze_focus st u sid faces now t)) u)
         = Some h'
         /\ h' = push_frame h (frame_of faces)
         /\ (1 <= length h' <= 10)%nat
         /\ (distraction_detected a = false <->
             (6 * length h' <= 10 * count_faces h')%nat)
         /\ (distraction_detected a = false -> distraction_type a = None)
         /\ (distraction_detected a = true ->
             distraction_type a = Some "looking_away")
         /\ (length h' = 10%nat -> count_faces h' = 6%nat ->
             distraction_detected a = false)
         /\ (forall calls, st = run initial_state calls ->
             count_faces h' = 0%nat /\ distraction_detected a = true).
Proof.
  intros Hh Hb. split.
  - intros -> Hp Hs.
    destruct (analyze_focus_tick st u sid now t h Hh)
      as (r & m' & ev & lg & ss & E & _ & _ & _ & _ & _ & _ & _ & _ & _ & H9 & _).
    destruct (H9 Hp) as (_ & Hr). destruct (Hr Hs) as (a & ->).
    exists a. rewrite E. reflexivity.
  - intros a Ha. destruct (analyze_focus_ok _ _ _ _ _ _ _ Ha) as [-> _].
    destruct (analyze_focus_tick st u sid now t h Hh)
      as (r & m' & ev & lg & ss & E & H1 & _ & _ & _ & _ & _ & _ & _ & _ & _ & H10).
    rewrite E in Ha. cbn [fst] in Ha.
    destruct (H10 a Ha) as (_ & Hd & Hty & _).
    pose proof (push_frame_length h (frame_of 0) Hb) as Hlen.
    exists (push_frame h (frame_of 0)).
    rewrite E. cbn [snd]. rewrite model_of_after_tick.
    rewrite Hd, Hty, stable_type_status, stable_status_vote by exact Hlen.
    split; [exact H1 |]. split; [reflexivity |]. split; [exact Hlen |].
    assert (Hrun : forall calls, st = run initial_state calls ->
                   count_faces (push_frame h (frame_of 0)) = 0%nat).
    { intros calls ->. destruct (reachable_history_away calls u h Hh) as [Hrep _].
      rewrite Hrep. replace (length h) with (Nat.min (length h) 10) by lia.
      rewrite push_frame_replicate. apply count_faces_away. }
    destruct (Nat.leb_spec (6 * length (push_frame h (frame_of 0)))
                (10 * count_faces (push_frame h (frame_of 0)))) as [Hle|Hgt];
      simpl;
      (do 4 (split; [intros; first [congruence | lia | tauto | split; intros; first [congruence | lia]] |]));
      intros calls Hst; pose proof (Hrun calls Hst) as H0;
      (split; [exact H0 | first [reflexivity | lia]]).
Qed.

(** ** C3 and C9: the event classifier *)

Lemma filter_nonempty_existsb {A} (f : A -> bool) (l : list A) :
  (0 <? length (List.filter f l))%nat = existsb f l.
Proof.
  induction l as [|x l IH]; simpl; [reflexivity |].
  destruct (f x); simpl; [reflexivity | exact IH].
Qed.

(** Among the named event types, the substring test of the classifier
    picks [DISTRACTION_PHONE] and [DISTRACTION_ENVIRONMENT]. *)
Lemma distraction_event_types :
  map (contains "distraction") named_types
  = [false; false; false; false; true; true; false; false; false; false; false].
Proof. vm_compute. reflexivity. Qed.

Lemma is_distraction_event_named (e : LearningEvent) :
  typed_event e -> (is_distraction_event e = true <-> names_distraction e).
Proof.
  unfold typed_event, is_distraction_event, names_distraction.
  destruct (event_type e) as [ty|]; simpl.
  - intros Hin. unfold named_types in Hin. simpl in Hin.
    repeat (destruct Hin as [<-|Hin];
            [vm_compute; split; intros H;
             first [ discriminate H
                   | destruct H as [H|H]; discriminate H
                   | tauto ] |]).
    destruct Hin.
  - intros _. split; [discriminate | intros [H|H]; discriminate H].
Qed.

Lemma In_last_n (l : list LearningEvent) (e : LearningEvent) :
  In e (last_n 10 l) <-> among_last_ten l e.
Proof.
  unfold last_n, among_last_ten. rewrite <- list_elem_of_In, list_elem_of_lookup.
  split.
  - intros [i Hi]. rewrite lookup_drop in Hi.
    exists (length l - 10 + i)%nat. split; [exact Hi | lia].
  - intros (i & Hi & Hlen). exists (i - (length l - 10))%nat.
    rewrite lookup_drop. replace (length l - 10 + (i - (length l - 10)))%nat with i by lia.
    exact Hi.
Qed.

(** The test of the relabelling step says that a distraction is among the
    last ten events. *)
Lemma recent_distractions_spec events u :
  Forall typed_event (default [] (events !! u)) ->
  (0 <? length (List.filter is_distraction_event
                  (last_n 10 (default [] (events !! u)))))%nat = true
  <-> recovering events u.
Proof.
  intros Hty. rewrite filter_nonempty_existsb, existsb_exists.
  unfold recovering. split.
  - intros (e & Hin & Hd). exists e. split; [apply In_last_n; exact Hin |].
    apply is_distraction_event_named; [| exact Hd].
    rewrite Forall_forall in Hty. apply Hty.
    apply In_last_n in Hin as (i & Hi & _).
    apply list_elem_of_lookup. eauto.
  - intros (e & Hin & Hd). exists e. split; [apply In_last_n; exact Hin |].
    apply is_distraction_event_named; [| exact Hd].
    rewrite Forall_forall in Hty. apply Hty.
    destruct Hin as (i & Hi & _).
    apply list_elem_of_lookup. eauto.
Qed.

(** The rule chain on signals whose values have their kinds: no comparison
    raises, and the chain is the one on the typed values. *)
Lemma classify_typed (e : LearningEvent) (s : TypedSignals) :
  let face := default true (typed_face_present s) in
  let eyes := default true (typed_eyes_open s) in
  let gaze := default true (typed_gaze_stable s) in
  let level := default 0.0%float (typed_distraction_level s) in
  let time := default 0 (typed_time_on_content s) in
  let clicks := default 0 (typed_interaction_count s) in
  classify e (signals_of s) =
  Value (if negb face then
           set_rule e LearningEventType.DISTRACTION_ENVIRONMENT 0.9%float
             (fgt level 0.5%float) (Some "gentle_refocus")
         else if (120 <? time) && (clicks =? 0) then
           set_rule e LearningEventType.COGNITIVE_OVERLOAD 0.7%float
             true (Some "simplify_content")
         else if (time <? 10) && gaze then
           set_rule e LearningEventType.SHALLOW_ENGAGEMENT 0.6%float
             false (intervention_type e)
         else if gaze && eyes && (30 <? time) then
           set_rule e LearningEventType.SUSTAINED_FOCUS 0.85%float
             false (intervention_type e)
         else e).
Proof.
  destruct s as [[face|] [eyes|] [gaze|] [level|] [time|] [clicks|]];
    unfold classify; cbn;
    repeat match goal with
           | |- context [if negb ?b then _ else _] => destruct b; cbn
           | |- context [if ?a && ?b then _ else _] =>
               destruct a eqn:?; cbn; try destruct b eqn:?; cbn
           | |- context [if ?b then _ else _] => destruct b eqn:?; cbn
           end;
    try reflexivity; try congruence.
Qed.

Ltac classify_cases :=
  repeat match goal with
         | |- context [(?a <? ?b)%Z] => destruct (Z.ltb_spec a b)
         | |- context [(?a =? ?b)%Z] => destruct (Z.eqb_spec a b)
         end.

(** C3.  On signals whose values have their kinds, and a store of events as
    the classifier writes them, the classifier applies its rules in a fixed
    order, the first match winning: no face gives DISTRACTION_ENVIRONMENT
    (0.9, intervene iff the distraction level exceeds 0.5); else more than
    120 s on the content with no interaction gives COGNITIVE_OVERLOAD (0.7,
    intervene); else less than 10 s with a stable gaze gives
    SHALLOW_ENGAGEMENT (0.6, no intervention); else stable gaze, open eyes
    and more than 30 s give SUSTAINED_FOCUS (0.85), relabelled RECOVERY
    (0.75) exactly when an event of type DISTRACTION_PHONE or
    DISTRACTION_ENVIRONMENT stands at one of the last ten positions of the
    user's events; otherwise the event type stays unset. *)
Theorem C3_classifier_priority
    (events : gmap string (list LearningEvent)) (u : string) (s : TypedSignals)
    (ts : datetime) :
  Forall typed_event (default [] (events !! u)) ->
  let face := default true (typed_face_present s) in
  let eyes := default true (typed_eyes_open s) in
  let gaze := default true (typed_gaze_stable s) in
  let level := default 0.0%float (typed_distraction_level s) in
  let time := default 0 (typed_time_on_content s) in
  let clicks := default 0 (typed_interaction_count s) in
  exists ev,
    infer_learning_event events u (signals_of s) ts
    = Value (ev, <[u := default [] (events !! u) ++ [ev]]> events)
    /\ (face = false ->
         event_type ev = Some LearningEventType.DISTRACTION_ENVIRONMENT
         /\ confidence ev = 0.9%float
         /\ should_intervene ev = fgt level 0.5%float)
    /\ (face = true -> 120 < time -> clicks = 0 ->
         event_type ev = Some LearningEventType.COGNITIVE_OVERLOAD
         /\ confidence ev = 0.7%float
         /\ should_intervene ev = true)
    /\ (face = true -> ~ (120 < time /\ clicks = 0) -> time < 10 -> gaze = true ->
         event_type ev = Some LearningEventType.SHALLOW_ENGAGEMENT
         /\ confidence ev = 0.6%float
         /\ should_intervene ev = false)
    /\ (face = true -> ~ (120 < time /\ clicks = 0) ->
        ~ (time < 10 /\ gaze = true) ->
        gaze = true -> eyes = true -> 30 < time ->
         should_intervene ev = false
         /\ (recovering events u ->
             event_type ev = Some LearningEventType.RECOVERY
             /\ confidence ev = 0.75%float)
         /\ (~ recovering events u ->
             event_type ev = Some LearningEventType.SUSTAINED_FOCUS
             /\ confidence ev = 0.85%float))
    /\ (face = true -> ~ (120 < time /\ clicks = 0) ->
        ~ (time < 10 /\ gaze = true) ->
        ~ (gaze = true /\ eyes = true /\ 30 < time) ->
         event_type ev = None /\ should_intervene ev = false).
Proof.
  intros Hty face eyes gaze level time clicks.
  pose proof (recent_distractions_spec events u Hty) as Hrec.
  unfold infer_learning_event. rewrite classify_typed. cbn [bind].
  fold face eyes gaze level time clicks.
  eexists. split; [reflexivity |].
  destruct (0 <? length _)%nat;
    [assert (Hr : recovering events u) by (apply Hrec; reflexivity)
    |assert (Hr : ~ recovering events u)
       by (intros H; apply Hrec in H; discriminate H)];
    clear Hrec;
    destruct face, gaze, eyes; simpl; classify_cases; simpl;
    repeat split; intros; try reflexivity; try congruence; try lia;
    try tauto.
Qed.

(** Two events that differ at most in their evidence. *)
Lemma classify_same (e e' : LearningEvent) (s : Signals) :
  is_number (default (PFloat 0.0%float) (sig_distraction_level s)) = true ->
  is_number (default (PInt 0) (sig_time_on_content s)) = true ->
  ev_timestamp e = ev_timestamp e' ->
  event_type e = event_type e' -> confidence e = confidence e' ->
  should_intervene e = should_intervene e' ->
  intervention_type e = intervention_type e' ->
  exists r r',
    classify e s = Value r /\ classify e' s = Value r'
    /\ evidence r = evidence e /\ evidence r' = evidence e'
    /\ ev_timestamp r = ev_timestamp e /\ ev_timestamp r = ev_timestamp r'
    /\ event_type r = event_type r' /\ confidence r = confidence r'
    /\ should_intervene r = should_intervene r'
    /\ intervention_type r = intervention_type r'.
Proof.
  intros Hl Ht H1 H2 H3 H4 H5. unfold classify.
  destruct (default (PFloat 0.0%float) (sig_distraction_level s)) as [|b|z|f|x|n];
    try discriminate Hl;
    (destruct (default (PInt 0) (sig_time_on_content s)) as [|b'|z'|f'|x'|n'];
     try discriminate Ht);
    cbn [py_gt_half py_gt_int py_lt_int bind];
    repeat match goal with
           | |- context [if ?b then _ else _] => destruct b; cbn [bind]
           end;
    (eexists _, _; split; [reflexivity |]; split; [reflexivity |];
     cbn [set_rule evidence ev_timestamp event_type confidence should_intervene
          intervention_type];
     repeat split; first [reflexivity | assumption]).
Qed.

Lemma classify_fill (e : LearningEvent) (s : Signals) :
  classify e (fill_defaults s) = classify e s.
Proof. reflexivity. Qed.

(** C9 (amended).  On signals in which the distraction level and the time
    on the content, when present, are numbers, with any subset of the six
    keys absent, the classifier returns: the event is the one it returns on
    the signals completed with face_present = true, eyes_open = true,
    gaze_stable = true, distraction_level = 0.0, time_on_content = 0 and
    interaction_count = 0, it keeps the signals as given in the evidence,
    and it is stored as the user's latest. *)
Theorem C9_classifier_defaults
    (events : gmap string (list LearningEvent)) (u : string) (s : Signals)
    (ts : datetime) :
  is_number (default (PFloat 0.0%float) (sig_distraction_level s)) = true ->
  is_number (default (PInt 0) (sig_time_on_content s)) = true ->
  exists ev ev',
    infer_learning_event events u s ts
    = Value (ev, <[u := default [] (events !! u) ++ [ev]]> events)
    /\ infer_learning_event events u (fill_defaults s) ts
       = Value (ev', <[u := default [] (events !! u) ++ [ev']]> events)
    /\ event_type ev = event_type ev'
    /\ confidence ev = confidence ev'
    /\ should_intervene ev = should_intervene ev'
    /\ intervention_type ev = intervention_type ev'
    /\ ev_timestamp ev = ts
    /\ evidence ev = s
    /\ (s = mkSignals None None None None None None ->
        event_type ev = Some LearningEventType.SHALLOW_ENGAGEMENT
        /\ confidence ev = 0.6%float
        /\ should_intervene ev = false).
Proof.
  intros Hl Ht. unfold infer_learning_event. rewrite classify_fill.
  match goal with
  | |- context [bind (classify ?e s) _] =>
      match goal with
      | |- context [bind (classify ?e' s) _ = Value (_, <[_ := _ ++ [_]]> _) /\ _] =>
          idtac
      end
  end.
  set (e0 := {| ev_timestamp := ts; event_type := None; evidence := s;
                confidence := 0.0%float; should_intervene := false;
                intervention_type := None |}).
  set (e1 := {| ev_timestamp := ts; event_type := None; evidence := fill_defaults s;
                confidence := 0.0%float; should_intervene := false;
                intervention_type := None |}).
  destruct (classify_same e0 e1 s Hl Ht eq_refl eq_refl eq_refl eq_refl eq_refl)
    as (r & r' & Er & Er' & Hev & _ & Hts0 & Hts & Hty & Hc & Hi & Hit).
  cbn [evidence ev_timestamp e0] in Hev, Hts0.
  rewrite Er, Er'. cbn [bind]. rewrite <- Hty.
  set (rec := (0 <? length _)%nat).
  pose proof (relabel_keeps rec r) as K. pose proof (relabel_keeps rec r') as K'.
  cbv zeta in K, K'. rewrite <- Hty in K'.
  destruct K as (K1 & K2 & K3 & K4 & _). destruct K' as (K1' & K2' & K3' & K4' & _).
  eexists _, _. split; [reflexivity |]. split; [reflexivity |].
  destruct (rec && _) eqn:Erec.
  - cbn [relabel event_type confidence should_intervene intervention_type
         ev_timestamp evidence] in *.
    do 6 (split; [congruence |]).
    intros ->. exfalso. revert Erec Er. clear.
    unfold classify; cbn; intros Erec Er; injection Er as <-.
    cbn in Erec; rewrite Bool.andb_false_r in Erec; discriminate Erec.
  - do 6 (split; [congruence |]).
    intros ->. revert Er. clear. unfold classify; cbn.
    intros Er; injection Er as <-. repeat split; reflexivity.
Qed.

(** ** C4 and C5: the plan adapter *)

Lemma cooldown_active_last now l a ts :
  last l = Some a -> adapt_timestamp a = Some (Naive ts) ->
  now - ts < 120 * 1000000 ->
  cooldown_active now l = Value true.
Proof.
  intros Hl Ha Hlt. unfold cooldown_active. rewrite Hl, Ha. simpl.
  f_equal. apply Z.ltb_lt. exact Hlt.
Qed.

Lemma cooldown_active_raises now l a :
  last l = Some a -> stamp_ok a = false ->
  exists e, cooldown_active now l = Throw e.
Proof.
  intros Hl Ha. unfold cooldown_active, stamp_ok in *. rewrite Hl.
  destruct (adapt_timestamp a) as [[t|t| |]|];
    first [discriminate Ha | simpl; eauto].
Qed.

(** A call that returns a plan with one more adaptation has stamped it with
    the time of the call. *)
Lemma adapt_plan_applied now models logs u p tr res p1 logs1 l a :
  adapt_plan now models logs u p tr = (res, p1, logs1) ->
  adaptations p = Some l ->
  adaptations p1 = Some (l ++ [a]) ->
  adapt_timestamp a = Some (Naive now).
Proof.
  intros H Hl H1. unfold adapt_plan in H.
  assert (Same : adaptations p = Some (l ++ [a]) -> False).
  { rewrite Hl. intros E. inversion E as [E'].
    apply (f_equal length) in E'. rewrite length_app in E'. simpl in E'. lia. }
  destruct (cooldown_active _ _) as [[|]|e].
  { inversion H; subst. contradiction. }
  2: { inversion H; subst. contradiction. }
  pose proof (select_adaptation_adaptations now
                (lookup_distraction_count models u) p tr) as Hs.
  destruct (select_adaptation _ _ _ _) as [[ad|] q] eqn:Hsel; simpl in Hs.
  - rewrite Hs, Hl in H. simpl in H. inversion H; subst. simpl in H1.
    inversion H1 as [E]. apply app_inj_tail in E as [_ <-].
    eapply select_adaptation_timestamp; eassumption.
  - inversion H; subst. rewrite Hs in H1. contradiction.
Qed.

Lemma opt_str_eqb_neq (a b : option string) :
  a <> b -> opt_str_eqb a b = false.
Proof.
  intros H. destruct (opt_str_eqb a b) eqn:E; [| reflexivity].
  apply opt_str_eqb_eq in E. contradiction.
Qed.

Lemma select_adaptation_no_rule now c p tr :
  matches_no_rule c tr -> select_adaptation now c p tr = (None, p).
Proof.
  intros (H1 & H2 & H3 & H4). unfold select_adaptation.
  rewrite (opt_str_eqb_neq _ _ H1), (opt_str_eqb_neq _ _ H3),
    (opt_str_eqb_neq _ _ H4).
  destruct (opt_str_eqb (trig_distraction_type tr) (Some "looking_away")) eqn:E;
    [| reflexivity].
  apply opt_str_eqb_eq in E. cbn [andb].
  destruct (Z.ltb_spec 3 c); [tauto | reflexivity].
Qed.

(** C4 (amended).  When the most recent entry of [plan.adaptations] is
    stamped, with an ISO time without UTC offset as [adapt_plan] writes it,
    less than 120 seconds before the call, [adapt_plan] returns the plan as
    it is: nothing is appended, no field changes and no decision is logged;
    an entry without a timestamp has the same effect.  (A timestamp with a
    UTC offset, or one that is not an ISO string, makes the call raise: the
    plan and the log stay as they are, but no plan is returned.)  Hence a
    second call less than 120 seconds after a call that applied an
    adaptation leaves the plan unchanged.  A call on which no rule fires
    leaves the plan and the log as they are too, whatever the plan: it
    stamps nothing, so the cooldown of a later call is decided as if it had
    not been made, and a call with "phone_use" that follows it outside the
    cooldown of the earlier adaptations appends its adaptation, however
    soon it comes. *)
Theorem C4_cooldown_noop :
  (forall now models logs u p tr l a,
      adaptations p = Some l -> last l = Some a ->
      ((forall ts, adapt_timestamp a = Some (Naive ts) ->
                   now - ts < 120 * 1000000 ->
                   adapt_plan now models logs u p tr = (Returned, p, logs))
       /\ (adapt_timestamp a = None ->
           adapt_plan now models logs u p tr = (Returned, p, logs))
       /\ (stamp_ok a = false ->
           exists e, adapt_plan now models logs u p tr = (Raised e, p, logs))))
  /\ (forall now1 now2 models models' logs u p tr1 tr2 res p1 logs1 l a,
      adapt_plan now1 models logs u p tr1 = (res, p1, logs1) ->
      adaptations p = Some l ->
      adaptations p1 = Some (l ++ [a]) ->
      now2 - now1 < 120 * 1000000 ->
      adapt_plan now2 models' logs1 u p1 tr2 = (Returned, p1, logs1))
  /\ (forall now1 now2 models models' logs u p tr1 tr2 l,
      matches_no_rule (lookup_distraction_count models u) tr1 ->
      snd (fst (adapt_plan now1 models logs u p tr1)) = p
      /\ snd (adapt_plan now1 models logs u p tr1) = logs
      /\ (takes_adaptation p = true ->
          adapt_plan now1 models logs u p tr1 = (Returned, p, logs))
      /\ (adaptations p = Some l ->
          cooldown_active now2 l = Value false ->
          trig_distraction_type tr2 = Some "phone_use" ->
          exists a,
            adaptations (snd (fst (adapt_plan now2 models' logs u p tr2)))
            = Some (l ++ [a])
            /\ adapt_timestamp a = Some (Naive now2)
            /\ recommended_duration_minutes
                 (snd (fst (adapt_plan now2 models' logs u p tr2)))
               = Some (Z.max 10 (default 25 (recommended_duration_minutes p) - 5)))).
Proof.
  assert (A : forall now models logs u p tr l a ts,
      adaptations p = Some l -> last l = Some a ->
      adapt_timestamp a = Some (Naive ts) ->
      now - ts < 120 * 1000000 ->
      adapt_plan now models logs u p tr = (Returned, p, logs)).
  { intros now models logs u p tr l a ts Hl Hlast Hts Hlt.
    unfold adapt_plan. rewrite Hl. simpl.
    rewrite (cooldown_active_last now l a ts) by assumption. reflexivity. }
  assert (N : forall now models logs u p tr,
      matches_no_rule (lookup_distraction_count models u) tr ->
      exists res, adapt_plan now models logs u p tr = (res, p, logs)
                  /\ (takes_adaptation p = true -> res = Returned)).
  { intros now models logs u p tr Hno. unfold adapt_plan.
    destruct (cooldown_active _ _) as [[|]|e] eqn:Hc.
    - eexists. split; [reflexivity | reflexivity].
    - rewrite select_adaptation_no_rule by exact Hno.
      eexists. split; [reflexivity | reflexivity].
    - eexists. split; [reflexivity |]. intros Ht. unfold takes_adaptation in Ht.
      destruct (adaptations p) as [l|]; [| discriminate Ht].
      destruct (cooldown_active_returns now l Ht) as [b Hb].
      cbn [default from_option id] in Hc. congruence. }
  split; [| split].
  - intros now models logs u p tr l a Hl Hlast. split; [| split].
    + intros ts Hts Hlt. eapply A; eassumption.
    + intros Hts. unfold adapt_plan. rewrite Hl. cbn [default from_option id].
      unfold cooldown_active. rewrite Hlast, Hts. simpl.
      replace (now - now <? 120 * 1000000) with true
        by (symmetry; apply Z.ltb_lt; lia).
      reflexivity.
    + intros Hbad. unfold adapt_plan. rewrite Hl. cbn [default from_option id].
      destruct (cooldown_active_raises now l a Hlast Hbad) as [e ->]. eauto.
  - intros now1 now2 models models' logs u p tr1 tr2 res p1 logs1 l a H Hl H1 Hlt.
    apply (A now2 models' logs1 u p1 tr2 (l ++ [a]) a now1).
    + exact H1.
    + apply last_snoc.
    + eapply adapt_plan_applied; eassumption.
    + exact Hlt.
  - intros now1 now2 models models' logs u p tr1 tr2 l Hno.
    destruct (N now1 models logs u p tr1 Hno) as (res & E & Hres).
    rewrite E. cbn [fst snd].
    split; [reflexivity |]. split; [reflexivity |].
    split; [intros Ht; rewrite (Hres Ht); reflexivity |].
    intros Hl Hc Hty. unfold adapt_plan. rewrite Hl. cbn [default from_option id].
    rewrite Hc. unfold select_adaptation. rewrite Hty.
    rewrite opt_str_eqb_refl. cbn [set_durations adaptations].
    rewrite Hl. cbn [fst snd log_decision set_adaptations adaptations
                     recommended_duration_minutes].
    eexists. split; [reflexivity |]. split; reflexivity.
Qed.

(** C5.  Outside the cooldown, a call with distraction_type "phone_use"
    sets the recommended duration to [max(10, d - 5)], never below 10; a
    call with "looking_away" for a user whose distraction count exceeds 3
    sets it to [max(15, d - 10)], never below 15; a call whose event type is
    SUSTAINED_FOCUS and that reaches the extension rule sets it to
    [min(d + 5, 45)], never above 45.  Inside the cooldown the plan is
    returned as it is. *)
Theorem C5_duration_bounds (now : datetime)
    (models : gmap string StudentModel) (logs : gmap string (list Decision))
    (u : string) (p : FocusPlan) (tr : TriggerEvent) :
  let p' := snd (fst (adapt_plan now models logs u p tr)) in
  let d := default 25 (recommended_duration_minutes p) in
  let cooling := cooldown_active now (default [] (adaptations p)) in
  (cooling = Value true -> p' = p)
  /\ (cooling = Value false -> trig_distraction_type tr = Some "phone_use" ->
      recommended_duration_minutes p' = Some (Z.max 10 (d - 5))
      /\ 10 <= Z.max 10 (d - 5))
  /\ (cooling = Value false -> trig_distraction_type tr = Some "looking_away" ->
      3 < lookup_distraction_count models u ->
      recommended_duration_minutes p' = Some (Z.max 15 (d - 10))
      /\ 15 <= Z.max 15 (d - 10))
  /\ (cooling = Value false ->
      trig_event_type tr = Some LearningEventType.SUSTAINED_FOCUS ->
      trig_distraction_type tr <> Some "phone_use" ->
      ~ (trig_distraction_type tr = Some "looking_away"
         /\ 3 < lookup_distraction_count models u) ->
      recommended_duration_minutes p' = Some (Z.min (d + 5) 45)
      /\ Z.min (d + 5) 45 <= 45).
Proof.
  intros p' d cooling. subst p' cooling. unfold adapt_plan.
  destruct (cooldown_active _ _) as [[|]|e] eqn:Hc.
  { repeat split; intros; try discriminate; reflexivity. }
  2: { repeat split; intros; discriminate. }
  split; [intros; discriminate |].
  split; [| split].
  - intros _ Hty. unfold select_adaptation. rewrite Hty. simpl.
    unfold set_durations; simpl.
    destruct (adaptations p); simpl; split; first [reflexivity | lia].
  - intros _ Hty Hcount. unfold select_adaptation. rewrite Hty. simpl.
    replace (3 <? lookup_distraction_count models u) with true
      by (symmetry; apply Z.ltb_lt; exact Hcount).
    unfold set_durations; simpl.
    destruct (adaptations p); simpl; split; first [reflexivity | lia].
  - intros _ Hev Hphone Haway. unfold select_adaptation. rewrite Hev.
    destruct (opt_str_eqb (trig_distraction_type tr) (Some "phone_use")) eqn:E1.
    { apply opt_str_eqb_eq in E1. contradiction. }
    destruct (opt_str_eqb (trig_distraction_type tr) (Some "looking_away")
              && (3 <? lookup_distraction_count models u)) eqn:E2.
    { apply andb_true_iff in E2 as [E2 E3].
      apply opt_str_eqb_eq in E2. apply Z.ltb_lt in E3. tauto. }
    simpl.
    unfold set_durations; simpl.
    destruct (adaptations p); simpl; split; first [reflexivity | lia].
Qed.

(** ** C10: the distraction counter *)

Lemma tick_message_break m h t :
  tick_message m h t = Some break_message -> 5 < distraction_count m + 1.
Proof.
  unfold tick_message. destruct (stable_status h) eqn:Hs; [| discriminate].
  destruct (5 <? distraction_count m + 1) eqn:E; [intros _; apply Z.ltb_lt; exact E |].
  simpl. destruct (gate_open m h t); [| discriminate].
  rewrite stable_message_count by exact Hs.
  destruct (_ <=? _)%nat; intros H; [| discriminate].
  vm_compute in H. discriminate H.
Qed.

Lemma tick_message_escalated m h t :
  stable_status h = true -> 5 < distraction_count m + 1 ->
  tick_message m h t <> None.
Proof.
  intros Hs Hc. unfold tick_message. rewrite Hs.
  replace (5 <? distraction_count m + 1) with true
    by (symmetry; apply Z.ltb_lt; exact Hc).
  simpl. destruct (gate_open m h t).
  - rewrite stable_message_count by exact Hs.
    destruct (_ <=? _)%nat; simpl; discriminate.
  - simpl. discriminate.
Qed.

(** C10.  Whatever the request, the distraction count of an existing user
    never goes down and the model is never replaced by a fresh one: a
    request of that user without a detected face adds exactly 1 when the
    stable status of the window is distracted and nothing when it is
    focused; a request with a detected face, which fails before the update,
    and every other request leave the count as it is.  The break suggestion
    is decided on this counter: it is returned only when the incremented
    count exceeds 5, and a distracted tick past that threshold always
    carries a message. *)
Theorem C10_distraction_count (st : State) (c : Call) (u : string)
    (m : StudentModel) :
  STUDENT_MODELS st !! u = Some m ->
  exists m',
    STUDENT_MODELS (step st c) !! u = Some m'
    /\ distraction_count m <= distraction_count m'
    /\ distraction_count m' =
         distraction_count m +
         match c with
         | AnalyzeFocus u' _ faces _ _ =>
             if String.eqb u' u && (faces =? 0)%nat then
               match status_history m with
               | Some h =>
                   if stable_status (push_frame h (frame_of 0)) then 1 else 0
               | None => 0
               end
             else 0
         | _ => 0
         end
    /\ (forall calls, exists m'',
          STUDENT_MODELS (run st calls) !! u = Some m''
          /\ distraction_count m <= distraction_count m'')
    /\ (forall sid faces now t a,
          c = AnalyzeFocus u sid faces now t ->
          current_content_time m = None ->
          fst (analyze_focus st u sid faces now t) = Ok a ->
          distraction_detected a = true ->
          distraction_count m' = distraction_count m + 1
          /\ (intervention a = Some break_message -> 5 < distraction_count m')
          /\ (5 < distraction_count m' -> intervention a <> None)).
Proof.
  assert (Step : forall st c m, STUDENT_MODELS st !! u = Some m ->
    exists m', STUDENT_MODELS (step st c) !! u = Some m'
    /\ distraction_count m' =
         distraction_count m +
         match c with
         | AnalyzeFocus u' _ faces _ _ =>
             if String.eqb u' u && (faces =? 0)%nat then
               match status_history m with
               | Some h =>
                   if stable_status (push_frame h (frame_of 0)) then 1 else 0
               | None => 0
               end
             else 0
         | _ => 0
         end).
  { clear. intros st c m Hm.
    destruct c as [u' sid faces now t | sid lg u' d c | u']; cbn [step].
    - destruct faces as [|n].
      2: { rewrite analyze_focus_face by lia. cbn [snd Nat.eqb].
           rewrite Bool.andb_false_r. exists m. split; [exact Hm | lia]. }
      cbn [Nat.eqb]. rewrite Bool.andb_true_r.
      destruct (String.eqb_spec u' u) as [->|Hne].
      + assert (Hmo : model_of st u = m) by (unfold model_of; rewrite Hm; reflexivity).
        destruct (status_history m) as [h|] eqn:Hh.
        * rewrite <- Hmo in Hh.
          destruct (analyze_focus_tick st u sid now t h Hh)
            as (r & m' & ev & lg & ss & E & _ & H2 & _).
          rewrite E. simpl. rewrite lookup_insert_eq.
          exists m'. split; [reflexivity |]. rewrite H2, Hmo. reflexivity.
        * rewrite analyze_focus_no_history by (rewrite Hmo; exact Hh).
          exists m. split; [exact Hm | lia].
      + rewrite analyze_focus_other by congruence.
        exists m. split; [exact Hm | lia].
    - cbn [save_focus_session STUDENT_MODELS]. unfold session_model_update.
      destruct (decide (u = u')) as [<-|Hne].
      + rewrite lookup_insert_eq, Hm. simpl.
        eexists. split; [reflexivity |].
        destruct c; [destruct (sessions_completed m) |]; simpl; lia.
      + rewrite lookup_insert_ne by congruence.
        exists m. split; [exact Hm | lia].
    - cbn [STUDENT_MODELS]. unfold get_student_model.
      destruct (decide (u = u')) as [<-|Hne].
      + rewrite Hm. exists m. split; [exact Hm | lia].
      + destruct (STUDENT_MODELS st !! u');
          [| rewrite lookup_insert_ne by congruence];
          exists m; (split; [exact Hm | lia]).
  }
  assert (Mono : forall st c m, STUDENT_MODELS st !! u = Some m ->
    exists m', STUDENT_MODELS (step st c) !! u = Some m'
               /\ distraction_count m <= distraction_count m').
  { intros st1 c1 m1 H1. destruct (Step st1 c1 m1 H1) as (m' & Hl & Hc).
    exists m'. split; [exact Hl |]. rewrite Hc.
    destruct c1; try lia. destruct (_ && _); try lia.
    destruct (status_history m1); try lia. destruct (stable_status _); lia. }
  intros Hm. destruct (Step st c m Hm) as (m' & Hl & Hc).
  destruct (Mono st c m Hm) as (m2 & Hl2 & Hle).
  assert (m2 = m') by congruence. subst m2.
  exists m'. split; [exact Hl |]. split; [exact Hle |]. split; [exact Hc |].
  split.
  - intros calls. clear Hl Hc Hl2 Hle Step. revert st m Hm.
    induction calls as [|c1 calls IH]; intros st m Hm.
    + exists m. split; [exact Hm | lia].
    + simpl. destruct (Mono st c1 m Hm) as (m1 & Hl1 & Hle1).
      destruct (IH (step st c1) m1 Hl1) as (m'' & Hl'' & Hle'').
      exists m''. split; [exact Hl'' | lia].
  - intros sid faces now t a -> Hcct Hr Hd.
    destruct (analyze_focus_ok _ _ _ _ _ _ _ Hr) as [-> [h Hh]].
    assert (Hmo : model_of st u = m) by (unfold model_of; rewrite Hm; reflexivity).
    rewrite <- Hmo in Hcct.
    destruct (analyze_focus_tick st u sid now t h Hh)
      as (r & m2 & ev & lg & ss & E & _ & H2 & _ & _ & _ & _ & _ & _ & _ & _ & H10).
    rewrite E in Hr. cbn [fst] in Hr.
    destruct (H10 a Hr) as (_ & Hd' & _ & _ & _ & Hi).
    cbn [step] in Hl. rewrite E in Hl. simpl in Hl. rewrite lookup_insert_eq in Hl.
    inversion Hl; subst m2. clear Hl.
    rewrite Hd in Hd'. rewrite <- Hd' in H2. rewrite Hmo in H2.
    split; [exact H2 |].
    rewrite (Hi Hcct), H2, <- Hmo. split.
    + apply tick_message_break.
    + apply tick_message_escalated. symmetry. exact Hd'.
Qed.

(** ** C6 and C7: the intervention gate *)

Lemma frame_of_shape faces : well_shaped (frame_of faces).
Proof. destruct faces; reflexivity. Qed.

Lemma frames_for_shape u calls : Forall well_shaped (frames_for u calls).
Proof.
  unfold frames_for. induction calls as [|c calls IH]; simpl; [constructor |].
  apply Forall_app. split; [| exact IH].
  destruct c; try constructor.
  destruct (_ && _); repeat constructor. apply frame_of_shape.
Qed.

Lemma counts_partition h :
  Forall well_shaped h -> (count_distracted h + count_faces h = length h)%nat.
Proof.
  unfold count_distracted, count_faces.
  induction 1 as [|f h Hf _ IH]; simpl; [reflexivity |].
  unfold well_shaped in Hf. rewrite Hf.
  destruct (face_present f); simpl; lia.
Qed.

Lemma reachable_history_shape calls u h :
  status_history (model_of (run initial_state calls) u) = Some h ->
  Forall well_shaped h.
Proof.
  intros Hh. pose proof (history_window u calls) as W. unfold model_of in Hh.
  destruct (STUDENT_MODELS (run initial_state calls) !! u) as [m|]; simpl in Hh.
  - rewrite Hh in W. subst h. unfold last_n. apply Forall_drop, frames_for_shape.
  - inversion Hh. constructor.
Qed.

Lemma push_frame_shape h faces :
  Forall well_shaped h -> Forall well_shaped (push_frame h (frame_of faces)).
Proof.
  intros H. unfold push_frame.
  assert (Forall well_shaped (h ++ [frame_of faces])).
  { apply Forall_app. split; [exact H |]. repeat constructor. apply frame_of_shape. }
  destruct (_ <? _)%nat; [apply Forall_drop |]; assumption.
Qed.

(** The answer of the analysis, with the message in closed form, for a
    student model without a ["current_content_time"]. *)
Lemma answered_tick st u sid faces now t h a :
  status_history (model_of st u) = Some h ->
  current_content_time (model_of st u) = None ->
  fst (analyze_focus st u sid faces now t) = Ok a ->
  let h' := push_frame h (frame_of 0) in
  let m' := model_of (snd (analyze_focus st u sid faces now t)) u in
  faces = 0%nat
  /\ distraction_detected a = stable_status h'
  /\ distraction_type a = stable_type h'
  /\ distraction_level a = 0.8%float
  /\ intervention a = tick_message (model_of st u) h' t
  /\ last_intervention_type m' =
       (if stable_status h' && gate_open (model_of st u) h' t
        then stable_type h' else last_intervention_type (model_of st u))
  /\ last_intervention_time m' =
       (if stable_status h' && gate_open (model_of st u) h' t
        then Some t else last_intervention_time (model_of st u)).
Proof.
  intros Hh Hc Ha h' m'. subst m'.
  destruct (analyze_focus_ok _ _ _ _ _ _ _ Ha) as [-> _].
  destruct (analyze_focus_tick st u sid now t h Hh)
    as (r & m2 & ev & lg & ss & E & _ & _ & _ & _ & H5 & H6 & _ & _ & _ & _ & H10).
  rewrite E in *. cbn [fst snd] in *. rewrite model_of_after_tick.
  destruct (H10 a Ha) as (_ & Hd & Hty & Hlv & _ & Hi).
  repeat split; try assumption. apply Hi. exact Hc.
Qed.

(** The tick of a reachable state. *)
Lemma reachable_tick calls u h :
  status_history (model_of (run initial_state calls) u) = Some h ->
  let h' := push_frame h (frame_of 0) in
  current_content_time (model_of (run initial_state calls) u) = None
  /\ plan_ok (model_of (run initial_state calls) u) = true
  /\ (1 <= length h' <= 10)%nat
  /\ Forall well_shaped h'.
Proof.
  intros Hh h'.
  pose proof (model_of_inv _ u (reachable_inv calls)) as (Hp & Hc & _ & _ & Hb).
  rewrite Hh in Hb.
  repeat split; try assumption; try (apply push_frame_length; exact Hb).
  apply push_frame_shape. eapply reachable_history_shape; eassumption.
Qed.

(** A stored model that was not distracted at its last tick has had no
    answered tick: its history, if it has one, is empty and its count is
    0. *)
Lemma reachable_first_frame calls u m :
  STUDENT_MODELS (run initial_state calls) !! u = Some m ->
  default false (last_distraction_status m) = false ->
  distraction_count m = 0 /\ (forall h, status_history m = Some h -> h = []).
Proof.
  revert u m. induction calls as [|c calls IH] using rev_ind; intros u m Hm Hs.
  - simpl in Hm. rewrite lookup_empty in Hm. discriminate.
  - rewrite run_snoc in Hm. set (st := run initial_state calls) in *.
    destruct c as [u0 sid faces now t | sid lg u0 d c | u0]; simpl step in Hm.
    + destruct (decide (u = u0)) as [->|Hne];
        [| rewrite analyze_focus_other in Hm by exact Hne; eapply IH; eassumption].
      destruct faces as [|n];
        [| rewrite analyze_focus_face in Hm by lia; eapply IH; eassumption].
      destruct (status_history (model_of st u0)) as [h|] eqn:Hh;
        [| rewrite analyze_focus_no_history in Hm by exact Hh; eapply IH; eassumption].
      destruct (analyze_focus_tick st u0 sid now t h Hh)
        as (r & m2 & ev & lg & ss & E & _ & _ & _ & H4 & _).
      rewrite E in Hm. simpl in Hm. rewrite lookup_insert_eq in Hm.
      assert (Em : m = m2) by congruence. subst m2.
      destruct (reachable_history_away calls u0 h Hh) as [Hrep Hlen].
      rewrite H4, (away_push_distracted h Hrep Hlen) in Hs. discriminate Hs.
    + cbn [save_focus_session STUDENT_MODELS] in Hm.
      unfold session_model_update in Hm.
      destruct (decide (u = u0)) as [->|Hne];
        [| rewrite lookup_insert_ne in Hm by congruence; eapply IH; eassumption].
      rewrite lookup_insert_eq in Hm.
      match type of Hm with Some ?x = _ => assert (Em : m = x) by congruence end.
      clear Hm.
      assert (Hm0 : forall m0,
                 m0 = default session_student_model (STUDENT_MODELS st !! u0) ->
                 default false (last_distraction_status m0) = false ->
                 distraction_count m0 = 0
                 /\ (forall h, status_history m0 = Some h -> h = [])).
      { intros m0 -> H0. destruct (STUDENT_MODELS st !! u0) as [m1|] eqn:E0; simpl in *.
        - eapply IH; eassumption.
        - split; [reflexivity | intros h Hh; discriminate Hh]. }
      specialize (Hm0 _ eq_refl).
      subst m. destruct c; [destruct (sessions_completed _) |]; apply Hm0; exact Hs.
    + cbn [STUDENT_MODELS] in Hm. unfold get_student_model in Hm.
      destruct (STUDENT_MODELS st !! u0) eqn:E; [eapply IH; eassumption |].
      destruct (decide (u = u0)) as [->|Hne].
      * rewrite lookup_insert_eq in Hm.
        assert (Em : m = session_student_model) by congruence. subst m.
        split; [reflexivity | intros h Hh; discriminate Hh].
      * rewrite lookup_insert_ne in Hm by congruence. eapply IH; eassumption.
Qed.

Lemma reachable_transition calls u h :
  status_history (model_of (run initial_state calls) u) = Some h ->
  default false (last_distraction_status (model_of (run initial_state calls) u))
    = false ->
  h = [] /\ distraction_count (model_of (run initial_state calls) u) = 0.
Proof.
  unfold model_of. intros Hh Hs.
  destruct (STUDENT_MODELS (run initial_state calls) !! u) as [m|] eqn:Hm; simpl in *.
  - destruct (reachable_first_frame calls u m Hm Hs) as [Hc Hn].
    split; [apply Hn; exact Hh | exact Hc].
  - split; [congruence | reflexivity].
Qed.

Lemma truthy_refocus : truthy (Some refocus_message) = true.
Proof. reflexivity. Qed.

(** C6 (amended).  On a tick whose stable status turns from not distracted
    to distracted the gate is open whatever the cooldown timers and the last
    shown type are: the tick re-arms them.  The returned intervention is
    the refocus message exactly when the window holds at least three
    distracted frames; with fewer it is null unless the incremented
    distraction count exceeds 5, and then it is the break suggestion.  The
    first frame of a user, on an empty history, returns no intervention.
    In a run of the service from its initial state this is the only such
    tick: a request with a detected face fails before the update, so the
    status turns to distracted on the first frame of a user, never again
    leaves it, and that tick returns no intervention. *)
Theorem C6_transition_intervention (st : State) (u : string)
    (sid : option string) (faces : nat) (now : datetime) (t : float)
    (h : list FrameState) (a : Analysis) :
  status_history (model_of st u) = Some h ->
  current_content_time (model_of st u) = None ->
  default false (last_distraction_status (model_of st u)) = false ->
  fst (analyze_focus st u sid faces now t) = Ok a ->
  distraction_detected a = true ->
  let h' := push_frame h (frame_of faces) in
  let m' := model_of (snd (analyze_focus st u sid faces now t)) u in
  (last_intervention_time m' = Some t
   /\ last_intervention_type m' = Some "looking_away")
  /\ ((3 <= count_distracted h')%nat <-> intervention a = Some refocus_message)
  /\ ((count_distracted h' < 3)%nat ->
      intervention a =
        if 5 <? distraction_count (model_of st u) + 1
        then Some break_message else None)
  /\ (h = [] -> distraction_count (model_of st u) + 1 <= 5 ->
      intervention a = None)
  /\ (forall calls, st = run initial_state calls ->
      h = [] /\ intervention a = None).
Proof.
  intros Hh Hcct Hlast Hr Hd h' m'. subst h' m'.
  assert (Hrun : forall calls, st = run initial_state calls ->
                 h = [] /\ distraction_count (model_of st u) = 0).
  { intros calls ->. apply reachable_transition; assumption. }
  destruct (answered_tick st u sid faces now t h a Hh Hcct Hr)
    as (-> & Hd' & _ & _ & Hi & Hty & Htm).
  rewrite Hd in Hd'. symmetry in Hd'.
  set (h' := push_frame h (frame_of 0)) in *.
  set (m := model_of st u) in *.
  assert (Hgate : gate_open m h' t = true).
  { unfold gate_open. rewrite Hd', Hlast. reflexivity. }
  assert (Hmsg : intervention a =
                 if (3 <=? count_distracted h')%nat then Some refocus_message
                 else if 5 <? distraction_count m + 1 then Some break_message
                      else None).
  { rewrite Hi. unfold tick_message. rewrite Hd', Hgate.
    rewrite stable_message_count by exact Hd'.
    destruct (3 <=? count_distracted h')%nat.
    - rewrite truthy_refocus, Bool.andb_false_r. reflexivity.
    - simpl. rewrite Bool.andb_true_r. reflexivity. }
  rewrite Hd', Hgate in Hty, Htm. cbn [andb] in Hty, Htm.
  rewrite stable_type_status, Hd' in Hty.
  split; [split; assumption |].
  rewrite Hmsg.
  destruct (Nat.leb_spec 3 (count_distracted h')) as [H3|H3].
  - split; [tauto |]. split; [lia |].
    split; [intros ->; vm_compute in H3; lia |].
    intros calls Hst. destruct (Hrun calls Hst) as [-> _]. vm_compute in H3. lia.
  - split.
    { split; [lia |]. destruct (5 <? _); [intros H; vm_compute in H |]; discriminate. }
    split; [reflexivity |].
    split.
    + intros _ H5. replace (5 <? distraction_count m + 1) with false
        by (symmetry; apply Z.ltb_ge; lia). reflexivity.
    + intros calls Hst. destruct (Hrun calls Hst) as [Hnil Hc].
      split; [exact Hnil |]. fold m in Hc. rewrite Hc. reflexivity.
Qed.

(** C7 (amended).  On a tick that stays distracted with the type of the last
    shown intervention, not more than 8 seconds after it, the cooldown
    suppresses the refocus message: the returned intervention is null as
    long as the incremented distraction count does not exceed 5, and is the
    break suggestion once it does. *)
Theorem C7_cooldown_suppresses (calls : list Call) (u : string)
    (sid : option string) (faces : nat) (now : datetime) (t t0 : float)
    (h : list FrameState) (a : Analysis) :
  status_history (model_of (run initial_state calls) u) = Some h ->
  last_distraction_status (model_of (run initial_state calls) u) = Some true ->
  last_intervention_type (model_of (run initial_state calls) u)
    = Some "looking_away" ->
  last_intervention_time (model_of (run initial_state calls) u) = Some t0 ->
  fgt (PrimFloat.sub t t0) intervention_cooldown = false ->
  fst (analyze_focus (run initial_state calls) u sid faces now t) = Ok a ->
  distraction_detected a = true ->
  distraction_type a = Some "looking_away"
  /\ (distraction_count (model_of (run initial_state calls) u) + 1 <= 5 ->
      intervention a = None)
  /\ (5 < distraction_count (model_of (run initial_state calls) u) + 1 ->
      intervention a = Some break_message).
Proof.
  intros Hh Hls Hlt Hlast Hcool Hr Hd.
  destruct (reachable_tick calls u h Hh) as (Hcct & _ & Hlen & Hshape).
  destruct (answered_tick _ u sid faces now t h a Hh Hcct Hr)
    as (_ & Hd' & Hty & _ & Hi & _).
  rewrite Hd in Hd'. symmetry in Hd'.
  set (h' := push_frame h (frame_of 0)) in *.
  set (m := model_of (run initial_state calls) u) in *.
  assert (Hst : stable_type h' = Some "looking_away")
    by (rewrite stable_type_status, Hd'; reflexivity).
  assert (Hgate : gate_open m h' t = false).
  { unfold gate_open. rewrite Hd', Hst, Hls, Hlt, Hlast. simpl.
    unfold should_show_intervention. simpl. rewrite Hcool. reflexivity. }
  split; [rewrite Hty; exact Hst |].
  rewrite Hi. unfold tick_message. rewrite Hd', Hgate. simpl.
  rewrite Bool.andb_true_r.
  split; intros Hc.
  - replace (5 <? distraction_count m + 1) with false
      by (symmetry; apply Z.ltb_ge; lia). reflexivity.
  - replace (5 <? distraction_count m + 1) with true
      by (symmetry; apply Z.ltb_lt; lia). reflexivity.
Qed.

(** ** C8: ten frames without a face *)







(** ** The statements on sample runs *)

(** The vote on a full window with six faces, and with five. *)
Example six_of_ten :
  stable_state (replicate 6 (frame_of 1) ++ replicate 4 (frame_of 0))
  = (false, None, None)
  /\ stable_state (replicate 5 (frame_of 1) ++ replicate 5 (frame_of 0))
     = (true, Some "looking_away", Some refocus_message).
Proof. vm_compute. split; reflexivity. Qed.

(** Two frames without a face are stored for "dave"; the third request is
    answered with the vote on three such frames. *)
Lemma C1_majority_vote_witness :
  exists a,
    fst (analyze_focus (run initial_state short_streak_calls) "dave" None 0
           1002000000 (seconds 1002)) = Ok a
    /\ distraction_detected a = true
    /\ distraction_type a = Some "looking_away".
Proof.
  destruct (C1_majority_vote (run initial_state short_streak_calls) "dave" None 0
              1002000000 (seconds 1002) (replicate 2 (frame_of 0))
              ltac:(vm_compute; reflexivity) ltac:(vm_compute; lia))
    as [Hex Hall].
  destruct (Hex eq_refl ltac:(vm_compute; reflexivity) eq_refl) as [a Ha].
  exists a. split; [exact Ha |].
  destruct (Hall a Ha) as (h' & _ & Hh' & _ & Hiff & _ & Htrue & _).
  assert (Hd : distraction_detected a = true).
  { destruct (distraction_detected a); [reflexivity |].
    pose proof (proj1 Hiff eq_refl) as Hle. subst h'. vm_compute in Hle. lia. }
  split; [exact Hd | exact (Htrue Hd)].
Defined.

Lemma C2_history_window_witness :
  exists m h,
    STUDENT_MODELS (run initial_state eleven_calls) !! "bob" = Some m
    /\ status_history m = Some h
    /\ h = replicate 10 (frame_of 0)
    /\ length h = 10%nat.
Proof.
  destruct (STUDENT_MODELS (run initial_state eleven_calls) !! "bob")
    as [m|] eqn:Hm; [| vm_compute in Hm; discriminate Hm].
  assert (Hh : status_history m = Some (replicate 10 (frame_of 0))).
  { vm_compute in Hm. inversion Hm. reflexivity. }
  destruct (C2_history_window eleven_calls "bob" m _ Hm Hh) as (Hw & Hlen & _).
  exists m, (replicate 10 (frame_of 0)).
  split; [reflexivity |]. split; [exact Hh |]. split; reflexivity.
Defined.

Lemma ten_events_alice :
  default [] (ten_events !! "alice") = away_event :: replicate 9 quiet_event.
Proof. vm_compute. reflexivity. Qed.

Lemma eleven_events_alice :
  default [] (eleven_events !! "alice") = away_event :: replicate 10 quiet_event.
Proof. vm_compute. reflexivity. Qed.

(** The scenario of the specification (a face, a stable gaze, 40 seconds on
    the content, one interaction) after a distraction ten events back, and
    after a distraction eleven events back. *)
Lemma C3_classifier_priority_witness :
  (exists ev,
      infer_learning_event ten_events "alice" (signals_of scenario_signals) 0
      = Value (ev, <["alice" := default [] (ten_events !! "alice") ++ [ev]]> ten_events)
      /\ event_type ev = Some LearningEventType.RECOVERY
      /\ confidence ev = 0.75%float)
  /\ (exists ev,
        infer_learning_event eleven_events "alice" (signals_of scenario_signals) 0
        = Value (ev, <["alice" := default [] (eleven_events !! "alice") ++ [ev]]>
                       eleven_events)
        /\ event_type ev = Some LearningEventType.SUSTAINED_FOCUS
        /\ confidence ev = 0.85%float).
Proof.
  split.
  - destruct (C3_classifier_priority ten_events "alice" scenario_signals 0)
      as (ev & E & _ & _ & _ & H4 & _).
    { rewrite ten_events_alice.
      repeat (constructor; [unfold typed_event; simpl; tauto |]). constructor. }
    exists ev. split; [exact E |].
    destruct H4 as (_ & Hrec & _);
      [reflexivity | simpl; lia | simpl; intros [H _]; lia
      | reflexivity | reflexivity | simpl; lia |].
    apply Hrec. exists away_event. split; [| right; reflexivity].
    exists 0%nat. rewrite ten_events_alice. split; [reflexivity | simpl; lia].
  - destruct (C3_classifier_priority eleven_events "alice" scenario_signals 0)
      as (ev & E & _ & _ & _ & H4 & _).
    { rewrite eleven_events_alice.
      repeat (constructor; [unfold typed_event; simpl; tauto |]). constructor. }
    exists ev. split; [exact E |].
    destruct H4 as (_ & _ & Hnot);
      [reflexivity | simpl; lia | simpl; intros [H _]; lia
      | reflexivity | reflexivity | simpl; lia |].
    apply Hnot. intros (e & (i & Hi & Hlen) & Hd).
    rewrite eleven_events_alice in Hi, Hlen.
    destruct i as [|i]; [simpl in Hlen; lia |].
    cbn [lookup list_lookup] in Hi. apply lookup_replicate in Hi as [-> _].
    destruct Hd as [Hd|Hd]; discriminate Hd.
Defined.

(** Every key absent. *)
Lemma C9_classifier_defaults_witness :
  exists ev,
    infer_learning_event ∅ "alice" (mkSignals None None None None None None) 0
    = Value (ev, <["alice" := default [] ((∅ : gmap string (list LearningEvent))
                                           !! "alice") ++ [ev]]> ∅)
    /\ event_type ev = Some LearningEventType.SHALLOW_ENGAGEMENT.
Proof.
  destruct (C9_classifier_defaults ∅ "alice"
              (mkSignals None None None None None None) 0 eq_refl eq_refl)
    as (ev & ev' & E & _ & _ & _ & _ & _ & _ & _ & Hall).
  exists ev. split; [exact E |]. apply (Hall eq_refl).
Defined.

(** C9: null under ["time_on_content"] , or a text under
    ["distraction_level"] when no face is present, makes the comparison
    raise; nothing is stored. *)
Lemma C9_null_counterexample :
  infer_learning_event ∅ "alice" null_time_signals 0 = Throw TypeError
  /\ infer_learning_event ∅ "alice" text_level_signals 0 = Throw TypeError.
Proof. split; reflexivity. Qed.

(** C4: a first call that matches no rule stamps nothing, so a second call
    one second later adapts the plan. *)
Lemma C4_twice_counterexample :
  1000000 - 0 < 120 * 1000000
  /\ adapt_plan 0 ∅ ∅ "erin" sample_plan no_trigger = (Returned, sample_plan, ∅)
  /\ recommended_duration_minutes
       (snd (fst (adapt_plan 1000000 ∅ ∅ "erin" sample_plan phone_trigger)))
     = Some 20
  /\ recommended_duration_minutes sample_plan = Some 25
  /\ (exists a,
       adaptations (snd (fst (adapt_plan 1000000 ∅ ∅ "erin" sample_plan phone_trigger)))
       = Some [a])
  /\ adapt_plan (60 * 1000000) ∅ ∅ "erin" offset_plan phone_trigger
     = (Raised TypeError, offset_plan, ∅).
Proof.
  split; [lia |]. split; [reflexivity |]. split; [reflexivity |].
  split; [reflexivity |]. split; [eexists; reflexivity | reflexivity].
Qed.

Lemma C4_cooldown_noop_witness :
  adapt_plan (60 * 1000000) ∅ ∅ "erin" adapted_plan phone_trigger
  = (Returned, adapted_plan, ∅)
  /\ adapt_plan (119 * 1000000) ∅
       (snd (adapt_plan 0 ∅ ∅ "erin" sample_plan phone_trigger)) "erin"
       (snd (fst (adapt_plan 0 ∅ ∅ "erin" sample_plan phone_trigger)))
       away_trigger
     = (Returned,
        snd (fst (adapt_plan 0 ∅ ∅ "erin" sample_plan phone_trigger)),
        snd (adapt_plan 0 ∅ ∅ "erin" sample_plan phone_trigger))
  /\ adapt_plan 0 ∅ ∅ "erin" sample_plan no_trigger = (Returned, sample_plan, ∅)
  /\ recommended_duration_minutes
       (snd (fst (adapt_plan 1000000 ∅ ∅ "erin" sample_plan phone_trigger)))
     = Some 20
  /\ (exists e, adapt_plan (60 * 1000000) ∅ ∅ "erin" offset_plan phone_trigger
                = (Raised e, offset_plan, ∅)).
Proof.
  assert (Hno : matches_no_rule (lookup_distraction_count ∅ "erin") no_trigger).
  { repeat split; try discriminate. intros [H _]. discriminate H. }
  split; [| split; [| split; [| split]]].
  - eapply (proj1 (proj1 C4_cooldown_noop (60 * 1000000) ∅ ∅ "erin" adapted_plan
                     phone_trigger _ _ eq_refl eq_refl));
      [reflexivity | lia].
  - eapply (proj1 (proj2 C4_cooldown_noop) 0 (119 * 1000000) ∅ ∅ ∅ "erin" sample_plan
              phone_trigger away_trigger);
      [reflexivity | reflexivity | reflexivity | lia].
  - exact (proj1 (proj2 (proj2 (proj2 (proj2 C4_cooldown_noop) 0 1000000 ∅ ∅ ∅ "erin"
                                   sample_plan no_trigger phone_trigger [] Hno)))
             eq_refl).
  - destruct (proj2 (proj2 (proj2 (proj2 (proj2 C4_cooldown_noop) 0 1000000 ∅ ∅ ∅
                                     "erin" sample_plan no_trigger phone_trigger []
                                     Hno)))
                eq_refl eq_refl eq_refl)
      as (a & _ & _ & Hd).
    exact Hd.
  - exact (proj2 (proj2 (proj1 C4_cooldown_noop (60 * 1000000) ∅ ∅ "erin" offset_plan
                           phone_trigger _ _ eq_refl eq_refl))
             eq_refl).
Defined.

Lemma C5_duration_bounds_witness :
  recommended_duration_minutes
    (snd (fst (adapt_plan 0 ∅ ∅ "erin" sample_plan phone_trigger))) = Some 20
  /\ recommended_duration_minutes
       (snd (fst (adapt_plan 0 ∅ ∅ "erin" sample_plan focus_trigger))) = Some 30
  /\ snd (fst (adapt_plan 1 ∅ ∅ "erin" adapted_plan focus_trigger)) = adapted_plan.
Proof.
  split; [| split].
  - apply (proj1 (proj2 (C5_duration_bounds 0 ∅ ∅ "erin" sample_plan phone_trigger)));
      reflexivity.
  - apply (proj2 (proj2 (proj2
             (C5_duration_bounds 0 ∅ ∅ "erin" sample_plan focus_trigger))));
      [reflexivity | reflexivity | discriminate | intros [H _]; discriminate H].
  - apply (proj1 (C5_duration_bounds 1 ∅ ∅ "erin" adapted_plan focus_trigger)).
    reflexivity.
Defined.

(** The scenario of the specification: phone use on a 25 minute plan. *)
Example phone_use_scenario :
  let p := snd (fst (adapt_plan 0 ∅ ∅ "erin" sample_plan phone_trigger)) in
  recommended_duration_minutes p = Some 20
  /\ break_interval_minutes p = Some 15
  /\ map adapt_type (default [] (adaptations p)) = ["reduce_focus_time"].
Proof. vm_compute. repeat split; reflexivity. Qed.

(** C6: the first request of a new user, without a face, turns the stable
    status from not distracted to distracted and returns no intervention. *)
Lemma C6_transition_counterexample :
  STUDENT_MODELS initial_state !! "carol" = None
  /\ default false (last_distraction_status (model_of initial_state "carol")) = false
  /\ response_distraction_detected
       (fst (analyze_focus initial_state "carol" None 0 1000000000 (seconds 1000)))
     = true
  /\ response_intervention
       (fst (analyze_focus initial_state "carol" None 0 1000000000 (seconds 1000)))
     = None.
Proof. vm_compute. repeat split; reflexivity. Qed.

Lemma C6_transition_intervention_witness :
  exists a,
    fst (analyze_focus initial_state "carol" None 0 1000000000 (seconds 1000)) = Ok a
    /\ intervention a = None
    /\ last_intervention_time
         (model_of (snd (analyze_focus initial_state "carol" None 0 1000000000
                           (seconds 1000))) "carol")
       = Some (seconds 1000).
Proof.
  assert (Hr : exists a,
             fst (analyze_focus initial_state "carol" None 0 1000000000
                    (seconds 1000)) = Ok a
             /\ distraction_detected a = true).
  { vm_compute. eexists. split; reflexivity. }
  destruct Hr as (a & Hr & Hd). exists a. split; [exact Hr |].
  destruct (C6_transition_intervention initial_state "carol" None 0
              1000000000 (seconds 1000) [] a
              ltac:(vm_compute; reflexivity) ltac:(vm_compute; reflexivity)
              ltac:(vm_compute; reflexivity) Hr Hd)
    as ((Htime & _) & _ & _ & _ & Hrun).
  split; [| exact Htime].
  exact (proj2 (Hrun [] eq_refl)).
Defined.

(** C7: the fifth tick shows the refocus message; the sixth, one second
    later and with the same type, returns the break suggestion. *)
Lemma C7_cooldown_counterexample :
  response_intervention
    (fst (analyze_focus (run initial_state (map (tick_at "dave" 0)
                                              [1000; 1001; 1002; 1003]))
            "dave" None 0 1010000000 (seconds 1010))) = Some refocus_message
  /\ last_intervention_time (model_of (run initial_state long_streak_calls) "dave")
     = Some (seconds 1010)
  /\ last_intervention_type (model_of (run initial_state long_streak_calls) "dave")
     = Some "looking_away"
  /\ fgt (PrimFloat.sub (seconds 1011) (seconds 1010)) intervention_cooldown = false
  /\ response_distraction_type
       (fst (analyze_focus (run initial_state long_streak_calls) "dave" None 0
               1011000000 (seconds 1011))) = Some "looking_away"
  /\ response_intervention
       (fst (analyze_focus (run initial_state long_streak_calls) "dave" None 0
               1011000000 (seconds 1011))) = Some break_message.
Proof. vm_compute. repeat split; reflexivity. Qed.

Lemma C7_cooldown_suppresses_witness :
  exists a,
    fst (analyze_focus (run initial_state short_streak_calls) "dave" None 0
           1002000000 (seconds 1002)) = Ok a
    /\ distraction_type a = Some "looking_away"
    /\ intervention a = None.
Proof.
  assert (Hr : exists a,
             fst (analyze_focus (run initial_state short_streak_calls) "dave" None 0
                    1002000000 (seconds 1002)) = Ok a
             /\ distraction_detected a = true).
  { vm_compute. eexists. split; reflexivity. }
  destruct Hr as (a & Hr & Hd). exists a. split; [exact Hr |].
  destruct (C7_cooldown_suppresses short_streak_calls "dave" None 0
              1002000000 (seconds 1002) (seconds 1000)
              (replicate 2 (frame_of 0)) a
              ltac:(vm_compute; reflexivity) ltac:(vm_compute; reflexivity)
              ltac:(vm_compute; reflexivity) ltac:(vm_compute; reflexivity)
              ltac:(vm_compute; reflexivity) Hr Hd) as (Hty & Hnull & _).
  split; [exact Hty |]. apply Hnull. vm_compute. discriminate.
Defined.




Lemma C10_distraction_count_witness :
  exists m m',
    STUDENT_MODELS (run initial_state short_streak_calls) !! "dave" = Some m
    /\ STUDENT_MODELS (step (run initial_state short_streak_calls)
                         (tick_at "dave" 0 1002)) !! "dave" = Some m'
    /\ distraction_count m = 2
    /\ distraction_count m' = 3.
Proof.
  destruct (STUDENT_MODELS (run initial_state short_streak_calls) !! "dave")
    as [m|] eqn:Hm; [| vm_compute in Hm; discriminate Hm].
  destruct (C10_distraction_count (run initial_state short_streak_calls)
              (tick_at "dave" 0 1002) "dave" m Hm) as (m' & Hl & _ & Hc & _).
  exists m, m'. split; [reflexivity |]. split; [exact Hl |].
  assert (Hm2 : distraction_count m = 2 /\
                status_history m = Some (replicate 2 (frame_of 0))).
  { vm_compute in Hm. inversion Hm. split; reflexivity. }
  destruct Hm2 as [Hm2 Hh]. split; [exact Hm2 |].
  rewrite Hc, Hm2. simpl. rewrite Hh. vm_compute. reflexivity.
Defined.

(** * Further properties of the loop *)

(** ** Stores that only grow *)

Lemma grows_at_refl {A} u (m : gmap string (list A)) : grows_at u m m.
Proof. split; [reflexivity | exists []; rewrite app_nil_r; reflexivity]. Qed.

Lemma grows_at_trans {A} u (m1 m2 m3 : gmap string (list A)) :
  grows_at u m1 m2 -> grows_at u m2 m3 -> grows_at u m1 m3.
Proof.
  intros [H1 [a1 E1]] [H2 [a2 E2]]. split.
  - intros u' Hne. rewrite H2, H1 by assumption. reflexivity.
  - exists (a1 ++ a2). rewrite E2, E1, app_assoc. reflexivity.
Qed.

Lemma grows_at_insert {A} u (m : gmap string (list A)) added :
  grows_at u m (<[u := default [] (m !! u) ++ added]> m).
Proof.
  split.
  - intros u' Hne. apply lookup_insert_ne. congruence.
  - exists added. rewrite lookup_insert_eq. reflexivity.
Qed.

Lemma log_decision_grows now logs u act ev :
  grows_at u logs (snd (log_decision now logs u act ev)).
Proof. unfold log_decision. simpl. apply grows_at_insert. Qed.

Lemma generate_focus_plan_grows now models logs u g :
  grows_at u logs (snd (generate_focus_plan now models logs u g)).
Proof. unfold generate_focus_plan. simpl. apply grows_at_insert. Qed.

Lemma adapt_plan_grows now models logs u p tr :
  grows_at u logs (snd (adapt_plan now models logs u p tr)).
Proof.
  unfold adapt_plan.
  destruct (cooldown_active _ _) as [[|]|e];
    [apply grows_at_refl | | apply grows_at_refl].
  destruct (select_adaptation _ _ _ _) as [[a|] q]; [| apply grows_at_refl].
  destruct (adaptations q); [| apply grows_at_refl].
  simpl. apply grows_at_insert.
Qed.

Lemma logged_distraction_grows now t models logs u m sig ev ty :
  grows_at u logs (snd (logged_distraction now t models logs u m sig ev ty)).
Proof.
  unfold logged_distraction. simpl.
  destruct (current_focus_plan m) as [p|]; simpl.
  - match goal with |- context [adapt_plan ?a ?b ?c ?d ?e ?f] =>
      pose proof (adapt_plan_grows a b c d e f) as H;
      destruct (adapt_plan a b c d e f) as [[res q] l'] end.
    simpl in *. eapply grows_at_trans; [| exact H]. apply grows_at_insert.
  - match goal with |- context [adapt_plan ?a ?b ?c ?d ?e ?f] =>
      pose proof (adapt_plan_grows a b c d e f) as H;
      destruct (adapt_plan a b c d e f) as [[res q] l'] end.
    simpl in *. eapply grows_at_trans; [| exact H].
    eapply grows_at_trans; apply grows_at_insert.
Qed.

Lemma logged_distraction_first now t models logs u m sig ev ty :
  exists rest,
    default [] (snd (logged_distraction now t models logs u m sig ev ty) !! u)
    = default [] (logs !! u)
      ++ {| dec_timestamp := now; action := "detect_distraction";
            triggering_evidence := EvSignals sig; dec_user_id := u |} :: rest.
Proof.
  unfold logged_distraction. simpl.
  destruct (current_focus_plan m) as [p|]; simpl;
    match goal with |- context [adapt_plan ?a ?b ?c ?d ?e ?f] =>
      pose proof (adapt_plan_grows a b c d e f) as [_ [added H]];
      destruct (adapt_plan a b c d e f) as [[res q] l'] end;
    simpl in *; rewrite H; rewrite !lookup_insert_eq; simpl.
  - exists added. rewrite <- app_assoc. reflexivity.
  - eexists. rewrite <- !app_assoc. simpl. reflexivity.
Qed.

(** What the update does to the stores of events and decisions, and the
    fields of its response that are read off them. *)
Lemma update_stores st u faces now t h :
  status_history (model_of st u) = Some h ->
  let m := model_of st u in
  let h' := push_frame h (frame_of faces) in
  let sig := tick_signals m h' faces in
  let st' := snd (update_student_model st u faces now t) in
  exists ev,
    infer_learning_event (LEARNING_EVENTS st) u sig now
    = Value (ev, LEARNING_EVENTS st')
    /\ LEARNING_EVENTS st'
       = <[u := default [] (LEARNING_EVENTS st !! u) ++ [ev]]> (LEARNING_EVENTS st)
    /\ ev_timestamp ev = now
    /\ evidence ev = sig
    /\ (current_content_time m = None ->
        event_type ev =
          (if (0 <? faces)%nat then None
           else Some LearningEventType.DISTRACTION_ENVIRONMENT))
    /\ grows_at u (DECISION_LOGS st) (DECISION_LOGS st')
    /\ (tick_logged m h' t = false ->
        DECISION_LOGS st' = DECISION_LOGS st
        /\ current_focus_plan (model_of st' u) = current_focus_plan m
        /\ last_log_time (model_of st' u) = last_log_time m)
    /\ (tick_logged m h' t = true ->
        last_log_time (model_of st' u) = Some t
        /\ is_Some (current_focus_plan (model_of st' u))
        /\ exists rest,
             default [] (DECISION_LOGS st' !! u)
             = default [] (DECISION_LOGS st !! u)
               ++ {| dec_timestamp := now; action := "detect_distraction";
                     triggering_evidence := EvSignals sig; dec_user_id := u |}
                  :: rest)
    /\ (forall a, fst (update_student_model st u faces now t) = Ok a ->
        learning_event a = ev
        /\ resp_should_intervene a = should_intervene ev
        /\ teaching_ready a = fst (should_teach (LEARNING_EVENTS st') u)
        /\ faces_detected a = faces
        /\ focus_plan a = current_focus_plan (model_of st' u)
        /\ plan_adapted a =
             match current_focus_plan (model_of st' u) with
             | Some p => (0 <? length (default [] (adaptations p)))%nat
             | None => false
             end).
Proof.
  intros Hh m h' sig st'. subst st' sig.
  unfold update_student_model, tick_logged, tick_signals, stable_status.
  fold (model_of st u). rewrite Hh.
  fold (frame_of faces). fold h'. fold m.
  destruct (stable_state h') as [[fs ft] iv] eqn:Hs. cbn [fst snd].
  match goal with
  | |- context [infer_learning_event ?a ?b
                  {| sig_face_present := Some (PBool ?f); sig_eyes_open := None;
                     sig_gaze_stable := Some (PBool ?g);
                     sig_distraction_level := Some (PFloat ?l);
                     sig_time_on_content := Some (PInt ?c);
                     sig_interaction_count := Some (PInt ?k) |} ?d] =>
      destruct (infer_tick a b f g l c k d) as (ev & Einf & Hev & Hts & Hit);
      rewrite Einf
  end.
  exists ev.
  assert (Hty : current_content_time m = None ->
                event_type ev =
                  (if (0 <? faces)%nat then None
                   else Some LearningEventType.DISTRACTION_ENVIRONMENT)).
  { intros Hc. apply Hit. rewrite Hc. reflexivity. }
  clear Hit Einf.
  set (show := should_show_intervention fs ft _ _ _ _).
  destruct fs; [destruct show | subst show; cbn [should_show_intervention]];
    simpl andb; cbv iota;
    try destruct (should_log _ _ _ _);
    try match goal with |- context [logged_distraction ?a ?b ?c ?d ?e ?f ?g ?i ?j] =>
          pose proof (logged_distraction_grows a b c d e f g i j) as Hg;
          pose proof (logged_distraction_first a b c d e f g i j) as Hf;
          destruct (logged_distraction_model a b c d e f g i j)
            as (res & p' & logs' & E & Hok); rewrite E in *;
          destruct res as [|exn] end;
    cbn [fst snd LEARNING_EVENTS DECISION_LOGS]; rewrite ?model_of_after_tick;
    cbn [current_focus_plan last_log_time with_plan with_log_time with_counters
         with_tick];
    (split; [reflexivity |]); (split; [reflexivity |]);
    (split; [exact Hts |]); (split; [exact Hev |]); (split; [exact Hty |]);
    (split; [first [apply grows_at_refl | exact Hg] |]);
    (split; [intros Hl; first [discriminate Hl | repeat split; reflexivity] |]);
    (split; [intros Hl; first [discriminate Hl
                              | split; [reflexivity |]; split; [eauto | exact Hf]] |]);
    intros a Ha; first [discriminate Ha | inversion Ha; subst a; simpl;
                        repeat split; reflexivity].
Qed.

Lemma model_of_with_sessions st ss u :
  model_of (with_focus_sessions st ss) u = model_of st u.
Proof. reflexivity. Qed.

(** The same for a request without a face. *)
Lemma analyze_focus_stores st u sid now t h :
  status_history (model_of st u) = Some h ->
  let m := model_of st u in
  let h' := push_frame h (frame_of 0) in
  let sig := tick_signals m h' 0 in
  let st' := snd (analyze_focus st u sid 0 now t) in
  exists ev,
    infer_learning_event (LEARNING_EVENTS st) u sig now
    = Value (ev, LEARNING_EVENTS st')
    /\ LEARNING_EVENTS st'
       = <[u := default [] (LEARNING_EVENTS st !! u) ++ [ev]]> (LEARNING_EVENTS st)
    /\ ev_timestamp ev = now
    /\ evidence ev = sig
    /\ (current_content_time m = None ->
        event_type ev = Some LearningEventType.DISTRACTION_ENVIRONMENT)
    /\ grows_at u (DECISION_LOGS st) (DECISION_LOGS st')
    /\ (tick_logged m h' t = false ->
        DECISION_LOGS st' = DECISION_LOGS st
        /\ current_focus_plan (model_of st' u) = current_focus_plan m
        /\ last_log_time (model_of st' u) = last_log_time m)
    /\ (tick_logged m h' t = true ->
        last_log_time (model_of st' u) = Some t
        /\ is_Some (current_focus_plan (model_of st' u))
        /\ exists rest,
             default [] (DECISION_LOGS st' !! u)
             = default [] (DECISION_LOGS st !! u)
               ++ {| dec_timestamp := now; action := "detect_distraction";
                     triggering_evidence := EvSignals sig; dec_user_id := u |}
                  :: rest)
    /\ (forall a, fst (analyze_focus st u sid 0 now t) = Ok a ->
        learning_event a = ev
        /\ resp_should_intervene a = should_intervene ev
        /\ teaching_ready a = fst (should_teach (LEARNING_EVENTS st') u)
        /\ faces_detected a = 0%nat
        /\ focus_plan a = current_focus_plan (model_of st' u)
        /\ plan_adapted a =
             match current_focus_plan (model_of st' u) with
             | Some p => (0 <? length (default [] (adaptations p)))%nat
             | None => false
             end).
Proof.
  intros Hh m h' sig st'. subst st'.
  destruct (update_stores st u 0 now t h Hh)
    as (ev & H1 & H2 & H3 & H4 & H5 & H6 & H7 & H8 & H9).
  destruct (analyze_focus_away st u sid now t) as (ss & E & _).
  rewrite E. cbn [fst snd]. rewrite model_of_with_sessions.
  cbn [with_focus_sessions LEARNING_EVENTS DECISION_LOGS].
  exists ev. do 8 (split; [assumption |]).
  intros a Ha. apply H9.
  destruct (fst (update_student_model st u 0 now t)) as [a'|e]; [| discriminate Ha].
  destruct (session_loggable _ _); [exact Ha | discriminate Ha].
Qed.

(** ** Isolation of users, and what a tick appends *)

(** X1.  A tick for one user leaves the student model, the learning events
    and the decision log of every other user as they are. *)
Theorem X1_tick_isolation (st : State) (u u' : string) (sid : option string)
    (faces : nat) (now : datetime) (t : float) :
  u' <> u ->
  STUDENT_MODELS (snd (analyze_focus st u sid faces now t)) !! u'
    = STUDENT_MODELS st !! u'
  /\ LEARNING_EVENTS (snd (analyze_focus st u sid faces now t)) !! u'
     = LEARNING_EVENTS st !! u'
  /\ DECISION_LOGS (snd (analyze_focus st u sid faces now t)) !! u'
     = DECISION_LOGS st !! u'.
Proof.
  intros Hne. split; [apply analyze_focus_other; exact Hne |].
  destruct faces as [|n];
    [| rewrite analyze_focus_face by lia; split; reflexivity].
  destruct (status_history (model_of st u)) as [h|] eqn:Hh.
  - destruct (analyze_focus_stores st u sid now t h Hh)
      as (ev & _ & He & _ & _ & _ & [Hl _] & _).
    split.
    + rewrite He. apply lookup_insert_ne. congruence.
    + apply Hl. exact Hne.
  - rewrite analyze_focus_no_history by exact Hh. split; reflexivity.
Qed.

Lemma X1_tick_isolation_witness :
  STUDENT_MODELS (snd (analyze_focus alice_state "bob" None 0 0 (seconds 1001)))
    !! "alice"
  = STUDENT_MODELS alice_state !! "alice"
  /\ LEARNING_EVENTS (snd (analyze_focus alice_state "bob" None 0 0 (seconds 1001)))
       !! "alice"
     = LEARNING_EVENTS alice_state !! "alice"
  /\ DECISION_LOGS (snd (analyze_focus alice_state "bob" None 0 0 (seconds 1001)))
       !! "alice"
     = DECISION_LOGS alice_state !! "alice".
Proof.
  apply (X1_tick_isolation alice_state "bob" "alice" None 0 0 (seconds 1001)).
  discriminate.
Defined.

Lemma step_logs_grow st c u :
  (exists ds, default [] (DECISION_LOGS (step st c) !! u)
              = default [] (DECISION_LOGS st !! u) ++ ds)
  /\ (exists es, default [] (LEARNING_EVENTS (step st c) !! u)
                 = default [] (LEARNING_EVENTS st !! u) ++ es).
Proof.
  assert (Same : forall A (l : list A), exists x, l = l ++ x)
    by (intros; exists []; rewrite app_nil_r; reflexivity).
  destruct c as [u0 sid faces now t | sid lg u0 d c | u0]; cbn [step];
    [| split; apply Same | split; apply Same].
  destruct faces as [|n];
    [| rewrite analyze_focus_face by lia; split; apply Same].
  destruct (status_history (model_of st u0)) as [h|] eqn:Hh;
    [| rewrite analyze_focus_no_history by exact Hh; split; apply Same].
  destruct (analyze_focus_stores st u0 sid now t h Hh)
    as (ev & _ & He & _ & _ & _ & [Hl Hd] & _).
  destruct (decide (u = u0)) as [->|Hne].
  - split; [exact Hd |]. rewrite He.
    rewrite lookup_insert_eq. simpl. eauto.
  - split.
    + rewrite Hl by exact Hne. apply Same.
    + rewrite He. rewrite lookup_insert_ne by congruence. apply Same.
Qed.

(** X2.  Over any sequence of requests, from any state, the decision log and
    the learning events of every user only grow at the end: what was stored
    stays, in order, as a prefix of what is stored afterwards. *)
Theorem X2_logs_append_only (st : State) (calls : list Call) (u : string) :
  (exists ds, default [] (DECISION_LOGS (run st calls) !! u)
              = default [] (DECISION_LOGS st !! u) ++ ds)
  /\ (exists es, default [] (LEARNING_EVENTS (run st calls) !! u)
                 = default [] (LEARNING_EVENTS st !! u) ++ es).
Proof.
  revert st. induction calls as [|c calls IH]; intros st; simpl.
  - split; exists []; rewrite app_nil_r; reflexivity.
  - destruct (IH (step st c)) as [[ds Hd] [es He]].
    destruct (step_logs_grow st c u) as [[ds0 Hd0] [es0 He0]].
    split.
    + exists (ds0 ++ ds). rewrite Hd, Hd0, app_assoc. reflexivity.
    + exists (es0 ++ es). rewrite He, He0, app_assoc. reflexivity.
Qed.

(** X3.  A request that is answered by the analysis stores exactly one
    learning event for its user, the one it returns; the evidence of that
    event is the signals of the tick, whose distraction level is
    [1.0 - face_ratio]. *)
Theorem X3_tick_event_stored (st : State) (u : string) (sid : option string)
    (faces : nat) (now : datetime) (t : float) (h : list FrameState)
    (a : Analysis) :
  status_history (model_of st u) = Some h ->
  fst (analyze_focus st u sid faces now t) = Ok a ->
  LEARNING_EVENTS (snd (analyze_focus st u sid faces now t)) !! u
    = Some (default [] (LEARNING_EVENTS st !! u) ++ [learning_event a])
  /\ ev_timestamp (learning_event a) = now
  /\ evidence (learning_event a)
     = tick_signals (model_of st u) (push_frame h (frame_of faces)) faces
  /\ resp_should_intervene a = should_intervene (learning_event a).
Proof.
  intros Hh Ha. destruct (analyze_focus_ok _ _ _ _ _ _ _ Ha) as [-> _].
  destruct (analyze_focus_stores st u sid now t h Hh)
    as (ev & _ & He & Hts & Hev & _ & _ & _ & _ & Hr).
  destruct (Hr a Ha) as (Hle & Hsi & _).
  rewrite He, Hsi, Hle. split; [| split; [| split]].
  - apply lookup_insert_eq.
  - exact Hts.
  - exact Hev.
  - reflexivity.
Qed.

Lemma X3_tick_event_stored_witness :
  exists a,
    fst (analyze_focus alice_state "alice" None 0 1001000000 (seconds 1001)) = Ok a
    /\ length (default [] (LEARNING_EVENTS
                 (snd (analyze_focus alice_state "alice" None 0 1001000000
                         (seconds 1001)))
                 !! "alice")) = 2%nat
    /\ ev_timestamp (learning_event a) = 1001000000.
Proof.
  assert (Hr : exists a,
             fst (analyze_focus alice_state "alice" None 0 1001000000
                    (seconds 1001)) = Ok a).
  { vm_compute. eexists. reflexivity. }
  destruct Hr as (a & Hr). exists a. split; [exact Hr |].
  destruct (X3_tick_event_stored alice_state "alice" None 0 1001000000 (seconds 1001)
              [frame_of 0] a ltac:(vm_compute; reflexivity) Hr) as (Hs & Hts & _).
  split; [| exact Hts].
  rewrite Hs. simpl. rewrite length_app. vm_compute. reflexivity.
Defined.

(** X4.  A request with a detected face writes nothing.  A request without
    one writes the decision log only when the stable status is distracted
    and either it was not distracted at the previous tick or more than 20
    seconds have passed since the last logged distraction.  Such a tick
    appends a "detect_distraction" decision carrying its signals and leaves
    a focus plan in the student model; any other tick leaves the decision
    log, the plan and the log time as they are. *)
Theorem X4_logging_gate (st : State) (u : string) (sid : option string)
    (now : datetime) (t : float) (h : list FrameState) :
  status_history (model_of st u) = Some h ->
  let m := model_of st u in
  let h' := push_frame h (frame_of 0) in
  let st' := snd (analyze_focus st u sid 0 now t) in
  let quiet :=
    DECISION_LOGS st' = DECISION_LOGS st
    /\ current_focus_plan (model_of st' u) = current_focus_plan m
    /\ last_log_time (model_of st' u) = last_log_time m in
  (forall faces, (0 < faces)%nat -> snd (analyze_focus st u sid faces now t) = st)
  /\ (stable_status h' = false -> quiet)
  /\ (stable_status h' = true ->
      default false (last_distraction_status m) = true ->
      fgt (PrimFloat.sub t (default 0.0%float (last_log_time m))) 20%float = false ->
      quiet)
  /\ (stable_status h' = true ->
      default false (last_distraction_status m) = false
      \/ fgt (PrimFloat.sub t (default 0.0%float (last_log_time m))) 20%float = true ->
      last_log_time (model_of st' u) = Some t
      /\ is_Some (current_focus_plan (model_of st' u))
      /\ exists rest,
           default [] (DECISION_LOGS st' !! u)
           = default [] (DECISION_LOGS st !! u)
             ++ {| dec_timestamp := now; action := "detect_distraction";
                   triggering_evidence := EvSignals (tick_signals m h' 0);
                   dec_user_id := u |} :: rest).
Proof.
  intros Hh m h' st' quiet. subst quiet st'.
  destruct (analyze_focus_stores st u sid now t h Hh)
    as (ev & _ & _ & _ & _ & _ & _ & Hq & Hl & _).
  fold m h' in Hq, Hl. unfold tick_logged, should_log in Hq, Hl.
  split; [| split; [| split]].
  - intros faces Hf. rewrite analyze_focus_face by exact Hf. reflexivity.
  - intros Hs. apply Hq. rewrite Hs. reflexivity.
  - intros Hs Hlast Hcool. apply Hq. rewrite Hs, Hlast, Hcool. reflexivity.
  - intros Hs Hc. apply Hl. rewrite Hs.
    destruct Hc as [Hc|Hc]; rewrite Hc; simpl; [reflexivity |].
    destruct (default false (last_distraction_status m)); reflexivity.
Qed.

Lemma X4_logging_gate_witness :
  DECISION_LOGS (snd (analyze_focus alice_state "alice" None 0 1001000000
                        (seconds 1001)))
  = DECISION_LOGS alice_state
  /\ exists rest,
       default [] (DECISION_LOGS
                     (snd (analyze_focus alice_state "alice" None 0 1030000000
                             (seconds 1030)))
                     !! "alice")
       = default [] (DECISION_LOGS alice_state !! "alice")
         ++ {| dec_timestamp := 1030000000; action := "detect_distraction";
               triggering_evidence :=
                 EvSignals (tick_signals (model_of alice_state "alice")
                              (push_frame [frame_of 0] (frame_of 0)) 0);
               dec_user_id := "alice" |} :: rest.
Proof.
  split.
  - apply (proj1 (proj2 (proj2 (X4_logging_gate alice_state "alice" None 1001000000
                           (seconds 1001) [frame_of 0]
                           ltac:(vm_compute; reflexivity)))));
      vm_compute; reflexivity.
  - apply (proj2 (proj2 (proj2 (X4_logging_gate alice_state "alice" None 1030000000
                           (seconds 1030) [frame_of 0]
                           ltac:(vm_compute; reflexivity))))).
    + vm_compute. reflexivity.
    + right. vm_compute. reflexivity.
Defined.

(** ** A student model without a history *)

Lemma no_history_step st c u m :
  STUDENT_MODELS st !! u = Some m -> status_history m = None ->
  exists m', STUDENT_MODELS (step st c) !! u = Some m'
             /\ status_history m' = None.
Proof.
  intros Hm Hh.
  destruct c as [u0 sid faces now t | sid lg u0 d c | u0]; simpl step.
  - destruct (decide (u = u0)) as [<-|Hne].
    + rewrite analyze_focus_no_history
        by (unfold model_of; rewrite Hm; exact Hh).
      eauto.
    + rewrite analyze_focus_other by exact Hne. eauto.
  - cbn [save_focus_session STUDENT_MODELS]. unfold session_model_update.
    destruct (decide (u = u0)) as [<-|Hne].
    + rewrite lookup_insert_eq, Hm. simpl. eexists. split; [reflexivity |].
      destruct c; [destruct (sessions_completed m) |]; exact Hh.
    + rewrite lookup_insert_ne by congruence. eauto.
  - cbn [STUDENT_MODELS]. unfold get_student_model.
    destruct (decide (u = u0)) as [<-|Hne].
    + rewrite Hm. eauto.
    + destruct (STUDENT_MODELS st !! u0);
        [| rewrite lookup_insert_ne by congruence]; eauto.
Qed.

(** X5.  A student model stored without a ["status_history"] key, as
    [save_focus_session] and [get_student_model] store it for an unknown
    user, never gets one: whatever requests follow, every analysis of that
    user ends in the fallback response and changes nothing.  The exception
    behind the fallback is the [KeyError] of the missing key for a request
    without a face, and the [NameError] of the drawing loop for a request
    with one. *)
Theorem X5_no_history_is_permanent (st : State) (u : string) (m : StudentModel)
    (calls : list Call) (sid : option string) (faces : nat) (now : datetime)
    (t : float) :
  STUDENT_MODELS st !! u = Some m ->
  status_history m = None ->
  analyze_focus (run st calls) u sid faces now t
  = (Fallback (if (0 <? faces)%nat then NameError else KeyError "status_history"),
     run st calls).
Proof.
  revert st m. induction calls as [|c calls IH]; intros st m Hm Hh; simpl.
  - apply analyze_focus_no_history. unfold model_of. rewrite Hm. exact Hh.
  - destruct (no_history_step st c u m Hm Hh) as (m' & Hm' & Hh').
    eapply IH; eassumption.
Qed.

Lemma X5_no_history_is_permanent_witness :
  analyze_focus
    (run visitor_state [tick_at "gina" 0 1000; SaveFocusSession "s7" NoLog "gina" 60 true])
    "gina" None 0 1001000000 (seconds 1001)
  = (Fallback (KeyError "status_history"),
     run visitor_state [tick_at "gina" 0 1000; SaveFocusSession "s7" NoLog "gina" 60 true]).
Proof.
  eapply (X5_no_history_is_permanent visitor_state "gina" session_student_model
            _ None 0%nat);
    reflexivity.
Defined.

(** ** Teaching readiness in a run *)

Lemma mem_opt_tick_types x l :
  Forall tick_event_type l ->
  x <> LearningEventType.DISTRACTION_ENVIRONMENT ->
  mem_opt x l = false.
Proof.
  intros Hl Hx. induction Hl as [|ty l Hty _ IH]; simpl; [reflexivity |].
  rewrite IH, Bool.orb_false_r.
  destruct Hty as [-> | ->]; [| reflexivity].
  apply String.eqb_neq. exact Hx.
Qed.

Lemma should_teach_tick_types events u :
  events_inv events -> fst (should_teach events u) = false.
Proof.
  intros Hinv. unfold should_teach.
  assert (Hl : Forall tick_event_type
                 (map event_type (last_n 5 (default [] (events !! u))))).
  { apply Forall_map. unfold last_n. apply Forall_drop.
    destruct (events !! u) as [l|] eqn:E; simpl; [| constructor].
    eapply Hinv; eassumption. }
  rewrite !(mem_opt_tick_types _ _ Hl) by discriminate.
  destruct (_ <=? _)%nat; reflexivity.
Qed.

Lemma step_events_inv st c :
  state_inv st -> events_inv (LEARNING_EVENTS st) ->
  events_inv (LEARNING_EVENTS (step st c)).
Proof.
  intros Hst Hev.
  destruct c as [u sid faces now t | sid lg u d c | u]; simpl step; try exact Hev.
  destruct faces as [|n];
    [| rewrite analyze_focus_face by lia; exact Hev].
  destruct (status_history (model_of st u)) as [h|] eqn:Hh;
    [| rewrite analyze_focus_no_history by exact Hh; exact Hev].
  destruct (analyze_focus_stores st u sid now t h Hh)
    as (ev & _ & He & _ & _ & Hty & _).
  rewrite He. clear He.
  pose proof (model_of_inv st u Hst) as (_ & Hc & _).
  intros u' l Hl.
  destruct (decide (u' = u)) as [->|Hne].
  - rewrite lookup_insert_eq in Hl.
    match type of Hl with Some ?x = _ => assert (El : l = x) by congruence end.
    rewrite El. clear El Hl.
    apply Forall_app. split.
    + destruct (LEARNING_EVENTS st !! u) as [l0|] eqn:E; simpl; [| constructor].
      eapply Hev; eassumption.
    + constructor; [| constructor]. left. apply Hty. exact Hc.
  - rewrite lookup_insert_ne in Hl by congruence. eapply Hev; eassumption.
Qed.

Lemma reachable_events_inv calls : events_inv (LEARNING_EVENTS (run initial_state calls)).
Proof.
  induction calls as [|c calls IH] using rev_ind.
  - intros u l H. simpl in H. rewrite lookup_empty in H. discriminate.
  - rewrite run_snoc. apply step_events_inv; [apply reachable_inv | exact IH].
Qed.

(** X6.  In a run from the initial state the student model never holds a
    ["current_content_time"], so every tick classifies with 30 seconds on
    the content, which is not more than 30, and only a request without a
    face is answered by the analysis: the learning event of an answered
    request is DISTRACTION_ENVIRONMENT, never SUSTAINED_FOCUS or RECOVERY.
    Hence [should_teach] is false for every user at every point, and every
    analysis response has [teaching_ready] false. *)
Theorem X6_teaching_never_ready (calls : list Call) (u : string) :
  fst (should_teach (LEARNING_EVENTS (run initial_state calls)) u) = false
  /\ forall sid faces now t a,
       fst (analyze_focus (run initial_state calls) u sid faces now t) = Ok a ->
       teaching_ready a = false
       /\ event_type (learning_event a)
          = Some LearningEventType.DISTRACTION_ENVIRONMENT.
Proof.
  split; [apply should_teach_tick_types, reachable_events_inv |].
  intros sid faces now t a Ha.
  set (st := run initial_state calls) in *.
  destruct (analyze_focus_ok _ _ _ _ _ _ _ Ha) as [-> [h Hh]].
  destruct (analyze_focus_stores st u sid now t h Hh)
    as (ev & _ & _ & _ & _ & Hty & _ & _ & _ & Hr).
  destruct (Hr a Ha) as (Hev & _ & Htr & _).
  split.
  - rewrite Htr. apply should_teach_tick_types.
    change (snd (analyze_focus st u sid 0 now t))
      with (step st (AnalyzeFocus u sid 0 now t)).
    unfold st. rewrite <- run_snoc. apply reachable_events_inv.
  - rewrite Hev. apply Hty.
    pose proof (model_of_inv st u (reachable_inv calls)) as (_ & Hc & _).
    exact Hc.
Qed.

Lemma X6_teaching_never_ready_witness :
  exists a,
    fst (analyze_focus (run initial_state short_streak_calls) "dave" None 0
           1002000000 (seconds 1002)) = Ok a
    /\ distraction_detected a = true
    /\ teaching_ready a = false.
Proof.
  assert (Hr : exists a,
             fst (analyze_focus (run initial_state short_streak_calls) "dave" None 0
                    1002000000 (seconds 1002)) = Ok a
             /\ distraction_detected a = true).
  { vm_compute. eexists. split; reflexivity. }
  destruct Hr as (a & Hr & Hd). exists a. split; [exact Hr |]. split; [exact Hd |].
  exact (proj1 (proj2 (X6_teaching_never_ready short_streak_calls "dave")
                  None 0%nat 1002000000 (seconds 1002) a Hr)).
Defined.

(** ** The focus plan in a run *)

Lemma adapt_plan_tick_plan now models logs u p tr :
  tick_plan p ->
  trig_distraction_type tr = Some "looking_away" ->
  tick_event_type (trig_event_type tr) ->
  tick_plan (snd (fst (adapt_plan now models logs u p tr))).
Proof.
  intros (d & b & l & Hd & Hb & Hl & Hall & Hcase & Ht & Hbd) Hty Hev.
  assert (Hp : tick_plan p) by (exists d, b, l; auto 10).
  unfold adapt_plan.
  destruct (cooldown_active _ _) as [[|]|e]; [exact Hp | | exact Hp].
  unfold select_adaptation. rewrite Hty, Hd. simpl.
  destruct (3 <? lookup_distraction_count models u).
  - unfold set_durations. simpl. rewrite Hl. simpl.
    exists 15, (Z.max 10 (d / 2)), (l ++ [ {| adapt_type := "decompose_goal";
        new_duration := Some (Z.max 15 (d - 10));
        new_break_interval := Some (Z.max 10 (d / 2));
        adapt_timestamp := Some (Naive now) |} ]).
    assert (Hd15 : Z.max 15 (d - 10) = 15)
      by (destruct Hcase as [(_ & -> & _) | (_ & -> & _)]; reflexivity).
    rewrite Hd15. repeat split; try assumption.
    + apply Forall_app. split; [exact Hall |]. repeat constructor.
    + right. split; [intros E; apply app_eq_nil in E as [_ E]; discriminate E |].
      split; [reflexivity |].
      destruct Hcase as [(_ & -> & _) | (_ & -> & _)]; [left | right]; reflexivity.
  - destruct Hev as [-> | ->]; simpl; exact Hp.
Qed.

Lemma logged_distraction_plan now t models logs u m sig ev ty :
  ty = Some "looking_away" ->
  tick_event_type (event_type ev) ->
  preferred_work_duration m = None \/ preferred_work_duration m = Some 25 ->
  match current_focus_plan m with
  | Some p => tick_plan p
  | None => distraction_count m = 1
  end ->
  exists res p' logs',
    logged_distraction now t models logs u m sig ev ty
    = (res, with_plan (with_log_time m t) p', logs')
    /\ tick_plan p'.
Proof.
  intros Hty Hev Hpref Hplan. unfold logged_distraction. simpl.
  destruct (current_focus_plan m) as [p|] eqn:Hp; simpl.
  - match goal with |- context [adapt_plan ?a ?b ?c ?d ?e ?f] =>
      pose proof (adapt_plan_tick_plan a b c d e f Hplan Hty Hev) as H;
      destruct (adapt_plan a b c d e f) as [[res q] l'] end.
    eexists res, q, l'. split; [reflexivity | exact H].
  - match goal with |- context [adapt_plan ?a ?b ?c ?d ?e ?f] =>
      assert (Hgen : tick_plan e);
      [| pose proof (adapt_plan_tick_plan a b c d e f Hgen Hty Hev) as H;
         destruct (adapt_plan a b c d e f) as [[res q] l'] ] end.
    { unfold lookup_distraction_count. rewrite lookup_insert_eq. simpl.
      rewrite Hplan. simpl.
      exists 25, 25, [].
      destruct Hpref as [-> | ->]; simpl;
        (split; [reflexivity |]); (split; [reflexivity |]);
        (split; [reflexivity |]); (split; [constructor |]);
        (split; [left; repeat split; reflexivity |]); split; reflexivity. }
    eexists res, q, l'. split; [reflexivity | exact H].
Qed.

Lemma stable_state_distracted h ft iv :
  stable_state h = (true, ft, iv) -> ft = Some "looking_away".
Proof. unfold stable_state. destruct (fge _ _); intros H; inversion H; reflexivity. Qed.

(** The update keeps the shape of the stored plan. *)
Lemma update_plan_inv st u faces now t h :
  status_history (model_of st u) = Some h ->
  current_content_time (model_of st u) = None ->
  plan_inv (model_of st u) ->
  plan_inv (model_of (snd (update_student_model st u faces now t)) u).
Proof.
  intros Hh Hc [Hpref Hplan]. unfold update_student_model, plan_inv.
  fold (model_of st u). rewrite Hh.
  fold (frame_of faces).
  set (m := model_of st u) in *. set (h' := push_frame h (frame_of faces)).
  destruct (stable_state h') as [[fs ft] iv] eqn:Hs. cbn [fst snd].
  match goal with
  | |- context [infer_learning_event ?a ?b
                  {| sig_face_present := Some (PBool ?f); sig_eyes_open := None;
                     sig_gaze_stable := Some (PBool ?g);
                     sig_distraction_level := Some (PFloat ?l);
                     sig_time_on_content := Some (PInt ?c);
                     sig_interaction_count := Some (PInt ?k) |} ?d] =>
      destruct (infer_tick a b f g l c k d) as (ev & Einf & _ & _ & Hit);
      rewrite Einf
  end.
  assert (Hev : tick_event_type (event_type ev)).
  { rewrite Hc in Hit. destruct (Hit eq_refl) as [_ ->].
    destruct (0 <? faces)%nat; [right | left]; reflexivity. }
  clear Hit Einf. cbn [bind].
  set (show := should_show_intervention fs ft _ _ _ _).
  destruct fs.
  - apply stable_state_distracted in Hs. subst ft.
    destruct (should_log _ _ _ _) eqn:Hlog.
    + destruct show;
        simpl andb; cbv iota;
        match goal with |- context [logged_distraction ?a ?b ?c ?d ?e ?f ?g ?i ?j] =>
          destruct (logged_distraction_plan a b c d e f g i j eq_refl Hev)
            as (res & p' & logs' & E & Hp') end;
        try (simpl; exact Hpref);
        try (simpl; destruct (current_focus_plan m);
             [exact Hplan | destruct Hplan as [-> _]; reflexivity]);
        rewrite E; destruct res; simpl; rewrite model_of_after_tick; simpl;
        (split; [exact Hpref | exact Hp']).
    + assert (Hsome : exists p, current_focus_plan m = Some p).
      { destruct (current_focus_plan m) as [p|]; [eauto |].
        destruct Hplan as [_ Hl]. unfold should_log in Hlog.
        rewrite Hl in Hlog. discriminate Hlog. }
      destruct Hsome as [p Hp]. rewrite Hp in Hplan.
      destruct show; simpl; rewrite model_of_after_tick; simpl;
        rewrite Hp; (split; [exact Hpref | exact Hplan]).
  - subst show. simpl. rewrite model_of_after_tick. simpl.
    split; [exact Hpref |].
    destruct (current_focus_plan m); [exact Hplan |].
    destruct Hplan as [Hz _]. split; [exact Hz | reflexivity].
Qed.

(** One request keeps the shape of the stored plan. *)
Lemma analyze_focus_plan_inv st u sid faces now t h :
  status_history (model_of st u) = Some h ->
  current_content_time (model_of st u) = None ->
  plan_inv (model_of st u) ->
  plan_inv (model_of (snd (analyze_focus st u sid faces now t)) u).
Proof.
  intros Hh Hc Hp. destruct faces as [|n];
    [| rewrite analyze_focus_face by lia; exact Hp].
  destruct (analyze_focus_away st u sid now t) as (ss & E & _).
  rewrite E. cbn [snd]. rewrite model_of_with_sessions.
  apply (update_plan_inv st u 0 now t h Hh Hc Hp).
Qed.

Lemma plan_inv_fresh : plan_inv fresh_student_model.
Proof. split; [left; reflexivity | split; reflexivity]. Qed.

Lemma plan_inv_session : plan_inv session_student_model.
Proof. split; [right; reflexivity | split; reflexivity]. Qed.

Lemma reachable_plan_inv calls u m :
  STUDENT_MODELS (run initial_state calls) !! u = Some m -> plan_inv m.
Proof.
  revert u m. induction calls as [|c calls IH] using rev_ind; intros u m Hm.
  - simpl in Hm. rewrite lookup_empty in Hm. discriminate.
  - rewrite run_snoc in Hm. set (st := run initial_state calls) in *.
    assert (Hof : forall u, plan_inv (model_of st u)).
    { intros u0. unfold model_of. destruct (STUDENT_MODELS st !! u0) eqn:E; simpl;
        [eapply IH; exact E | apply plan_inv_fresh]. }
    destruct c as [u0 sid faces now t | sid lg u0 d c | u0]; simpl step in Hm.
    + destruct (decide (u = u0)) as [->|Hne];
        [| rewrite analyze_focus_other in Hm by exact Hne; eapply IH; exact Hm].
      destruct (status_history (model_of st u0)) as [h|] eqn:Hh;
        [| rewrite analyze_focus_no_history in Hm by exact Hh; eapply IH; exact Hm].
      pose proof (model_of_inv st u0 (reachable_inv calls)) as (_ & Hc & _).
      pose proof (analyze_focus_plan_inv st u0 sid faces now t h Hh Hc (Hof u0)) as H.
      unfold model_of in H at 1. rewrite Hm in H. exact H.
    + cbn [save_focus_session STUDENT_MODELS] in Hm.
      unfold session_model_update in Hm.
      destruct (decide (u = u0)) as [->|Hne];
        [| rewrite lookup_insert_ne in Hm by congruence; eapply IH; exact Hm].
      rewrite lookup_insert_eq in Hm.
      assert (Hs : plan_inv (default session_student_model (STUDENT_MODELS st !! u0))).
      { destruct (STUDENT_MODELS st !! u0) eqn:E; simpl;
          [eapply IH; exact E | apply plan_inv_session]. }
      match type of Hm with Some ?x = _ => assert (Em : m = x) by congruence end.
      rewrite Em. clear Em Hm.
      destruct c; [destruct (sessions_completed _) |]; exact Hs.
    + cbn [STUDENT_MODELS] in Hm. unfold get_student_model in Hm.
      destruct (STUDENT_MODELS st !! u0) eqn:E; [eapply IH; exact Hm |].
      destruct (decide (u = u0)) as [->|Hne].
      * rewrite lookup_insert_eq in Hm.
        assert (Em : m = session_student_model) by congruence.
        rewrite Em. apply plan_inv_session.
      * rewrite lookup_insert_ne in Hm by congruence. eapply IH; exact Hm.
Qed.

(** X7.  In a run from the initial state the only adaptation that ticks
    apply is "decompose_goal".  A stored focus plan is either the generated
    one (25 minutes, break interval 25, no adaptation) or, once adapted, has
    a recommended duration of 15 minutes and a break interval of 12 or 10;
    its break duration stays 5 and it has no task list.  A user without a
    plan has a distraction count of 0. *)
Theorem X7_reachable_plan_shape (calls : list Call) (u : string)
    (m : StudentModel) :
  STUDENT_MODELS (run initial_state calls) !! u = Some m ->
  match current_focus_plan m with
  | Some p =>
      exists d b l,
        recommended_duration_minutes p = Some d
        /\ break_interval_minutes p = Some b
        /\ adaptations p = Some l
        /\ Forall (fun a => adapt_type a = "decompose_goal") l
        /\ ((l = [] /\ d = 25 /\ b = 25)
            \/ (l <> [] /\ d = 15 /\ (b = 12 \/ b = 10)))
        /\ tasks p = None
        /\ break_duration_minutes p = 5
  | None => distraction_count m = 0
  end.
Proof.
  intros Hm. destruct (reachable_plan_inv calls u m Hm) as [_ H].
  destruct (current_focus_plan m); [exact H | exact (proj1 H)].
Qed.

Lemma X7_reachable_plan_shape_witness :
  exists m p,
    STUDENT_MODELS (run initial_state adapted_calls) !! "dave" = Some m
    /\ current_focus_plan m = Some p
    /\ recommended_duration_minutes p = Some 15
    /\ break_interval_minutes p = Some 12.
Proof.
  destruct (STUDENT_MODELS (run initial_state adapted_calls) !! "dave")
    as [m|] eqn:Hm; [| vm_compute in Hm; discriminate Hm].
  pose proof (X7_reachable_plan_shape adapted_calls "dave" m Hm) as H.
  assert (Hp : exists p, current_focus_plan m = Some p
                         /\ break_interval_minutes p = Some 12).
  { vm_compute in Hm. inversion Hm. eexists. split; reflexivity. }
  destruct Hp as (p & Hp & Hb12). rewrite Hp in H.
  destruct H as (d & b & l & Hd & Hb & _ & _ & Hcase & _).
  exists m, p. split; [reflexivity |]. split; [exact Hp |]. split; [| exact Hb12].
  rewrite Hd. f_equal.
  destruct Hcase as [(_ & _ & ->) | (_ & -> & _)]; [| reflexivity].
  rewrite Hb in Hb12. discriminate Hb12.
Defined.

(** ** The plan adapter and its audit trail *)

Lemma select_adaptation_type now c p tr a q :
  select_adaptation now c p tr = (Some a, q) ->
  In (adapt_type a)
     ["reduce_focus_time"; "decompose_goal"; "simplify_tasks"; "extend_block"].
Proof.
  unfold select_adaptation.
  repeat match goal with |- context [if ?b then _ else _] => destruct b end;
    intros H; inversion H; simpl; auto.
Qed.

(** X8.  A call of [adapt_plan] that returns has either left the plan and
    the decision log as they were, or appended exactly one adaptation,
    stamped with the time of the call and of one of the four types, and
    logged exactly one decision, named after that type and carrying the
    trigger, for the user of the call.  A call that raises has logged
    nothing. *)
Theorem X8_adaptation_is_logged (now : datetime)
    (models : gmap string StudentModel) (logs : gmap string (list Decision))
    (u : string) (p : FocusPlan) (tr : TriggerEvent)
    (res : outcome) (p' : FocusPlan) (logs' : gmap string (list Decision)) :
  adapt_plan now models logs u p tr = (res, p', logs') ->
  match res with
  | Returned =>
      (p' = p /\ logs' = logs)
      \/ (exists a l,
            adaptations p = Some l
            /\ adaptations p' = Some (l ++ [a])
            /\ adapt_timestamp a = Some (Naive now)
            /\ In (adapt_type a)
                  ["reduce_focus_time"; "decompose_goal"; "simplify_tasks";
                   "extend_block"]
            /\ logs' = <[u := default [] (logs !! u)
                              ++ [ {| dec_timestamp := now;
                                      action := "adapt_plan_" +:+ adapt_type a;
                                      triggering_evidence := EvTrigger tr;
                                      dec_user_id := u |} ]]> logs)
  | Raised _ => logs' = logs
  end.
Proof.
  intros H. unfold adapt_plan in H.
  destruct (cooldown_active _ _) as [[|]|e];
    [inversion H; auto | | inversion H; reflexivity].
  pose proof (select_adaptation_adaptations now
                (lookup_distraction_count models u) p tr) as Hs.
  destruct (select_adaptation _ _ _ _) as [[a|] q] eqn:Hsel; simpl in Hs.
  - rewrite Hs in H. destruct (adaptations p) as [l|] eqn:Hl.
    + simpl in H. inversion H; subst. right. exists a, l.
      split; [reflexivity |]. split; [reflexivity |].
      split; [eapply select_adaptation_timestamp; exact Hsel |].
      split; [eapply select_adaptation_type; exact Hsel | reflexivity].
    + inversion H; subst. reflexivity.
  - apply select_adaptation_none in Hsel. subst q. inversion H; auto.
Qed.

Lemma X8_adaptation_is_logged_witness :
  exists a l,
    adaptations sample_plan = Some l
    /\ adaptations (snd (fst (adapt_plan 7 ∅ ∅ "erin" sample_plan phone_trigger)))
       = Some (l ++ [a])
    /\ adapt_timestamp a = Some (Naive 7).
Proof.
  destruct (X8_adaptation_is_logged 7 ∅ ∅ "erin" sample_plan phone_trigger
              Returned _ _ eq_refl)
    as [(Hp & _) | (a & l & Hl & Hl' & Hts & _)].
  - vm_compute in Hp. discriminate Hp.
  - exists a, l. auto.
Defined.



(** X10.  The endpoint never reports an adaptation: [was_adapted] compares
    the plan with itself after the call and is false in every response,
    also when the call has just appended an adaptation to the plan it
    returns. *)
Theorem X10_was_adapted_is_false (now : datetime)
    (models : gmap string StudentModel) (logs : gmap string (list Decision))
    (u : string) (p : FocusPlan) (tr : TriggerEvent) :
  (forall r, fst (adapt_focus_plan now models logs u p tr) = Some r ->
             was_adapted r = false)
  /\ (forall l, adaptations p = Some l ->
      cooldown_active now l = Value false ->
      trig_distraction_type tr = Some "phone_use" ->
      exists r a,
        fst (adapt_focus_plan now models logs u p tr) = Some r
        /\ adaptations (ar_plan r) = Some (l ++ [a])
        /\ adapt_type a = "reduce_focus_time"
        /\ was_adapted r = false).
Proof.
  unfold adapt_focus_plan. split.
  - intros r. destruct (adapt_plan _ _ _ _ _ _) as [[res q] l'].
    destruct res; simpl; intros H; inversion H; simpl.
    apply Nat.ltb_irrefl.
  - intros l Hl Hc Hty. unfold adapt_plan. rewrite Hl. simpl. rewrite Hc.
    unfold select_adaptation. rewrite Hty. simpl.
    unfold set_durations. simpl. rewrite Hl. simpl.
    eexists _, _. split; [reflexivity |]. simpl.
    split; [reflexivity |]. split; [reflexivity |]. apply Nat.ltb_irrefl.
Qed.

Lemma X10_was_adapted_is_false_witness :
  exists r a,
    fst (adapt_focus_plan 0 ∅ ∅ "erin" sample_plan phone_trigger) = Some r
    /\ adaptations (ar_plan r) = Some [a]
    /\ was_adapted r = false.
Proof.
  destruct (proj2 (X10_was_adapted_is_false 0 ∅ ∅ "erin" sample_plan phone_trigger)
              [] eq_refl eq_refl eq_refl) as (r & a & Hr & Ha & _ & Hw).
  exists r, a. auto.
Defined.

(** ** The query endpoints *)

Lemma py_slice_from_cases {A} (limit : Z) (l : list A) :
  (0 < limit -> py_slice_from (- limit) l = last_n (Z.to_nat limit) l)
  /\ (limit < 0 -> py_slice_from (- limit) l = drop (Z.to_nat (- limit)) l).
Proof.
  unfold py_slice_from, last_n. split; intros H.
  - replace (- limit <? 0) with true by (symmetry; apply Z.ltb_lt; lia).
    f_equal. lia.
  - replace (- limit <? 0) with false by (symmetry; apply Z.ltb_ge; lia).
    destruct (Z.le_gt_cases (- limit) (Z.of_nat (length l))) as [Hle|Hgt].
    + f_equal. lia.
    + rewrite !drop_ge by lia. reflexivity.
Qed.

(** X11.  The two history queries return, with [total_count] the full
    length, the most recent [limit] entries in their stored order when
    [limit] is positive (all of them when there are fewer); every entry
    when [limit] is 0; and, when [limit] is negative, every entry except
    the [-limit] oldest.  A user without entries gets an empty list and a
    count of 0. *)
Theorem X11_history_queries (logs : gmap string (list Decision))
    (events : gmap string (list LearningEvent)) (u : string) (limit : Z) :
  let ds := default [] (logs !! u) in
  let es := default [] (events !! u) in
  snd (get_decision_logs logs u limit) = length ds
  /\ snd (get_learning_events events u limit) = length es
  /\ (0 < limit ->
      fst (get_decision_logs logs u limit) = last_n (Z.to_nat limit) ds
      /\ fst (get_learning_events events u limit) = last_n (Z.to_nat limit) es
      /\ length (fst (get_decision_logs logs u limit))
         = Nat.min (Z.to_nat limit) (length ds))
  /\ (limit = 0 ->
      fst (get_decision_logs logs u limit) = ds
      /\ fst (get_learning_events events u limit) = es)
  /\ (limit < 0 ->
      fst (get_decision_logs logs u limit) = drop (Z.to_nat (- limit)) ds
      /\ fst (get_learning_events events u limit) = drop (Z.to_nat (- limit)) es)
  /\ (logs !! u = None -> get_decision_logs logs u limit = ([], 0%nat)).
Proof.
  intros ds es. unfold get_decision_logs, get_learning_events. simpl.
  fold ds es.
  split; [reflexivity |]. split; [reflexivity |].
  split; [| split; [| split]].
  - intros H. replace (limit =? 0) with false by (symmetry; apply Z.eqb_neq; lia).
    simpl. rewrite !(proj1 (py_slice_from_cases limit _) H).
    split; [reflexivity |]. split; [reflexivity |]. apply last_n_length.
  - intros ->. split; reflexivity.
  - intros H. replace (limit =? 0) with false by (symmetry; apply Z.eqb_neq; lia).
    simpl. rewrite !(proj2 (py_slice_from_cases limit _) H). split; reflexivity.
  - intros Hn. subst ds. rewrite Hn. simpl.
    destruct (negb _); [unfold py_slice_from; rewrite drop_nil |]; reflexivity.
Qed.

Lemma X11_history_queries_witness :
  length (fst (get_decision_logs (DECISION_LOGS (run initial_state adapted_calls))
                 "dave" 2)) = 2%nat
  /\ map action (fst (get_decision_logs (DECISION_LOGS (run initial_state adapted_calls))
                        "dave" (-1)))
     = ["generate_focus_plan"; "detect_distraction"; "adapt_plan_decompose_goal"]
  /\ snd (get_decision_logs (DECISION_LOGS (run initial_state adapted_calls))
            "dave" 0) = 4%nat.
Proof.
  pose proof (X11_history_queries (DECISION_LOGS (run initial_state adapted_calls))
                ∅ "dave") as H.
  split; [| split].
  - destruct (H 2) as (_ & _ & Hpos & _).
    destruct (Hpos ltac:(lia)) as (_ & _ & Hlen). rewrite Hlen.
    vm_compute. reflexivity.
  - destruct (H (-1)) as (_ & _ & _ & _ & Hneg & _).
    destruct (Hneg ltac:(lia)) as (Hd & _). rewrite Hd. vm_compute. reflexivity.
  - destruct (H 0) as (Ht & _). rewrite Ht. vm_compute. reflexivity.
Defined.

(** X12.  A decision just logged is what the query returns last: after
    [log_decision] for a user, [get_decision_logs] with any positive limit
    ends with the decision that [log_decision] returned and counts one more
    decision than before, and the answers for the other users are as they
    were. *)
Theorem X12_logged_decision_is_returned (now : datetime)
    (logs : gmap string (list Decision)) (u : string) (act : string)
    (ev : Evidence) (limit : Z) :
  0 < limit ->
  let d := fst (log_decision now logs u act ev) in
  let logs' := snd (log_decision now logs u act ev) in
  (exists earlier, fst (get_decision_logs logs' u limit) = earlier ++ [d])
  /\ snd (get_decision_logs logs' u limit) = S (snd (get_decision_logs logs u limit))
  /\ action d = act /\ dec_user_id d = u /\ dec_timestamp d = now
  /\ forall u' k, u' <> u -> get_decision_logs logs' u' k = get_decision_logs logs u' k.
Proof.
  intros Hpos d logs'. subst d logs'. unfold log_decision. cbn [fst snd].
  unfold get_decision_logs. rewrite lookup_insert_eq. cbn [default fst snd id].
  replace (limit =? 0) with false by (symmetry; apply Z.eqb_neq; lia).
  cbn [negb]. rewrite (proj1 (py_slice_from_cases limit _) Hpos).
  split; [| split; [| split; [| split; [| split]]]]; try reflexivity.
  - replace (Z.to_nat limit) with (S (Z.to_nat limit - 1)) by lia.
    rewrite last_n_snoc. eauto.
  - rewrite length_app. simpl. lia.
  - intros u' k Hne. rewrite lookup_insert_ne by congruence. reflexivity.
Qed.

Lemma X12_logged_decision_is_returned_witness :
  exists earlier,
    fst (get_decision_logs
           (snd (log_decision 5 (DECISION_LOGS alice_state) "alice" "probe"
                   (EvPlanStats 0 0 0))) "alice" 1)
    = earlier ++ [fst (log_decision 5 (DECISION_LOGS alice_state) "alice" "probe"
                         (EvPlanStats 0 0 0))].
Proof.
  exact (proj1 (X12_logged_decision_is_returned 5 (DECISION_LOGS alice_state)
                  "alice" "probe" (EvPlanStats 0 0 0) 1 ltac:(lia))).
Defined.

(** ** Teaching readiness *)

Lemma mem_opt_In x l : mem_opt x l = true <-> In (Some x) l.
Proof.
  unfold mem_opt. rewrite existsb_exists. split.
  - intros ([s|] & Hin & H); [| discriminate].
    apply String.eqb_eq in H. subst s. exact Hin.
  - intros Hin. exists (Some x). split; [exact Hin | apply String.eqb_refl].
Qed.

Lemma distraction_filter_types (l : list LearningEvent) :
  List.filter (fun e => match e with
                        | Some s => negb (String.eqb s "") && contains "distraction" s
                        | None => false
                        end) (map event_type l)
  = map event_type (List.filter is_distraction_event l).
Proof.
  induction l as [|e l IH]; simpl; [reflexivity |].
  unfold is_distraction_event at 1.
  destruct (event_type e) as [s|] eqn:E; simpl.
  - destruct s as [|c s]; simpl; [exact IH |].
    destruct (_ || _); simpl; rewrite ?E, IH; reflexivity.
  - exact IH.
Qed.

(** X13.  [should_teach] reads the last five events of the user and nothing
    else.  It answers true only if none of them is a cognitive overload,
    fewer than two of them are distraction events and one of them is a
    sustained focus or a recovery; an overload among the five always gives
    false, and so do two distractions.  A user without events is not
    ready. *)
Theorem X13_should_teach (events : gmap string (list LearningEvent)) (u : string) :
  let recent := last_n 5 (default [] (events !! u)) in
  (forall events' older older',
      events !! u = Some (older ++ recent) ->
      events' !! u = Some (older' ++ recent) ->
      length recent = 5%nat ->
      should_teach events' u = should_teach events u)
  /\ (fst (should_teach events u) = true ->
      (forall e, In e recent ->
                 event_type e <> Some LearningEventType.COGNITIVE_OVERLOAD)
      /\ (length (List.filter is_distraction_event recent) < 2)%nat
      /\ exists e, In e recent
                   /\ (event_type e = Some LearningEventType.SUSTAINED_FOCUS
                       \/ event_type e = Some LearningEventType.RECOVERY))
  /\ ((exists e, In e recent
                 /\ event_type e = Some LearningEventType.COGNITIVE_OVERLOAD) ->
      fst (should_teach events u) = false)
  /\ ((2 <= length (List.filter is_distraction_event recent))%nat ->
      fst (should_teach events u) = false)
  /\ (events !! u = None ->
      should_teach events u
      = (false, "Insufficient behavioral evidence for teaching readiness")).
Proof.
  intros recent.
  split; [| split; [| split; [| split]]].
  - intros events' older older' He He' Hlen. unfold should_teach.
    assert (Hr : forall o, last_n 5 (o ++ recent) = recent).
    { intros o. unfold last_n. rewrite length_app, Hlen.
      replace (length o + 5 - 5)%nat with (length o) by lia.
      rewrite drop_app_length. reflexivity. }
    rewrite He, He'. simpl. rewrite !Hr. reflexivity.
  - unfold should_teach. fold recent. rewrite distraction_filter_types, length_map.
    destruct (mem_opt LearningEventType.COGNITIVE_OVERLOAD _) eqn:Ho;
      [discriminate |].
    destruct (Nat.leb_spec 2 (length (List.filter is_distraction_event recent)));
      [discriminate |].
    intros Ht. split; [| split; [assumption |]].
    + intros e Hin Hty.
      assert (mem_opt LearningEventType.COGNITIVE_OVERLOAD (map event_type recent)
              = true); [| congruence].
      apply mem_opt_In. rewrite <- Hty. apply in_map. exact Hin.
    + destruct (mem_opt LearningEventType.SUSTAINED_FOCUS _) eqn:Hs.
      * apply mem_opt_In, in_map_iff in Hs as (e & Hty & Hin). eauto.
      * destruct (mem_opt LearningEventType.RECOVERY _) eqn:Hr; [| discriminate].
        apply mem_opt_In, in_map_iff in Hr as (e & Hty & Hin). eauto.
  - intros (e & Hin & Hty). unfold should_teach. fold recent.
    replace (mem_opt LearningEventType.COGNITIVE_OVERLOAD (map event_type recent))
      with true; [reflexivity |].
    symmetry. apply mem_opt_In. rewrite <- Hty. apply in_map. exact Hin.
  - intros Hd. unfold should_teach. fold recent.
    rewrite distraction_filter_types, length_map.
    destruct (mem_opt LearningEventType.COGNITIVE_OVERLOAD _); [reflexivity |].
    replace (2 <=? length (List.filter is_distraction_event recent))%nat with true
      by (symmetry; apply Nat.leb_le; exact Hd).
    reflexivity.
  - intros Hn. unfold should_teach. rewrite Hn. reflexivity.
Qed.

Lemma X13_should_teach_witness :
  fst (should_teach (LEARNING_EVENTS (run initial_state short_streak_calls)) "dave")
  = false.
Proof.
  apply (proj1 (proj2 (proj2 (proj2
           (X13_should_teach (LEARNING_EVENTS (run initial_state short_streak_calls))
              "dave"))))).
  vm_compute. lia.
Defined.

(** ** The generated plan *)

(** X14.  [generate_focus_plan] recommends [min(preferred, goal)] minutes for
    a user with at most 10 distractions, whatever the sign of the goal, and
    [max(10, min(preferred, goal) - 10)], at least 10, beyond; in both
    cases at most [max(10, goal)].  The break interval equals the duration,
    the break lasts 5 minutes from a duration of 25 on and 3 below, the plan
    starts without adaptations (so its first adaptation is never throttled)
    and without tasks, and exactly one decision "generate_focus_plan" is
    appended to the log of the user. *)
Theorem X14_generated_plan (now : datetime)
    (models : gmap string StudentModel) (logs : gmap string (list Decision))
    (u : string) (goal : Z) :
  let p := fst (generate_focus_plan now models logs u goal) in
  let preferred := default 25 (models !! u ≫= preferred_work_duration) in
  let count := lookup_distraction_count models u in
  exists d,
    recommended_duration_minutes p = Some d
    /\ break_interval_minutes p = Some d
    /\ (count <= 10 -> d = Z.min preferred goal)
    /\ (10 < count -> d = Z.max 10 (Z.min preferred goal - 10) /\ 10 <= d)
    /\ d <= Z.max 10 goal
    /\ break_duration_minutes p = (if 25 <=? d then 5 else 3)
    /\ adaptations p = Some []
    /\ tasks p = None
    /\ (forall now', cooldown_active now' (default [] (adaptations p)) = Value false)
    /\ exists dec,
         action dec = "generate_focus_plan" /\ dec_user_id dec = u
         /\ snd (generate_focus_plan now models logs u goal)
            = <[u := default [] (logs !! u) ++ [dec]]> logs.
Proof.
  intros p preferred count. subst p. unfold generate_focus_plan. cbn [fst snd].
  fold preferred count.
  eexists. split; [reflexivity |]. split; [reflexivity |].
  destruct (Z.ltb_spec 10 count) as [Hgt|Hle].
  - split; [lia |]. split; [intros _; split; [reflexivity | lia] |].
    split; [lia |]. split; [reflexivity |]. split; [reflexivity |].
    split; [reflexivity |]. split; [reflexivity |].
    eexists. split; [| split]; [| | reflexivity]; reflexivity.
  - split; [intros _; reflexivity |]. split; [lia |].
    split; [lia |]. split; [reflexivity |]. split; [reflexivity |].
    split; [reflexivity |]. split; [reflexivity |].
    eexists. split; [| split]; [| | reflexivity]; reflexivity.
Qed.

Lemma X14_generated_plan_witness :
  recommended_duration_minutes
    (fst (generate_focus_plan 0 (STUDENT_MODELS visitor_state) ∅ "gina" 40)) = Some 25
  /\ recommended_duration_minutes
       (fst (generate_focus_plan 0 (STUDENT_MODELS visitor_state) ∅ "gina" (-5)))
     = Some (-5).
Proof.
  split.
  - destruct (X14_generated_plan 0 (STUDENT_MODELS visitor_state) ∅ "gina" 40)
      as (d & Hd & _ & Hle & _).
    rewrite Hd, (Hle ltac:(vm_compute; discriminate)). reflexivity.
  - destruct (X14_generated_plan 0 (STUDENT_MODELS visitor_state) ∅ "gina" (-5))
      as (d & Hd & _ & Hle & _).
    rewrite Hd, (Hle ltac:(vm_compute; discriminate)). reflexivity.
Defined.

(** ** The two kinds of student model *)

Lemma update_frame st u faces now t h :
  status_history (model_of st u) = Some h ->
  sessions_completed (model_of (snd (update_student_model st u faces now t)) u)
    = sessions_completed (model_of st u)
  /\ preferred_work_duration (model_of (snd (update_student_model st u faces now t)) u)
     = preferred_work_duration (model_of st u).
Proof.
  intros Hh. unfold update_student_model. fold (model_of st u). rewrite Hh.
  set (m := model_of st u).
  destruct (stable_state _) as [[fs ft] iv]. cbn [fst snd].
  match goal with
  | |- context [infer_learning_event ?a ?b
                  {| sig_face_present := Some (PBool ?f); sig_eyes_open := None;
                     sig_gaze_stable := Some (PBool ?g);
                     sig_distraction_level := Some (PFloat ?l);
                     sig_time_on_content := Some (PInt ?c);
                     sig_interaction_count := Some (PInt ?k) |} ?d] =>
      destruct (infer_tick a b f g l c k d) as (ev & Einf & _);
      rewrite Einf
  end.
  cbn [bind].
  set (show := should_show_intervention fs ft _ _ _ _).
  destruct fs; [destruct show | subst show; cbn [should_show_intervention]];
    simpl andb; cbv iota;
    try destruct (should_log _ _ _ _);
    try match goal with |- context [logged_distraction ?a ?b ?c ?d ?e ?f ?g ?i ?j] =>
          destruct (logged_distraction_model a b c d e f g i j)
            as (res & p' & logs' & E & Hok); rewrite E; destruct res as [|exn] end;
    simpl; rewrite model_of_after_tick; split; reflexivity.
Qed.

Lemma analyze_focus_frame st u sid faces now t h :
  status_history (model_of st u) = Some h ->
  sessions_completed (model_of (snd (analyze_focus st u sid faces now t)) u)
    = sessions_completed (model_of st u)
  /\ preferred_work_duration (model_of (snd (analyze_focus st u sid faces now t)) u)
     = preferred_work_duration (model_of st u).
Proof.
  intros Hh. destruct faces as [|n];
    [| rewrite analyze_focus_face by lia; split; reflexivity].
  destruct (analyze_focus_away st u sid now t) as (ss & E & _).
  rewrite E. cbn [snd]. rewrite model_of_with_sessions.
  apply (update_frame st u 0 now t h Hh).
Qed.

Lemma reachable_model_kind calls u m :
  STUDENT_MODELS (run initial_state calls) !! u = Some m -> model_kind m.
Proof.
  revert u m. induction calls as [|c calls IH] using rev_ind; intros u m Hm.
  - simpl in Hm. rewrite lookup_empty in Hm. discriminate.
  - rewrite run_snoc in Hm. set (st := run initial_state calls) in *.
    destruct c as [u0 sid faces now t | sid lg u0 d c | u0]; simpl step in Hm.
    + destruct (decide (u = u0)) as [->|Hne];
        [| rewrite analyze_focus_other in Hm by exact Hne; eapply IH; exact Hm].
      destruct faces as [|n];
        [| rewrite analyze_focus_face in Hm by lia; eapply IH; exact Hm].
      destruct (status_history (model_of st u0)) as [h|] eqn:Hh;
        [| rewrite analyze_focus_no_history in Hm by exact Hh; eapply IH; exact Hm].
      destruct (analyze_focus_frame st u0 sid 0 now t h Hh) as [Hs _].
      destruct (analyze_focus_tick st u0 sid now t h Hh)
        as (r & m' & ev & lg & ss & E & H1 & _).
      rewrite E in Hm, Hs. simpl in Hm. cbn [snd] in Hs.
      rewrite model_of_after_tick in Hs.
      rewrite lookup_insert_eq in Hm.
      assert (Em : m = m') by congruence. subst m'.
      left. split; [rewrite H1; eauto |]. rewrite Hs.
      unfold model_of in *. destruct (STUDENT_MODELS st !! u0) as [m0|] eqn:E0;
        simpl in *; [| reflexivity].
      destruct (IH u0 m0 E0) as [[_ Hn] | [Hn _]]; [exact Hn | congruence].
    + cbn [save_focus_session STUDENT_MODELS] in Hm.
      unfold session_model_update in Hm.
      destruct (decide (u = u0)) as [->|Hne];
        [| rewrite lookup_insert_ne in Hm by congruence; eapply IH; exact Hm].
      rewrite lookup_insert_eq in Hm.
      match type of Hm with Some ?x = _ => assert (Em : m = x) by congruence end.
      rewrite Em. clear Em Hm.
      destruct (STUDENT_MODELS st !! u0) as [m0|] eqn:E0; simpl.
      * destruct (IH u0 m0 E0) as [[Hh Hn] | [Hh [n Hn]]].
        -- left. rewrite Hn. destruct c; simpl; auto.
        -- right. rewrite Hn. destruct c; simpl; eauto.
      * right. destruct c; simpl; eauto.
    + cbn [STUDENT_MODELS] in Hm. unfold get_student_model in Hm.
      destruct (STUDENT_MODELS st !! u0) eqn:E; [eapply IH; exact Hm |].
      destruct (decide (u = u0)) as [->|Hne].
      * rewrite lookup_insert_eq in Hm.
        assert (Em : m = session_student_model) by congruence.
        rewrite Em. right. simpl. eauto.
      * rewrite lookup_insert_ne in Hm by congruence. eapply IH; exact Hm.
Qed.

(** X15.  In a run from the initial state a student model is of one of two
    kinds for good: it has a history and no ["sessions_completed"] key (the
    user was first seen by [analyze_focus]), or it has that key and no
    history.  For a model of the first kind [save_focus_session] adds the
    duration to the focus time but, reporting a completed session, records
    none. *)
Theorem X15_model_kinds (calls : list Call) (u : string) (m : StudentModel) :
  STUDENT_MODELS (run initial_state calls) !! u = Some m ->
  ((is_Some (status_history m) /\ sessions_completed m = None)
   \/ (status_history m = None /\ is_Some (sessions_completed m)))
  /\ (is_Some (status_history m) ->
      forall sid log duration,
        exists m',
          STUDENT_MODELS
            (save_focus_session (run initial_state calls) sid log u duration true)
            !! u = Some m'
          /\ total_focus_time m' = total_focus_time m + duration
          /\ sessions_completed m' = None
          /\ distraction_count m' = distraction_count m
          /\ status_history m' = status_history m).
Proof.
  intros Hm. pose proof (reachable_model_kind calls u m Hm) as Hk.
  split; [exact Hk |].
  intros Hh sid log duration. cbn [save_focus_session STUDENT_MODELS].
  unfold session_model_update. rewrite lookup_insert_eq, Hm.
  simpl.
  destruct Hk as [[_ Hn] | [Hn _]];
    [| rewrite Hn in Hh; destruct Hh as [? Hh]; discriminate Hh].
  rewrite Hn. eexists. split; [reflexivity |]. repeat split; assumption.
Qed.

Lemma X15_model_kinds_witness :
  exists m g,
    STUDENT_MODELS (run initial_state mixed_calls) !! "alice" = Some m
    /\ STUDENT_MODELS (run initial_state mixed_calls) !! "gina" = Some g
    /\ sessions_completed m = None /\ total_focus_time m = 60
    /\ status_history g = None /\ sessions_completed g = Some 1.
Proof.
  destruct (STUDENT_MODELS (run initial_state mixed_calls) !! "alice")
    as [m|] eqn:Hm; [| vm_compute in Hm; discriminate Hm].
  destruct (STUDENT_MODELS (run initial_state mixed_calls) !! "gina")
    as [g|] eqn:Hg; [| vm_compute in Hg; discriminate Hg].
  destruct (X15_model_kinds mixed_calls "alice" m Hm) as [Hk _].
  exists m, g. split; [reflexivity |]. split; [reflexivity |].
  assert (Ha : is_Some (status_history m) /\ total_focus_time m = 60)
    by (vm_compute in Hm; inversion Hm; split; [eexists |]; reflexivity).
  destruct Ha as [[h Hh] Hf].
  split; [destruct Hk as [[_ Hn] | [Hn _]]; [exact Hn | congruence] |].
  split; [exact Hf |].
  vm_compute in Hg. inversion Hg. split; reflexivity.
Defined.


(** ** The reaction-correlation engine *)

Ltac engagement_cases cv eng :=
  destruct (default false (cv_face_detected cv)),
           (default false (cv_eyes_open cv)),
           (default false (cv_looking_away cv)),
           (opt_str_eqb (cv_distraction_type cv) (Some "phone_use")),
           (10 <? default 0 (eng_time_on_response eng)),
           (30 <? default 0 (eng_time_on_response eng)),
           (default false (eng_typing_started eng)),
           (default false (eng_took_notes eng)),
           (500 <? default 0 (eng_scroll_speed eng)).

(** X16.  The engagement score, accumulated and clamped in binary64, always
    lies between 0 and 1, whatever the signals. *)
Theorem X16_engagement_score_range (cv : CvSignals) (eng : EngagementSignals) :
  PrimFloat.leb 0.0%float (_calculate_engagement cv eng) = true
  /\ PrimFloat.leb (_calculate_engagement cv eng) 1.0%float = true.
Proof.
  unfold _calculate_engagement.
  engagement_cases cv eng; vm_compute; split; reflexivity.
Qed.

Lemma classify_reaction_names cv eng score :
  In (_classify_reaction cv eng score)
     ["ENGAGED"; "MOTIVATED"; "CONFUSED"; "DISTRACTED"; "BORED"].
Proof.
  unfold _classify_reaction.
  repeat match goal with |- context [if ?b then _ else _] => destruct b end;
    simpl; auto 10.
Qed.

(** X17.  The reaction computed for a request is one of the five named
    types.  It is DISTRACTED exactly when the camera reports phone use: no
    other combination of signals brings the score under 0.3 without matching
    an earlier rule.  MOTIVATED needs typing or notes, BORED a scroll speed
    above 300.  With a face detected and the user looking away as the only
    signals that count, the score [0.5 + 0.1 - 0.2] is below 0.4 in binary64
    and the reaction is CONFUSED whatever the scroll speed. *)
Theorem X17_reaction_type (cv : CvSignals) (eng : EngagementSignals) :
  let score := _calculate_engagement cv eng in
  let rt := _classify_reaction cv eng score in
  In rt ["ENGAGED"; "MOTIVATED"; "CONFUSED"; "DISTRACTED"; "BORED"]
  /\ (rt = "DISTRACTED" <-> cv_distraction_type cv = Some "phone_use")
  /\ (rt = "MOTIVATED" ->
      default false (eng_typing_started eng) = true
      \/ default false (eng_took_notes eng) = true)
  /\ (rt = "BORED" -> 300 < default 0 (eng_scroll_speed eng))
  /\ (default false (cv_face_detected cv) = true ->
      default false (cv_eyes_open cv) = false ->
      default false (cv_looking_away cv) = true ->
      cv_distraction_type cv <> Some "phone_use" ->
      default 0 (eng_time_on_response eng) <= 10 ->
      default false (eng_typing_started eng) = false ->
      default false (eng_took_notes eng) = false ->
      default 0 (eng_scroll_speed eng) <= 500 ->
      PrimFloat.ltb score 0.4%float = true /\ rt = "CONFUSED").
Proof.
  intros score rt. subst score rt.
  split; [apply classify_reaction_names |].
  unfold _classify_reaction, _calculate_engagement.
  destruct (opt_str_eqb (cv_distraction_type cv) (Some "phone_use")) eqn:Ephone.
  { apply opt_str_eqb_eq in Ephone.
    repeat split; intros; try discriminate; try assumption; try tauto. }
  assert (Hnp : cv_distraction_type cv <> Some "phone_use")
    by (intros E; apply opt_str_eqb_eq in E; rewrite E in Ephone;
        discriminate Ephone).
  clear Ephone.
  destruct (default false (cv_face_detected cv)),
           (default false (cv_eyes_open cv)),
           (default false (cv_looking_away cv)),
           (Z.ltb_spec 10 (default 0 (eng_time_on_response eng))),
           (Z.ltb_spec 30 (default 0 (eng_time_on_response eng))),
           (default false (eng_typing_started eng)),
           (default false (eng_took_notes eng)),
           (Z.ltb_spec 500 (default 0 (eng_scroll_speed eng))),
           (Z.ltb_spec 300 (default 0 (eng_scroll_speed eng)));
    try lia;
    match goal with
    | |- context [if ?c then _ else _] =>
        let v := eval vm_compute in c in change c with v
    | _ => idtac
    end;
    cbv iota;
    repeat match goal with
           | |- context [if ?c then _ else _] =>
               let v := eval vm_compute in c in change c with v; cbv iota
           end;
    (split; [split; [intros E; discriminate E | intros E; contradiction] |]);
    (split; [intros E; first [discriminate E | auto] |]);
    (split; [intros E; first [discriminate E | assumption] |]);
    intros; first [discriminate | lia | split; [vm_compute |]; reflexivity].
Qed.

Lemma X17_reaction_type_witness :
  _classify_reaction (mkCv (Some true) None (Some true) None)
    (mkEngagement (Some 5) None None (Some 400))
    (_calculate_engagement (mkCv (Some true) None (Some true) None)
       (mkEngagement (Some 5) None None (Some 400)))
  = "CONFUSED".
Proof.
  refine (proj2 (proj2 (proj2 (proj2 (proj2
            (X17_reaction_type (mkCv (Some true) None (Some true) None)
               (mkEngagement (Some 5) None None (Some 400))))))
            eq_refl eq_refl eq_refl _ _ eq_refl eq_refl _));
    first [discriminate | simpl; lia].
Defined.

Lemma str_mem_In x l : str_mem x l = true <-> In x l.
Proof.
  unfold str_mem. rewrite existsb_exists. split.
  - intros (y & Hin & E). apply String.eqb_eq in E. subst y. exact Hin.
  - intros Hin. exists x. split; [exact Hin | apply String.eqb_refl].
Qed.

Lemma NoDup_snoc_fresh (l : list string) (x : string) :
  NoDup l -> ~ In x l -> NoDup (l ++ [x]).
Proof.
  induction l as [|y l IH]; simpl; intros Hnd Hx.
  - constructor; [intros H; inversion H | constructor].
  - inversion Hnd as [|? ? Hy Hl]; subst. constructor.
    + rewrite list_elem_of_In, in_app_iff. simpl.
      rewrite list_elem_of_In in Hy. intros [H | [H | []]]; [tauto |].
      subst. tauto.
    + apply IH; [exact Hl | tauto].
Qed.

Lemma NoDup_add_topic (l : list string) (x : string) :
  NoDup l ->
  NoDup (if negb (String.eqb x "") && negb (str_mem x l) then l ++ [x] else l).
Proof.
  intros H. destruct (negb (String.eqb x "")); simpl; [| exact H].
  destruct (str_mem x l) eqn:E; simpl; [exact H |].
  apply NoDup_snoc_fresh; [exact H |].
  intros Hin. apply str_mem_In in Hin. congruence.
Qed.

Lemma patterns_inv_new : patterns_inv new_patterns [].
Proof.
  split; [| split; [| split; [| split]]]; try reflexivity; try constructor.
  intros k Hk. simpl in Hk.
  destruct Hk as [<- | [<- | [<- | [<- | [<- | []]]]]];
    exists 0; split; first [reflexivity | lia].
Qed.

Ltac count_lookups :=
  unfold count_of; cbn [reaction_counts];
  repeat first [ rewrite lookup_insert_eq
               | rewrite lookup_insert_ne by discriminate ].

(** One request keeps the patterns of its user consistent, and does not
    raise. *)
Lemma update_patterns_inv lp u c stored :
  In (reaction_type c) ["ENGAGED"; "MOTIVATED"; "CONFUSED"; "DISTRACTED"; "BORED"] ->
  patterns_inv (default new_patterns (lp !! u)) stored ->
  exists p',
    _update_learning_patterns lp u c = (Returned, <[u := p']> lp)
    /\ patterns_inv p' (stored ++ [c]).
Proof.
  intros Hrt (Hkeys & Hsum & Hlen & Hs & He).
  unfold _update_learning_patterns.
  set (p := default new_patterns (lp !! u)) in *.
  destruct (Hkeys _ Hrt) as (n & Hn & Hn0). rewrite Hn.
  eexists. split; [reflexivity |].
  split; [| split; [| split; [| split]]].
  - intros k Hk. cbn [reaction_counts].
    destruct (String.eqb_spec k (reaction_type c)) as [->|Hne].
    + rewrite lookup_insert_eq. exists (n + 1). split; [reflexivity | lia].
    + rewrite lookup_insert_ne by congruence. apply Hkeys. exact Hk.
  - cbn [total_interactions]. rewrite Hsum. unfold count_of in *.
    simpl in Hrt.
    destruct Hrt as [E | [E | [E | [E | [E | []]]]]]; rewrite <- E in *;
      count_lookups; rewrite Hn; simpl; lia.
  - cbn [total_interactions]. rewrite Hlen, length_app. simpl. lia.
  - cbn [topics_struggled]. destruct (_ || _); [| exact Hs].
    apply NoDup_add_topic. exact Hs.
  - cbn [topics_excelled]. destruct (_ || _); [exact He |].
    destruct (_ || _); [| exact He]. apply NoDup_add_topic. exact He.
Qed.

Lemma engine_step_inv e r :
  engine_inv e ->
  engine_inv (engine_step e r)
  /\ is_Some (fst (analyze_reaction e (rq_user r) (rq_response r) (rq_cv r)
                     (rq_engagement r) (rq_topic r))).
Proof.
  intros Hinv. unfold engine_step, analyze_reaction.
  set (u := rq_user r).
  set (c := {| corr_user_id := u; ai_response_id := rq_response r;
               corr_cv_signals := rq_cv r;
               corr_engagement_signals := rq_engagement r;
               engagement_score := _calculate_engagement (rq_cv r) (rq_engagement r);
               reaction_type :=
                 _classify_reaction (rq_cv r) (rq_engagement r)
                   (_calculate_engagement (rq_cv r) (rq_engagement r));
               corr_topic := rq_topic r;
               adaptation :=
                 _generate_adaptation
                   (_classify_reaction (rq_cv r) (rq_engagement r)
                      (_calculate_engagement (rq_cv r) (rq_engagement r))) |}).
  assert (Hp : patterns_inv (default new_patterns (learning_patterns e !! u))
                 (default [] (correlations e !! u))).
  { pose proof (Hinv u) as H. destruct (learning_patterns e !! u); simpl;
      [exact H | rewrite H; apply patterns_inv_new]. }
  destruct (update_patterns_inv (learning_patterns e) u c _
              (classify_reaction_names _ _ _) Hp) as (p' & E & Hp').
  rewrite E. cbn [fst snd]. split; [| eauto].
  intros u'. cbn [learning_patterns correlations].
  destruct (decide (u' = u)) as [->|Hne].
  - rewrite !lookup_insert_eq. exact Hp'.
  - rewrite !lookup_insert_ne by congruence. apply Hinv.
Qed.

Lemma engine_run_snoc e rs r :
  engine_run e (rs ++ [r]) = engine_step (engine_run e rs) r.
Proof. unfold engine_run. rewrite fold_left_app. reflexivity. Qed.

Lemma engine_run_inv rs : engine_inv (engine_run empty_engine rs).
Proof.
  induction rs as [|r rs IH] using rev_ind.
  - intros u. simpl. rewrite !lookup_empty. reflexivity.
  - rewrite engine_run_snoc. apply engine_step_inv. exact IH.
Qed.

(** X18.  After any sequence of requests to an engine that started empty,
    the patterns of every user are consistent with the stored correlations:
    the five reaction counts exist and are not negative, the interaction
    total is their sum and the number of correlations stored for the user,
    and neither topic list holds a topic twice; a user without patterns has
    no correlations.  No request raises. *)
Theorem X18_engine_patterns (rs : list Reaction) (u : string) :
  let e := engine_run empty_engine rs in
  match learning_patterns e !! u with
  | Some p =>
      (forall k, In k ["ENGAGED"; "MOTIVATED"; "CONFUSED"; "DISTRACTED"; "BORED"] ->
                 exists n, reaction_counts p !! k = Some n /\ 0 <= n)
      /\ total_interactions p
         = count_of p "ENGAGED" + count_of p "MOTIVATED" + count_of p "CONFUSED"
           + count_of p "DISTRACTED" + count_of p "BORED"
      /\ total_interactions p = Z.of_nat (length (default [] (correlations e !! u)))
      /\ NoDup (topics_struggled p)
      /\ NoDup (topics_excelled p)
  | None => correlations e !! u = None
  end
  /\ forall r, is_Some (fst (analyze_reaction e (rq_user r) (rq_response r)
                               (rq_cv r) (rq_engagement r) (rq_topic r))).
Proof.
  intros e. split.
  - exact (engine_run_inv rs u).
  - intros r. exact (proj2 (engine_step_inv e r (engine_run_inv rs))).
Qed.

Lemma X18_engine_patterns_witness :
  exists e p,
    e = engine_run empty_engine sample_reactions
    /\ learning_patterns e !! "hana" = Some p
    /\ total_interactions p = Z.of_nat (length (default [] (correlations e !! "hana")))
    /\ NoDup (topics_struggled p).
Proof.
  pose proof (X18_engine_patterns sample_reactions "hana") as H.
  cbv zeta in H.
  remember (engine_run empty_engine sample_reactions) as e eqn:He.
  destruct H as [H _].
  destruct (learning_patterns e !! "hana") as [p|] eqn:Hp.
  - exists e, p. repeat split; tauto.
  - exfalso. subst e. vm_compute in Hp. discriminate Hp.
Defined.


(** ** Focus Room sessions *)

Lemma distracted_entries_snoc log b :
  distracted_entries (log ++ [b])
  = (distracted_entries log + (if String.eqb b "distracted" then 1 else 0))%nat.
Proof.
  unfold distracted_entries. rewrite List.filter_app, length_app. simpl.
  destruct (String.eqb b "distracted"); reflexivity.
Qed.

Lemma log_focus_behavior_found m sid s b :
  m !! sid = Some s ->
  log_focus_behavior m sid b
  = (expected_behavior_response (behavior_log s) b,
     <[sid := log_behavior s b]> m).
Proof.
  intros Hs. unfold log_focus_behavior, expected_behavior_response. rewrite Hs.
  cbn [log_behavior behavior_log]. rewrite distracted_entries_snoc.
  destruct (String.eqb b "distracted"); cbn [andb]; [| reflexivity].
  destruct (3 <=? distracted_entries (behavior_log s))%nat eqn:E.
  - apply Nat.leb_le in E.
    destruct (3 <? distracted_entries (behavior_log s) + 1)%nat eqn:E'; [reflexivity |].
    apply Nat.ltb_ge in E'. lia.
  - apply Nat.leb_gt in E.
    destruct (3 <? distracted_entries (behavior_log s) + 1)%nat eqn:E'; [| reflexivity].
    apply Nat.ltb_lt in E'. lia.
Qed.

Lemma behavior_run_found bs : forall m sid s,
  m !! sid = Some s ->
  exists s',
    behavior_run m sid bs !! sid = Some s'
    /\ behavior_log s' = behavior_log s ++ bs
    /\ concepts_covered s' = concepts_covered s
    /\ interactions s' = interactions s
    /\ forall sid', sid' <> sid -> behavior_run m sid bs !! sid' = m !! sid'.
Proof.
  induction bs as [|b bs IH]; intros m sid s Hs.
  - exists s. simpl. rewrite app_nil_r. auto.
  - unfold behavior_run. cbn [fold_left].
    rewrite (log_focus_behavior_found _ _ _ b Hs). cbn [snd].
    destruct (IH (<[sid := log_behavior s b]> m) sid (log_behavior s b))
      as (s' & H1 & H2 & H3 & H4 & H5).
    { apply lookup_insert_eq. }
    exists s'. split; [exact H1 |]. split.
    { rewrite H2. cbn [log_behavior behavior_log]. rewrite <- app_assoc. reflexivity. }
    split; [exact H3 |]. split; [exact H4 |].
    intros sid' Hne. fold (behavior_run (<[sid := log_behavior s b]> m) sid bs).
    rewrite (H5 sid' Hne). apply lookup_insert_ne. congruence.
Qed.

(** X19.  Behaviour reports for a session.  After any sequence of reports
    the behaviour log is the old log followed by the reports, in order; the
    concepts, the interactions and every other session are untouched.  One
    more report is answered with "intervention needed" exactly when it is
    "distracted" and the log already holds three or more "distracted"
    entries: the count is never reset, so from the fourth such report on
    every one of them asks for an intervention, whatever comes between.  A
    report for a session that is not active returns the error and changes
    nothing. *)
Theorem X19_behavior_reports (m : Sessions) (sid : string) (bs : list string)
    (b : string) :
  match m !! sid with
  | Some s =>
      exists s',
        behavior_run m sid bs !! sid = Some s'
        /\ behavior_log s' = behavior_log s ++ bs
        /\ concepts_covered s' = concepts_covered s
        /\ interactions s' = interactions s
        /\ (forall sid', sid' <> sid -> behavior_run m sid bs !! sid' = m !! sid')
        /\ fst (log_focus_behavior (behavior_run m sid bs) sid b)
           = expected_behavior_response (behavior_log s ++ bs) b
  | None =>
      behavior_run m sid bs = m
      /\ log_focus_behavior m sid b = (SessionNotFound, m)
  end.
Proof.
  destruct (m !! sid) as [s|] eqn:Hs.
  - destruct (behavior_run_found bs m sid s Hs) as (s' & H1 & H2 & H3 & H4 & H5).
    exists s'. repeat (split; [assumption |]).
    rewrite (log_focus_behavior_found _ _ _ b H1). cbn [fst]. rewrite H2. reflexivity.
  - split.
    + induction bs as [|b' bs IH]; [reflexivity |].
      unfold behavior_run. cbn [fold_left]. unfold log_focus_behavior at 2.
      rewrite Hs. cbn [snd]. exact IH.
    + unfold log_focus_behavior. rewrite Hs. reflexivity.
Qed.

Lemma X19_behavior_reports_witness :
  fst (log_focus_behavior
         (behavior_run one_session "s1" ["distracted"; "focused"; "distracted"; "distracted"])
         "s1" "distracted") = InterventionNeeded
  /\ fst (log_focus_behavior
            (behavior_run one_session "s1" ["distracted"; "focused"; "distracted"])
            "s1" "distracted") = BehaviorLogged.
Proof.
  split.
  - pose proof (X19_behavior_reports one_session "s1"
                  ["distracted"; "focused"; "distracted"; "distracted"] "distracted") as H.
    change (one_session !! "s1") with (Some (new_session "ivy" "algebra")) in H.
    destruct H as (s' & _ & _ & _ & _ & _ & H). rewrite H. reflexivity.
  - pose proof (X19_behavior_reports one_session "s1"
                  ["distracted"; "focused"; "distracted"] "distracted") as H.
    change (one_session !! "s1") with (Some (new_session "ivy" "algebra")) in H.
    destruct H as (s' & _ & _ & _ & _ & _ & H). rewrite H. reflexivity.
Defined.

Lemma add_concept_spec s c :
  behavior_log (add_concept s c) = behavior_log s
  /\ interactions (add_concept s c) = interactions s
  /\ (NoDup (concepts_covered s) -> NoDup (concepts_covered (add_concept s c)))
  /\ (forall x, In x (concepts_covered (add_concept s c))
                <-> In x (concepts_covered s) \/ x = c)
  /\ exists tl, concepts_covered (add_concept s c) = concepts_covered s ++ tl.
Proof.
  unfold add_concept. destruct (str_mem c (concepts_covered s)) eqn:E.
  - apply str_mem_In in E. repeat split; auto.
    + intros [H| ->]; assumption.
    + exists []. rewrite app_nil_r. reflexivity.
  - cbn [behavior_log interactions concepts_covered].
    assert (Hn : ~ In c (concepts_covered s)).
    { intros H. apply str_mem_In in H. congruence. }
    repeat split; auto.
    + intros Hd. apply NoDup_snoc_fresh; assumption.
    + intros H. apply in_app_or in H. destruct H as [H|[H|[]]]; auto.
    + intros [H| ->]; apply in_or_app; [left; assumption | right; left; reflexivity].
    + exists [c]. reflexivity.
Qed.

Lemma add_concepts_spec cs : forall s,
  behavior_log (fold_left add_concept cs s) = behavior_log s
  /\ interactions (fold_left add_concept cs s) = interactions s
  /\ (NoDup (concepts_covered s) -> NoDup (concepts_covered (fold_left add_concept cs s)))
  /\ (forall x, In x (concepts_covered (fold_left add_concept cs s))
                <-> In x (concepts_covered s) \/ In x cs)
  /\ exists tl, concepts_covered (fold_left add_concept cs s) = concepts_covered s ++ tl.
Proof.
  induction cs as [|c cs IH]; intros s.
  - simpl. repeat split; auto.
    + intros [H|[]]; exact H.
    + exists []. rewrite app_nil_r. reflexivity.
  - cbn [fold_left].
    destruct (IH (add_concept s c)) as (B & I & N & M & (tl & T)).
    destruct (add_concept_spec s c) as (B0 & I0 & N0 & M0 & (tl0 & T0)).
    split; [congruence |]. split; [congruence |]. split; [auto |]. split.
    + intros x. rewrite M, M0. simpl. intuition.
    + exists (tl0 ++ tl). rewrite T, T0, <- app_assoc. reflexivity.
Qed.

(** X20.  Recording an interaction in an active session whose concepts hold
    no duplicate: the answer counts one interaction more than before and
    returns the stored concepts; these still hold no duplicate, are the old
    concepts followed by new ones, and hold exactly the old concepts and the
    ones passed in; the behaviour log and every other session are untouched.
    A missing or empty list of concepts changes no concept. *)
Theorem X20_record_interaction (m : Sessions) (sid : string) (s : FocusSession)
    (q r : string) (conf : float) (concepts : option (list string)) :
  m !! sid = Some s ->
  NoDup (concepts_covered s) ->
  exists s',
    record_interaction m sid q r conf concepts
    = (Some (S (length (interactions s)), concepts_covered s'), <[sid := s']> m)
    /\ interactions s' = interactions s ++ [mkInteraction q r conf]
    /\ behavior_log s' = behavior_log s
    /\ NoDup (concepts_covered s')
    /\ (exists tl, concepts_covered s' = concepts_covered s ++ tl)
    /\ (forall x, In x (concepts_covered s')
                  <-> In x (concepts_covered s) \/ In x (default [] concepts))
    /\ (default [] concepts = [] -> concepts_covered s' = concepts_covered s).
Proof.
  intros Hs Hd. unfold record_interaction. rewrite Hs.
  set (s1 := add_interaction s q r conf).
  assert (H1 : interactions s1 = interactions s ++ [mkInteraction q r conf]) by reflexivity.
  assert (Hlen : length (interactions s1) = S (length (interactions s))).
  { rewrite H1, length_app. simpl. lia. }
  destruct concepts as [[|c cs]|]; cbn [default].
  - exists s1. rewrite Hlen. repeat split; auto.
    + exists []. rewrite app_nil_r. reflexivity.
    + intros [H|[]]; exact H.
  - destruct (add_concepts_spec (c :: cs) s1) as (B & I & N & M & T).
    exists (fold_left add_concept (c :: cs) s1).
    rewrite I, Hlen. repeat split; auto.
    + apply M.
    + apply M.
    + discriminate.
  - exists s1. rewrite Hlen. repeat split; auto.
    + exists []. rewrite app_nil_r. reflexivity.
    + intros [H|[]]; exact H.
Qed.

Lemma X20_record_interaction_witness :
  exists s',
    record_interaction one_session "s1" "q" "a" 1%float (Some ["sets"; "maps"; "sets"])
    = (Some (1%nat, concepts_covered s'), <["s1" := s']> one_session)
    /\ concepts_covered s' = ["sets"; "maps"].
Proof.
  destruct (X20_record_interaction one_session "s1" (new_session "ivy" "algebra")
              "q" "a" 1%float (Some ["sets"; "maps"; "sets"])
              eq_refl NoDup_nil_2) as (s' & E & _).
  exists s'. split; [exact E |].
  vm_compute in E. inversion E. reflexivity.
Defined.

(** ** The knowledge graph *)

Lemma float_ltb_leb (x y : float) :
  (x <? y)%float = true -> (x <=? y)%float = true.
Proof.
  rewrite FloatAxioms.ltb_spec, FloatAxioms.leb_spec.
  unfold SpecFloat.SFltb, SpecFloat.SFleb.
  destruct (SpecFloat.SFcompare _ _) as [[]|]; congruence.
Qed.

Lemma float_add_nan (x : float) : (x + nan)%float = nan.
Proof.
  rewrite <- (FloatAxioms.SF2Prim_Prim2SF (x + nan)), FloatAxioms.add_spec.
  replace (FloatOps.Prim2SF nan) with SpecFloat.S754_nan by (vm_compute; reflexivity).
  unfold FloatAxioms.SF64add, SpecFloat.SFadd.
  destruct (FloatOps.Prim2SF x) as [| [] | |]; vm_compute; reflexivity.
Qed.

Lemma clamp_range (x : float) :
  (0 <=? py_max_0 (py_min_1 x))%float = true
  /\ (py_max_0 (py_min_1 x) <=? 1)%float = true.
Proof.
  unfold py_min_1. destruct (x <? 1)%float eqn:E1.
  - unfold py_max_0. destruct (0 <? x)%float eqn:E0.
    + split; apply float_ltb_leb; assumption.
    + split; reflexivity.
  - split; reflexivity.
Qed.

Lemma update_concept_node_spec g u c d delta mis con now :
  let old := default ∅ (g !! u) !! c in
  let r := update_concept_node g u c d delta mis con now in
  snd r !! u = Some (<[c := fst r]> (default ∅ (g !! u)))
  /\ (forall u', u' <> u -> snd r !! u' = g !! u')
  /\ node_name (fst r) = from_option node_name c old
  /\ node_confidence (fst r)
     = py_max_0 (py_min_1 (from_option node_confidence 0%float old + delta)%float)
  /\ (from_option (fun n => NoDup (misconceptions n) /\ ~ In "" (misconceptions n)) True old ->
      NoDup (misconceptions (fst r)) /\ ~ In "" (misconceptions (fst r)))
  /\ (forall x, In x (misconceptions (fst r))
                <-> In x (from_option misconceptions [] old) \/ (mis = Some x /\ x <> ""))
  /\ node_created_at (fst r) = from_option node_created_at now old
  /\ node_updated_at (fst r) = now.
Proof.
  intros old r. subst r. unfold update_concept_node. cbn [fst snd].
  fold old.
  set (node := match old with Some node => node | None => _ end).
  assert (Hn : node_name node = from_option node_name c old
               /\ node_confidence node = from_option node_confidence 0%float old
               /\ misconceptions node = from_option misconceptions [] old
               /\ node_created_at node = from_option node_created_at now old).
  { subst node. destruct old; simpl; auto. }
  destruct Hn as (Hname & Hconf & Hmis & Hcr).
  cbn [node_name node_confidence misconceptions node_created_at node_updated_at].
  split; [apply lookup_insert_eq |].
  split; [intros u' Hne; apply lookup_insert_ne; congruence |].
  split; [exact Hname |]. split; [rewrite Hconf; reflexivity |].
  assert (Hinv : from_option (fun n => NoDup (misconceptions n) /\ ~ In "" (misconceptions n))
                   True old -> NoDup (misconceptions node) /\ ~ In "" (misconceptions node)).
  { subst node. destruct old; simpl; [auto |]. intros _. split; [constructor | tauto]. }
  rewrite <- Hmis.
  split; [| split; [| split; [exact Hcr | reflexivity]]].
  - intros H. destruct (Hinv H) as [Hd He]. destruct mis as [m|]; [| auto].
    destruct (String.eqb m "") eqn:Em; cbn [negb andb]; [auto |].
    destruct (str_mem m (misconceptions node)) eqn:Ei; cbn [negb]; [auto |].
    apply String.eqb_neq in Em.
    assert (Hni : ~ In m (misconceptions node)).
    { intros Hi. apply str_mem_In in Hi. congruence. }
    split; [apply NoDup_snoc_fresh; assumption |].
    intros Hi. apply in_app_or in Hi. destruct Hi as [Hi|[Hi|[]]]; [tauto | congruence].
  - intros x. destruct mis as [m|].
    + destruct (String.eqb m "") eqn:Em; cbn [negb andb].
      * apply String.eqb_eq in Em. subst m. split; [auto |].
        intros [H|[H Hx]]; [exact H |]. congruence.
      * apply String.eqb_neq in Em.
        destruct (str_mem m (misconceptions node)) eqn:Ei; cbn [negb].
        -- apply str_mem_In in Ei. split; [auto |].
           intros [H|[H Hx]]; [exact H |]. congruence.
        -- split.
           ++ intros H. apply in_app_or in H. destruct H as [H|[H|[]]]; [auto |].
              subst x. right. auto.
           ++ intros [H|[H Hx]]; apply in_or_app; [auto |].
              right. left. congruence.
    + split; [auto |]. intros [H|[H _]]; [exact H | discriminate].
Qed.

Lemma concept_step_inv g u : graph_inv g -> graph_inv (concept_step g u).
Proof.
  intros Hg. unfold concept_step.
  pose proof (update_concept_node_spec g (cu_user u) (cu_concept u) (cu_department u)
                (cu_delta u) (cu_misconception u) (cu_connection u) (cu_now u)) as H.
  cbv zeta in H.
  set (r := update_concept_node _ _ _ _ _ _ _ _) in *.
  destruct H as (Hu & Ho & Hname & Hconf & Hm & _).
  intros u' cs c n Hcs Hn.
  destruct (decide (u' = cu_user u)) as [->|Hne].
  - rewrite Hu in Hcs. assert (cs = <[cu_concept u := fst r]> (default ∅ (g !! cu_user u)))
      by congruence. subst cs.
    destruct (decide (c = cu_concept u)) as [->|Hc].
    + rewrite lookup_insert_eq in Hn. assert (n = fst r) by congruence. subst n.
      assert (Hold : from_option (fun n => node_inv (cu_concept u) n) True
                       (default ∅ (g !! cu_user u) !! cu_concept u)).
      { destruct (g !! cu_user u) as [cs0|] eqn:E0; simpl.
        - destruct (cs0 !! cu_concept u) as [n0|] eqn:E1; simpl; [| exact I].
          exact (Hg _ _ _ _ E0 E1).
        - rewrite lookup_empty. exact I. }
      destruct (default ∅ (g !! cu_user u) !! cu_concept u) as [n0|];
        cbn [from_option] in *.
      * destruct Hold as (A & B & C & D & E).
        destruct (Hm (conj D E)) as [D' E'].
        split; [rewrite Hname; exact A |]. rewrite Hconf.
        split; [apply clamp_range |]. split; [apply clamp_range |]. auto.
      * destruct (Hm I) as [D' E'].
        split; [exact Hname |]. rewrite Hconf.
        split; [apply clamp_range |]. split; [apply clamp_range |]. auto.
    + rewrite lookup_insert_ne in Hn by congruence.
      destruct (g !! cu_user u) as [cs0|] eqn:E0; simpl in Hn.
      * exact (Hg _ _ _ _ E0 Hn).
      * rewrite lookup_empty in Hn. discriminate.
  - rewrite (Ho u' Hne) in Hcs. exact (Hg _ _ _ _ Hcs Hn).
Qed.

Lemma concept_run_snoc g us u :
  concept_run g (us ++ [u]) = concept_step (concept_run g us) u.
Proof. unfold concept_run. rewrite fold_left_app. reflexivity. Qed.

Lemma concept_run_inv us : graph_inv (concept_run ∅ us).
Proof.
  induction us as [|u us IH] using rev_ind.
  - intros u cs c n H. unfold concept_run in H. cbn [fold_left] in H.
    unfold ConceptNodes in H. rewrite lookup_empty in H. discriminate.
  - rewrite concept_run_snoc. apply concept_step_inv. exact IH.
Qed.

(** X21.  The knowledge graph after any sequence of updates from the empty
    graph.  Every stored node is filed under its own name; its confidence is
    a number between 0 and 1, whatever the deltas were (infinite or not a
    number included); its misconceptions hold no duplicate and never the
    empty text.  One more update returns the node it stores, touches no
    other user, keeps the time of creation of a node that exists, and a
    delta that is not a number sets the confidence to 1. *)
Theorem X21_knowledge_graph (us : list ConceptUpdate) (u c : string)
    (cs : gmap string ConceptNode) (n : ConceptNode) :
  concept_run ∅ us !! u = Some cs ->
  cs !! c = Some n ->
  (node_name n = c
   /\ (0 <=? node_confidence n)%float = true
   /\ (node_confidence n <=? 1)%float = true
   /\ NoDup (misconceptions n)
   /\ ~ In "" (misconceptions n))
  /\ forall d delta mis con now,
       let r := update_concept_node (concept_run ∅ us) u c d delta mis con now in
       snd r !! u = Some (<[c := fst r]> cs)
       /\ (forall u', u' <> u -> snd r !! u' = concept_run ∅ us !! u')
       /\ node_created_at (fst r) = node_created_at n
       /\ node_updated_at (fst r) = now
       /\ (delta = nan -> node_confidence (fst r) = 1%float).
Proof.
  intros Hcs Hn. split; [exact (concept_run_inv us u cs c n Hcs Hn) |].
  intros d delta mis con now r.
  pose proof (update_concept_node_spec (concept_run ∅ us) u c d delta mis con now) as H.
  cbv zeta in H. fold r in H. rewrite Hcs in H. cbn [from_option id] in H. rewrite Hn in H.
  cbn [from_option] in H.
  destruct H as (Hu & Ho & _ & Hconf & _ & _ & Hcr & Hup).
  repeat split; auto.
  intros ->. rewrite Hconf.
  rewrite float_add_nan. reflexivity.
Qed.

Lemma X21_knowledge_graph_witness :
  exists cs n,
    concept_run ∅ sample_updates !! "jo" = Some cs
    /\ cs !! "limits" = Some n
    /\ misconceptions n = ["0/0 is 1"]
    /\ node_confidence n = 1%float
    /\ (node_confidence n <=? 1)%float = true.
Proof.
  exists (default ∅ (concept_run ∅ sample_updates !! "jo")).
  exists (default (fst (update_concept_node ∅ "" "" "" 0 None None 0))
            (default ∅ (concept_run ∅ sample_updates !! "jo") !! "limits")).
  assert (Hcs : concept_run ∅ sample_updates !! "jo"
                = Some (default ∅ (concept_run ∅ sample_updates !! "jo")))
    by (vm_compute; reflexivity).
  assert (Hn : default ∅ (concept_run ∅ sample_updates !! "jo") !! "limits"
               = Some (default (fst (update_concept_node ∅ "" "" "" 0 None None 0))
                         (default ∅ (concept_run ∅ sample_updates !! "jo") !! "limits")))
    by (vm_compute; reflexivity).
  destruct (X21_knowledge_graph sample_updates "jo" "limits" _ _ Hcs Hn)
    as [(_ & _ & H1 & _) _].
  split; [exact Hcs |]. split; [exact Hn |].
  split; [vm_compute; reflexivity |]. split; [vm_compute; reflexivity | exact H1].
Defined.
